(** * Event dispatch of the asynchronous ARI client

    A shallow embedding of [aioari/client.py]: the listener registry
    ([Client.on_event], [Client.on_object_event]), the dispatcher
    ([Client.process_ws]), the frame loop ([Client.__run]) and the shutdown
    routine ([Client.close]), followed by the properties the specification
    states about them. *)

From Stdlib Require Import List String Ascii ZArith Bool Arith Lia.
Import ListNotations.
Local Open Scope string_scope.
Local Open Scope list_scope.

(** ** Python values

    The values that travel through the client: decoded JSON (None, booleans,
    integers, strings, lists, dicts with string keys), the tuples Python
    builds for [*args], and opaque objects compared by identity.  A dict is
    an association list in insertion order; Python keeps its keys unique.
    JSON numbers are restricted to integers. *)

Module Py.

Unset Elimination Schemes.
Inductive value : Type :=
| VNone
| VBool (b : bool)
| VInt (z : Z)
| VStr (s : string)
| VList (l : list value)
| VTuple (l : list value)
| VDict (d : list (string * value))
| VObj (id : nat).
Set Elimination Schemes.

Section Induction.
Variable P : value -> Prop.
Hypothesis HNone : P VNone.
Hypothesis HBool : forall b, P (VBool b).
Hypothesis HInt : forall z, P (VInt z).
Hypothesis HStr : forall s, P (VStr s).
Hypothesis HList : forall l, Forall P l -> P (VList l).
Hypothesis HTuple : forall l, Forall P l -> P (VTuple l).
Hypothesis HDict : forall d, Forall (fun kv => P (snd kv)) d -> P (VDict d).
Hypothesis HObj : forall i, P (VObj i).

Fixpoint value_ind (v : value) : P v :=
  let many := fix many (l : list value) : Forall P l :=
    match l with
    | [] => Forall_nil P
    | x :: t => Forall_cons x (value_ind x) (many t)
    end in
  let fields := fix fields (d : list (string * value))
      : Forall (fun kv => P (snd kv)) d :=
    match d with
    | [] => Forall_nil _
    | kv :: t => Forall_cons kv (value_ind (snd kv)) (fields t)
    end in
  match v with
  | VNone => HNone
  | VBool b => HBool b
  | VInt z => HInt z
  | VStr s => HStr s
  | VList l => HList l (many l)
  | VTuple l => HTuple l (many l)
  | VDict d => HDict d (fields d)
  | VObj i => HObj i
  end.
End Induction.

(** Element-wise comparison of two sequences, and the two halves of dict
    comparison: every entry of the left dict has an equal entry under the
    same key on the right, and conversely.  In [covers] the comparison [f]
    still receives the left dict's value first. *)
Section Pointwise.
Context {A B : Type} (f : A -> B -> bool).

Fixpoint seq_eqb (l1 : list A) (l2 : list B) : bool :=
  match l1, l2 with
  | [], [] => true
  | x :: t1, y :: t2 => f x y && seq_eqb t1 t2
  | _, _ => false
  end.

Definition dict_incl (d1 : list (string * A)) (d2 : list (string * B)) : bool :=
  forallb (fun kv1 =>
    existsb (fun kv2 => String.eqb (fst kv1) (fst kv2) && f (snd kv1) (snd kv2)) d2) d1.

Definition dict_covers (d1 : list (string * A)) (d2 : list (string * B)) : bool :=
  forallb (fun kv2 =>
    existsb (fun kv1 => String.eqb (fst kv1) (fst kv2) && f (snd kv1) (snd kv2)) d1) d2.
End Pointwise.

(** Python's [==] on these values.  [True == 1] and [False == 0]; a list is
    never equal to a tuple; dicts compare by content, whatever the order of
    insertion; an opaque object is equal to itself only. *)
Fixpoint eq (a b : value) {struct a} : bool :=
  match a, b with
  | VNone, VNone => true
  | VBool x, VBool y => Bool.eqb x y
  | VBool x, VInt y => Z.eqb (Z.b2z x) y
  | VInt x, VBool y => Z.eqb x (Z.b2z y)
  | VInt x, VInt y => Z.eqb x y
  | VStr x, VStr y => String.eqb x y
  | VList x, VList y => seq_eqb eq x y
  | VTuple x, VTuple y => seq_eqb eq x y
  | VDict x, VDict y => dict_incl eq x y && dict_covers eq x y
  | VObj i, VObj j => Nat.eqb i j
  | _, _ => false
  end.

(** Truth value of an object, as tested by [if x], [x or y], [not x]. *)
Definition truthy (v : value) : bool :=
  match v with
  | VNone => false
  | VBool b => b
  | VInt z => negb (Z.eqb z 0)
  | VStr s => negb (String.eqb s "")
  | VList l | VTuple l => negb (Nat.eqb (List.length l) 0)
  | VDict d => negb (Nat.eqb (List.length d) 0)
  | VObj _ => true
  end.

(** [d.get(k)], [k in d], [d[k] = v] and [d.values()] on an
    insertion-ordered dict with string keys. *)
Section Dict.
Context {A : Type}.

Fixpoint dict_get (k : string) (d : list (string * A)) : option A :=
  match d with
  | [] => None
  | (k', v) :: t => if String.eqb k k' then Some v else dict_get k t
  end.

Definition dict_mem (k : string) (d : list (string * A)) : bool :=
  match dict_get k d with Some _ => true | None => false end.

Fixpoint dict_set (k : string) (v : A) (d : list (string * A)) : list (string * A) :=
  match d with
  | [] => [(k, v)]
  | (k', v') :: t =>
      if String.eqb k k' then (k, v) :: t else (k', v') :: dict_set k v t
  end.

Definition dict_keys (d : list (string * A)) : list string := map fst d.
Definition dict_values (d : list (string * A)) : list A := map snd d.
End Dict.

(** [x in t] for a tuple [t]: some element is equal to [x]. *)
Definition contains (x : value) (t : list value) : bool := existsb (eq x) t.

End Py.

(** ** Exceptions and results *)

Inductive exn : Type :=
| ValueError (text : string)
| TypeError (text : string)
| KeyError (text : string)
| AttributeError (text : string)
| JSONDecodeError (text : string)   (* a subclass of ValueError *)
| OtherException (name : string)    (* any other subclass of Exception *)
| BaseOnly (name : string).         (* CancelledError, KeyboardInterrupt, SystemExit *)

(** [isinstance(e, Exception)], the test of [except Exception]. *)
Definition is_Exception (e : exn) : bool :=
  match e with BaseOnly _ => false | _ => true end.

(** [isinstance(e, TypeError)], the test of [except TypeError]. *)
Definition is_TypeError (e : exn) : bool :=
  match e with TypeError _ => true | _ => false end.

Inductive result (A : Type) : Type :=
| Ok (a : A)
| Raise (e : exn).
Arguments Ok {A} a.
Arguments Raise {A} e.

(** ** Data model of the client *)

(** [factory_fn(self, raw)]: the domain object a factory builds from a raw
    JSON value keeps the factory and the value it was built from. *)
Record domain_object : Type := {
  built_by : string;
  raw : Py.value
}.

(** What [extract_objects] hands to the user's callback as first argument:
    [None], one domain object, or a dict from field name to domain object. *)
Inductive extracted : Type :=
| ExNone
| ExObject (o : domain_object)
| ExMapping (m : list (string * domain_object)).

(** A positional argument received by a user callback. *)
Inductive argument : Type :=
| ArgValue (v : Py.value)
| ArgExtracted (x : extracted).

(** A callable stored in the registry: a function of the caller, known by
    its identity, or an [extract_objects] closure created by
    [on_object_event], with the variables it captured.  Every call of
    [on_object_event] creates a new closure. *)
Inductive callback : Type :=
| UserCb (id : nat)
| ExtractObjects (closure : nat) (event_cb : nat) (factory_fn : string)
                 (obj_fields : list string).

(** [==] on callables is identity. *)
Definition callback_eqb (a b : callback) : bool :=
  match a, b with
  | UserCb i, UserCb j => Nat.eqb i j
  | ExtractObjects c _ _ _, ExtractObjects c' _ _ _ => Nat.eqb c c'
  | _, _ => false
  end.

(** The tuple [(event_cb, event_obj, args, kwargs, as_task)] that
    [on_event] stores. *)
Record registration : Type := {
  event_cb : callback;
  event_obj : Py.value;
  args : list Py.value;
  kwargs : list (string * Py.value);
  as_task : Py.value
}.

(** [a == b] on two such tuples: component by component. *)
Definition registration_eqb (a b : registration) : bool :=
  callback_eqb (event_cb a) (event_cb b)
  && Py.eq (event_obj a) (event_obj b)
  && Py.eq (Py.VTuple (args a)) (Py.VTuple (args b))
  && Py.eq (Py.VDict (kwargs a)) (Py.VDict (kwargs b))
  && Py.eq (as_task a) (as_task b).

(** [x in item] for a decoded JSON value [x] and a stored tuple [item]:
    [x] is compared with each of the five components.  A callable is never
    equal to a decoded value, so the first component never matches. *)
Definition in_item (x : Py.value) (item : registration) : bool :=
  Py.contains x
    [event_obj item; Py.VTuple (args item); Py.VDict (kwargs item); as_task item].

(** Event models of the Swagger declaration: [event_model['properties']]
    maps a field name to a description [v] with [v['type']]. *)
Record swagger_property : Type := { prop_type : string }.
Record swagger_model : Type := { properties : list (string * swagger_property) }.

(** A tracked WebSocket, with what its collaborators answer:
    [get_extra_info('peername')] ([None] or a sequence) and the outcome of
    [close()] ([None] when it returns). *)
Record websocket : Type := {
  ws_id : nat;
  peername : option (list Py.value);
  ws_close : option exn
}.

Record client : Type := {
  base_url : string;
  app : option string;
  event_models : list (string * swagger_model);
  event_listeners : list (string * list registration);
  websockets : list websocket;
  exception_handler : exn -> option exn;  (* [None] when the handler returns *)
  closures : nat;                         (* closures created so far *)
  http_request : string -> string -> option exn;  (* [http_client.request] *)
  swagger_close : option exn              (* [swagger.close()] *)
}.

Definition set_event_listeners (l : list (string * list registration)) (c : client) : client :=
  {| base_url := base_url c; app := app c; event_models := event_models c;
     event_listeners := l; websockets := websockets c;
     exception_handler := exception_handler c; closures := closures c;
     http_request := http_request c; swagger_close := swagger_close c |}.

Definition set_websockets (w : list websocket) (c : client) : client :=
  {| base_url := base_url c; app := app c; event_models := event_models c;
     event_listeners := event_listeners c; websockets := w;
     exception_handler := exception_handler c; closures := closures c;
     http_request := http_request c; swagger_close := swagger_close c |}.

Definition set_closures (n : nat) (c : client) : client :=
  {| base_url := base_url c; app := app c; event_models := event_models c;
     event_listeners := event_listeners c; websockets := websockets c;
     exception_handler := exception_handler c; closures := n;
     http_request := http_request c; swagger_close := swagger_close c |}.

(** What calling a callable gives: a plain value, an exception, or an
    object with [__await__]. *)
Inductive call_result : Type :=
| Returned
| RaisedSync (e : exn)
| Awaitable (coro : nat).

(** What the client does that an observer can see, in order.  A call of
    user code and an [await] are recorded with what they gave back. *)
Inductive event : Type :=
| Invoked (listener : registration) (msg : Py.value)
| Called (id : nat) (positional : list argument)
         (keywords : list (string * Py.value)) (r : call_result)
| Scheduled (coro : nat)                (* [asyncio.create_task(cb)] *)
| Awaited (coro : nat) (o : option exn) (* [await cb] *)
| Handled (e : exn)                     (* [self.exception_handler(e)] *)
| Logged (level : string) (about : string)
| Requested (method url : string)       (* [http_client.request] *)
| WsClosed (id : nat)                   (* [ws.close()] *)
| SwaggerClosed.                        (* [swagger.close()] *)

(** The code outside the client: the JSON decoder, the callbacks of the
    caller, which may change the client they hold, what awaiting one of
    their awaitables does ([None] when it completes), and which awaitables
    are coroutines, the only ones [asyncio.create_task] accepts. *)
Class Environment : Type := {
  json_loads : string -> result Py.value;
  user_call : nat -> list argument -> list (string * Py.value) ->
              client -> client * call_result;
  await_coro : nat -> client -> client * option exn;
  iscoroutine : nat -> bool
}.

(** ** A monad for the client's methods: state, trace and exceptions *)

Definition M (A : Type) : Type := client -> client * list event * result A.

Definition ret {A} (a : A) : M A := fun st => (st, [], Ok a).
Definition raise {A} (e : exn) : M A := fun st => (st, [], Raise e).
Definition emit (ev : event) : M unit := fun st => (st, [ev], Ok tt).
Definition get : M client := fun st => (st, [], Ok st).
Definition put (st' : client) : M unit := fun _ => (st', [], Ok tt).

Definition bind {A B} (m : M A) (k : A -> M B) : M B :=
  fun st =>
    match m st with
    | (st1, t1, Ok a) =>
        match k a st1 with (st2, t2, r) => (st2, t1 ++ t2, r) end
    | (st1, t1, Raise e) => (st1, t1, Raise e)
    end.

(** [try: m / except <caught> as e: h e]. *)
Definition try_except {A} (m : M A) (caught : exn -> bool) (h : exn -> M A) : M A :=
  fun st =>
    match m st with
    | (st1, t1, Raise e) =>
        if caught e
        then match h e st1 with (st2, t2, r) => (st2, t1 ++ t2, r) end
        else (st1, t1, Raise e)
    | done => done
    end.

Definition lift {A} (r : result A) : M A :=
  match r with Ok a => ret a | Raise e => raise e end.

Declare Scope client_scope.
Delimit Scope client_scope with client.
Notation "x <- m ;; k" := (bind m (fun x => k))
  (at level 61, m at next level, right associativity) : client_scope.
Notation "m ;; k" := (bind m (fun _ => k))
  (at level 61, right associativity) : client_scope.
Local Open Scope client_scope.

(** Sequencing in [result], for the pure parts. *)
Definition rbind {A B} (r : result A) (k : A -> result B) : result B :=
  match r with Ok a => k a | Raise e => Raise e end.

(** ** Python primitives used by the client *)

(** [v[k]] for a string [k]. *)
Definition getitem (v : Py.value) (k : string) : result Py.value :=
  match v with
  | Py.VDict d =>
      match Py.dict_get k d with
      | Some x => Ok x
      | None => Raise (KeyError k)
      end
  | _ => Raise (TypeError "object is not subscriptable by a string")
  end.

(** [v.get(k)]: only a dict has the method. *)
Definition get_method (v : Py.value) (k : string) : result Py.value :=
  match v with
  | Py.VDict d =>
      match Py.dict_get k d with
      | Some x => Ok x
      | None => Ok Py.VNone
      end
  | _ => Raise (AttributeError "object has no attribute 'get'")
  end.

(** Whether a value can be a dict key. *)
Fixpoint hashable (v : Py.value) : bool :=
  match v with
  | Py.VList _ | Py.VDict _ => false
  | Py.VTuple l => forallb hashable l
  | _ => true
  end.

(** [list(d.get(key, []))] on the registry, whose keys are strings. *)
Definition get_listeners (key : Py.value) (d : list (string * list registration))
    : result (list registration) :=
  if hashable key then
    match key with
    | Py.VStr t =>
        match Py.dict_get t d with
        | Some l => Ok l
        | None => Ok []
        end
    | _ => Ok []
    end
  else Raise (TypeError "unhashable type").

(** [l.remove(x)]: drops the first element equal to [x]. *)
Fixpoint list_remove (x : registration) (l : list registration)
    : result (list registration) :=
  match l with
  | [] => Raise (ValueError "list.remove(x): x not in list")
  | y :: t =>
      if registration_eqb y x then Ok t
      else rbind (list_remove x t) (fun t' => Ok (y :: t'))
  end.

(** [del d[k]] when present. *)
Fixpoint dict_remove {A} (k : string) (d : list (string * A)) : list (string * A) :=
  match d with
  | [] => []
  | (k', v) :: t => if String.eqb k k' then t else (k', v) :: dict_remove k t
  end.

(** ** The listener registry: [Client.on_event] *)

(** The loop [for cb in listeners: if event_cb == cb[0]: listeners.remove(cb)].
    The list iterator holds an index into the list that the body shrinks: it
    reads [listeners[i]], advances, and stops once [i] is past the end.  The
    loop makes at most as many steps as the list was long, which [fuel]
    counts. *)
Fixpoint on_event_scan (fuel : nat) (fn : callback) (i : nat)
    (listeners : list registration) : result (list registration) :=
  match fuel with
  | O => Ok listeners
  | S fuel' =>
      match nth_error listeners i with
      | None => Ok listeners
      | Some cb =>
          if callback_eqb fn (event_cb cb)
          then rbind (list_remove cb listeners) (on_event_scan fuel' fn (S i))
          else on_event_scan fuel' fn (S i) listeners
      end
  end.

(** The [EventUnsubscriber] returned by [on_event] captures the event type
    and the stored tuple. *)
Record EventUnsubscriber : Type := {
  unsub_event_type : string;
  callback_obj : registration
}.

Definition setdefault_listeners (event_type : string)
    (d : list (string * list registration)) : list registration :=
  match Py.dict_get event_type d with
  | Some l => l
  | None => []
  end.

Definition on_event (event_type : string) (fn : callback)
    (event_obj0 as_task0 : Py.value) (args0 : list Py.value)
    (kwargs0 : list (string * Py.value)) : M EventUnsubscriber :=
  st <- get ;;
  let listeners := setdefault_listeners event_type (event_listeners st) in
  listeners' <- lift (on_event_scan (List.length listeners) fn 0 listeners) ;;
  let obj := {| event_cb := fn; event_obj := event_obj0; args := args0;
                kwargs := kwargs0; as_task := as_task0 |} in
  emit (Logged "debug" "event_cb") ;;
  put (set_event_listeners
         (Py.dict_set event_type (listeners' ++ [obj]) (event_listeners st)) st) ;;
  ret {| unsub_event_type := event_type; callback_obj := obj |}.

(** [EventUnsubscriber.close]. *)
Definition unsubscriber_close (u : EventUnsubscriber) : M unit :=
  st <- get ;;
  match Py.dict_get (unsub_event_type u) (event_listeners st) with
  | None => raise (KeyError (unsub_event_type u))
  | Some l =>
      if existsb (fun y => registration_eqb y (callback_obj u)) l
      then
        l' <- lift (list_remove (callback_obj u) l) ;;
        put (set_event_listeners
               (Py.dict_set (unsub_event_type u) l' (event_listeners st)) st)
      else ret tt
  end.

(** ** Object events: [Client.on_object_event] and [extract_objects] *)

(** The dict comprehension of [extract_objects]:
    [{f: factory_fn(self, event[f]) for f in obj_fields if event.get(f)}]. *)
Fixpoint build_objects (factory_fn : string) (obj_fields : list string)
    (event : Py.value) (acc : list (string * domain_object))
    : result (list (string * domain_object)) :=
  match obj_fields with
  | [] => Ok acc
  | obj_field :: rest =>
      rbind (get_method event obj_field) (fun present =>
        if Py.truthy present
        then rbind (getitem event obj_field) (fun v =>
               build_objects factory_fn rest event
                 (Py.dict_set obj_field {| built_by := factory_fn; raw := v |} acc))
        else build_objects factory_fn rest event acc)
  end.

(** The first argument [extract_objects] computes for [event_cb]. *)
Definition extract_objects (factory_fn : string) (obj_fields : list string)
    (event : Py.value) : result extracted :=
  rbind (build_objects factory_fn obj_fields event []) (fun obj =>
    if Nat.eqb (List.length obj_fields) 1 then
      match obj with
      | [] => Ok ExNone
      | (_, o) :: _ => Ok (ExObject o)
      end
    else Ok (ExMapping obj)).

(** How the call
    [self.on_event(event_type, extract_objects, as_task=as_task, *args, **kwargs)]
    binds the parameters [event_obj=None, as_task=False, *args, **kwargs] of
    [on_event]: the first extra positional argument lands in [event_obj], a
    second one in [as_task], which the keyword also gives. *)
Definition bind_on_event (extra : list Py.value) (as_task0 : Py.value)
    (kw : list (string * Py.value))
    : result (Py.value * Py.value * list Py.value * list (string * Py.value)) :=
  if Py.dict_mem "as_task" kw || Py.dict_mem "event_type" kw
     || Py.dict_mem "event_cb" kw || Py.dict_mem "self" kw
  then Raise (TypeError "on_event() got multiple values for an argument")
  else
    match extra with
    | [] =>
        match Py.dict_get "event_obj" kw with
        | Some x => Ok (x, as_task0, [], dict_remove "event_obj" kw)
        | None => Ok (Py.VNone, as_task0, [], kw)
        end
    | [x] =>
        if Py.dict_mem "event_obj" kw
        then Raise (TypeError "on_event() got multiple values for argument 'event_obj'")
        else Ok (x, as_task0, [], kw)
    | _ :: _ :: _ =>
        Raise (TypeError "on_event() got multiple values for argument 'as_task'")
    end.

(** [[k for (k, v) in event_model['properties'].items() if v['type'] == model_id]]. *)
Definition fields_of_type (model_id : string) (event_model : swagger_model)
    : list string :=
  map fst (filter (fun kv => String.eqb (prop_type (snd kv)) model_id)
                  (properties event_model)).

Definition on_object_event (event_type : string) (fn : nat)
    (factory_fn model_id : string) (as_task0 : Py.value)
    (args0 : list Py.value) (kwargs0 : list (string * Py.value))
    : M EventUnsubscriber :=
  emit (Logged "debug" "On object event") ;;
  st <- get ;;
  match Py.dict_get event_type (event_models st) with
  | None => raise (ValueError "Cannot find event model")
  | Some event_model =>
      match fields_of_type model_id event_model with
      | [] => raise (ValueError "Event model has no fields of type")
      | obj_fields =>
          let closure := ExtractObjects (closures st) fn factory_fn obj_fields in
          put (set_closures (S (closures st)) st) ;;
          bound <- lift (bind_on_event args0 as_task0 kwargs0) ;;
          match bound with
          | (eo, at_, a, kw) => on_event event_type closure eo at_ a kw
          end
      end
  end.

(** [on_channel_event] forwards [as_task=as_task, *args, **kwargs] to
    [on_object_event], whose fifth positional parameter is [as_task]. *)
Definition on_channel_event (event_type : string) (fn : nat)
    (as_task0 : Py.value) (args0 : list Py.value)
    (kwargs0 : list (string * Py.value)) : M EventUnsubscriber :=
  match args0 with
  | [] =>
      if Py.dict_mem "event_cb" kwargs0 || Py.dict_mem "factory_fn" kwargs0
         || Py.dict_mem "model_id" kwargs0
      then raise (TypeError "on_object_event() got multiple values for an argument")
      else on_object_event event_type fn "Channel" "Channel" as_task0 [] kwargs0
  | _ :: _ =>
      raise (TypeError "on_object_event() got multiple values for argument 'as_task'")
  end.

(** ** The dispatcher: [Client.process_ws] *)

Section Dispatch.
Context {env : Environment}.

(** Calling a user function: the trace records what it received. *)
Definition call_user (id : nat) (positional : list argument)
    (keywords : list (string * Py.value)) : M call_result :=
  fun st =>
    match user_call id positional keywords st with
    | (st', r) => (st', [Called id positional keywords r], Ok r)
    end.

(** [callback(msg, *args, **kwargs)].  For a closure of [on_object_event]
    this runs the body of [extract_objects], which ends in
    [event_cb(obj, event, *args, **kwargs)]. *)
Definition call_callback (cb : callback) (msg : Py.value)
    (args0 : list Py.value) (kwargs0 : list (string * Py.value)) : M call_result :=
  match cb with
  | UserCb id => call_user id (ArgValue msg :: map ArgValue args0) kwargs0
  | ExtractObjects _ fn factory_fn obj_fields =>
      obj <- lift (extract_objects factory_fn obj_fields msg) ;;
      call_user fn (ArgExtracted obj :: ArgValue msg :: map ArgValue args0) kwargs0
  end.

(** [await cb]. *)
Definition await (coro : nat) : M unit :=
  fun st =>
    match await_coro coro st with
    | (st', None) => (st', [Awaited coro None], Ok tt)
    | (st', Some e) => (st', [Awaited coro (Some e)], Raise e)
    end.

(** [self.exception_handler(e)]. *)
Definition handle (e : exn) : M unit :=
  st <- get ;;
  emit (Handled e) ;;
  match exception_handler st e with
  | None => ret tt
  | Some e' => raise e'
  end.

(** [asyncio.create_task(cb)]: a coroutine is wrapped in a task that runs
    later; any other awaitable (a [Future], a [Task]) is refused with
    [TypeError]. *)
Definition create_task (coro : nat) : M unit :=
  if iscoroutine coro
  then emit (Scheduled coro)
  else raise (TypeError "a coroutine was expected").

(** The body of the loop over the resolved listeners: the [try] block and
    its [except Exception] clause. *)
Definition run_listener (listener : registration) (msg : Py.value) : M unit :=
  try_except
    (emit (Invoked listener msg) ;;
     cb <- call_callback (event_cb listener) msg (args listener) (kwargs listener) ;;
     match cb with
     | Returned => ret tt
     | RaisedSync e => raise e
     | Awaitable coro =>
         if Py.truthy (as_task listener)
         then create_task coro
         else await coro
     end)
    is_Exception
    handle.

(** [for listener in listeners: ...] over the list built before the loop. *)
Fixpoint dispatch (listeners : list registration) (msg : Py.value) : M unit :=
  match listeners with
  | [] => ret tt
  | listener :: rest => run_listener listener msg ;; dispatch rest msg
  end.

(** [msg.get('channel').get('id')]. *)
Definition channel_id (msg : Py.value) : result Py.value :=
  rbind (get_method msg "channel") (fun channel => get_method channel "id").

(** [[item for item in items if msg.get('channel').get('id') in item]]:
    the condition is evaluated once per item, so not at all for an empty
    list. *)
Fixpoint matching_items (msg : Py.value) (items : list registration)
    : result (list registration) :=
  match items with
  | [] => Ok []
  | item :: rest =>
      rbind (channel_id msg) (fun x =>
        rbind (matching_items msg rest) (fun found =>
          Ok (if in_item x item then item :: found else found)))
  end.

(** [for o in found: items.remove(o)]. *)
Fixpoint remove_each (found items : list registration)
    : result (list registration) :=
  match found with
  | [] => Ok items
  | o :: rest => rbind (list_remove o items) (remove_each rest)
  end.

(** The loop over [tuple(self.event_listeners.keys())]. *)
Fixpoint collect (msg : Py.value) (keys : list string) : M unit :=
  match keys with
  | [] => ret tt
  | i :: rest =>
      st <- get ;;
      match Py.dict_get i (event_listeners st) with
      | None => raise (KeyError i)
      | Some items =>
          found <- lift (matching_items msg items) ;;
          items' <- lift (remove_each found items) ;;
          put (set_event_listeners
                 (Py.dict_set i items' (event_listeners st)) st) ;;
          collect msg rest
      end
  end.

(** [list(self.event_listeners.get(msg['type'], []))
     + list(self.event_listeners.get('*', []))]. *)
Definition resolve (ty : Py.value) (d : list (string * list registration))
    : result (list registration) :=
  rbind (get_listeners ty d) (fun typed =>
    rbind (get_listeners (Py.VStr "*") d) (fun wildcard =>
      Ok (typed ++ wildcard))).

Definition process_ws (msg : Py.value) : M unit :=
  st <- get ;;
  ty <- lift (getitem msg "type") ;;
  listeners <- lift (resolve ty (event_listeners st)) ;;
  dispatch listeners msg ;;
  ty' <- lift (getitem msg "type") ;;
  if Py.eq ty' (Py.VStr "ChannelDestroyed")
  then st' <- get ;; collect msg (Py.dict_keys (event_listeners st'))
  else ret tt.

(** ** The frame loop: [Client.__run] *)

Inductive WSMsgType : Type :=
| TEXT | BINARY | PING | PONG | CLOSE | CLOSING | CLOSED | ERROR.

(** [aiohttp.WSMessage], a named tuple of three items. *)
Record WSMessage : Type := {
  type : WSMsgType;
  data : string;
  extra : option string
}.

Inductive WSItem : Type :=
| ItemType (t : WSMsgType)
| ItemData (s : string)
| ItemExtra (s : option string).

(** The items of the message, as for any tuple. *)
Definition astuple (msg : WSMessage) : list WSItem :=
  [ItemType (type msg); ItemData (data msg); ItemExtra (extra msg)].

(** [template % operand] for an operand that is a tuple: its items are the
    arguments of the template, one for each of its conversions. *)
Definition percent {A : Type} (conversions : nat) (operand : list A)
    : result unit :=
  match Nat.compare (List.length operand) conversions with
  | Lt => Raise (TypeError "not enough arguments for format string")
  | Gt => Raise (TypeError
                   "not all arguments converted during string formatting")
  | Eq => Ok tt
  end.

(** How the loop stands after the frames it was given: it has left
    ([return] or [break]), or it is suspended in [ws.receive()]. *)
Inductive run_status : Type :=
| Left
| Receiving.

Definition is_event (msg_json : Py.value) : bool :=
  match msg_json with
  | Py.VDict d => Py.dict_mem "type" d
  | _ => false
  end.

(** The loop over what [ws.receive()] returns, frame after frame; [None]
    stands for a receive that returns [None].  The text of the error entry
    is built with ["Invalid event: %s" % msg], one conversion for the
    message, which is a tuple. *)
Fixpoint __run (frames : list (option WSMessage)) : M run_status :=
  match frames with
  | [] => ret Receiving
  | None :: _ => ret Left
  | Some msg :: rest =>
      match type msg with
      | CLOSED | CLOSING => ret Left
      | TEXT =>
          msg_json <- lift (json_loads (data msg)) ;;
          if is_event msg_json
          then process_ws msg_json ;; __run rest
          else
            lift (percent 1 (astuple msg)) ;;
            emit (Logged "error" "Invalid event") ;; __run rest
      | _ =>
          emit (Logged "warning" "Unknown JSON message type") ;; __run rest
      end
  end.

(** A task created by [asyncio.create_task] runs when the event loop gets
    to it.  An exception of its coroutine is stored on the task object;
    nothing calls the client's handler. *)
Definition run_task (coro : nat) : M (option exn) :=
  fun st =>
    match await_coro coro st with
    | (st', o) => (st', [Awaited coro o], Ok o)
    end.
End Dispatch.

(** ** Shutdown: [Client.close] *)

Definition unsubscribe_str : string :=
  "channel:__AST_CHANNEL_ALL_TOPIC,bridge:__AST_BRIDGE_ALL_TOPIC,endpoint:__AST_ENDPOINT_ALL_TOPIC,deviceState:__AST_DEVICE_STATE_ALL_TOPIC".

(** ['%sari/applications/%s/subscription?eventSource=%s'
     % (self.base_url, self.app, unsubscribe_str)]. *)
Definition full_url (st : client) : string :=
  (base_url st ++ "ari/applications/"
   ++ match app st with Some a => a | None => "None" end
   ++ "/subscription?eventSource=" ++ unsubscribe_str)%string.

(** [await self.http_client.request(method, url)]. *)
Definition request (method url : string) : M unit :=
  st <- get ;;
  emit (Requested method url) ;;
  match http_request st method url with
  | None => ret tt
  | Some e => raise e
  end.

(** [get_peer_info]: [tuple(info[:2])] of [ws.get_extra_info('peername')]. *)
Definition get_peer_info (ws : websocket) : result (list Py.value) :=
  match peername ws with
  | None => Raise (TypeError "'NoneType' object is not subscriptable")
  | Some info => Ok (firstn 2 info)
  end.

(** [host, port = t]. *)
Definition unpack_pair (t : list Py.value) : result (Py.value * Py.value) :=
  match t with
  | [host; port] => Ok (host, port)
  | _ => Raise (ValueError "wrong number of values to unpack")
  end.

(** [s.remove(ws)] on the set of tracked sockets; a socket is its identity. *)
Fixpoint set_remove (ws : websocket) (s : list websocket) : result (list websocket) :=
  match s with
  | [] => Raise (KeyError "websocket")
  | w :: t =>
      if Nat.eqb (ws_id w) (ws_id ws) then Ok t
      else rbind (set_remove ws t) (fun t' => Ok (w :: t'))
  end.

Definition websockets_remove (ws : websocket) : M unit :=
  st <- get ;;
  s <- lift (set_remove ws (websockets st)) ;;
  put (set_websockets s st).

(** [await ws.close()]. *)
Definition close_websocket (ws : websocket) : M unit :=
  emit (WsClosed (ws_id ws)) ;;
  match ws_close ws with
  | None => ret tt
  | Some e => raise e
  end.

(** The loop [for ws in list(self.websockets)].  The [try] block holds the
    peer lookup and the unpacking; its [except TypeError] clause removes
    and closes the socket and continues with the next one. *)
Fixpoint close_each (sockets : list websocket) : M unit :=
  match sockets with
  | [] => ret tt
  | ws :: rest =>
      peer <- try_except
                (p <- lift (rbind (get_peer_info ws) unpack_pair) ;; ret (Some p))
                is_TypeError
                (fun _ => websockets_remove ws ;; close_websocket ws ;; ret None) ;;
      match peer with
      | None => close_each rest
      | Some _ =>
          emit (Logged "info" "Successfully disconnected") ;;
          websockets_remove ws ;;
          close_websocket ws ;;
          close_each rest
      end
  end.

(** [await self.swagger.close()]. *)
Definition close_swagger : M unit :=
  st <- get ;;
  emit SwaggerClosed ;;
  match swagger_close st with
  | None => ret tt
  | Some e => raise e
  end.

Definition close : M unit :=
  st <- get ;;
  try_except (request "delete" (full_url st)) is_Exception (fun _ => ret tt) ;;
  st' <- get ;;
  close_each (websockets st') ;;
  close_swagger.

(** ** A concrete setting for the examples *)

Module Sample.

Definition quote : string := String "034"%char EmptyString.

(** The text of the JSON object with the single member [key: value],
    both strings. *)
Definition member_text (key value : string) : string :=
  (quote ++ key ++ quote ++ ":" ++ quote ++ value ++ quote)%string.

Definition destroyed_text : string :=
  ("{" ++ member_text "type" "ChannelDestroyed" ++ "}")%string.

Definition untyped_text : string :=
  ("{" ++ member_text "channel" "42" ++ "}")%string.

(** [json.loads] on the payloads of the examples; any other payload is
    taken here as undecodable. *)
Definition loads (s : string) : result Py.value :=
  if String.eqb s destroyed_text
  then Ok (Py.VDict [("type", Py.VStr "ChannelDestroyed")])
  else if String.eqb s untyped_text
  then Ok (Py.VDict [("channel", Py.VStr "42")])
  else if String.eqb s "[1, 2]"
  then Ok (Py.VList [Py.VInt 1; Py.VInt 2])
  else if String.eqb s "null"
  then Ok Py.VNone
  else Raise (JSONDecodeError "Expecting value").

(** The caller's functions.  1 returns; 2 raises; 3 is [async] and fails
    once it runs (coroutine 7); 4 is [async] and completes (coroutine 8);
    5 empties the registry and returns. *)
Definition calls (id : nat) (positional : list argument)
    (keywords : list (string * Py.value)) (st : client) : client * call_result :=
  match id with
  | 2 => (st, RaisedSync (OtherException "boom"))
  | 3 => (st, Awaitable 7)
  | 4 => (st, Awaitable 8)
  | 5 => (set_event_listeners [] st, Returned)
  | _ => (st, Returned)
  end.

Definition awaits (coro : nat) (st : client) : client * option exn :=
  match coro with
  | 7 => (st, Some (OtherException "late"))
  | _ => (st, None)
  end.

(** What the functions above return on a call is a coroutine; awaitable 9
    is a [Future]. *)
Definition coroutines (coro : nat) : bool := negb (Nat.eqb coro 9).

Definition environment : Environment :=
  {| json_loads := loads; user_call := calls; await_coro := awaits;
     iscoroutine := coroutines |}.

(** The handler [Client.init] installs: it logs and returns. *)
Definition log_exception (e : exn) : option exn := None.

(** A client after [init]: no listener, no socket. *)
Definition fresh : client :=
  {| base_url := "http://localhost:8088/"; app := Some "hello";
     event_models :=
       [("ChannelTalkingStarted",
         {| properties := [("channel", {| prop_type := "Channel" |})] |});
        ("BridgeBlindTransfer",
         {| properties := [("channel", {| prop_type := "Channel" |});
                           ("replace_channel", {| prop_type := "Channel" |});
                           ("bridge", {| prop_type := "Bridge" |})] |})];
     event_listeners := [];
     websockets := [];
     exception_handler := log_exception;
     closures := 0;
     http_request := fun _ _ => None;
     swagger_close := None |}.

Definition plain (id : nat) : registration :=
  {| event_cb := UserCb id; event_obj := Py.VNone; args := [];
     kwargs := []; as_task := Py.VBool false |}.

Definition detached (id : nat) : registration :=
  {| event_cb := UserCb id; event_obj := Py.VNone; args := [];
     kwargs := []; as_task := Py.VBool true |}.

(** A listener registered with the keyword [channel_id="42"]. *)
Definition by_keyword (id : nat) : registration :=
  {| event_cb := UserCb id; event_obj := Py.VNone; args := [];
     kwargs := [("channel_id", Py.VStr "42")]; as_task := Py.VBool false |}.

(** A listener registered with ["42"] as [event_obj]. *)
Definition by_event_obj (id : nat) : registration :=
  {| event_cb := UserCb id; event_obj := Py.VStr "42"; args := [];
     kwargs := []; as_task := Py.VBool false |}.

Definition channel_destroyed (id : string) : Py.value :=
  Py.VDict [("type", Py.VStr "ChannelDestroyed");
            ("channel", Py.VDict [("id", Py.VStr id)])].

Definition socket (id : nat) (closing : option exn) : websocket :=
  {| ws_id := id;
     peername := Some [Py.VStr "127.0.0.1"; Py.VInt 8088];
     ws_close := closing |}.

End Sample.

(** ** Notions used in the statements *)

(** The tuple was stored for callback [fn]. *)
Definition registered_as (fn : callback) (r : registration) : bool :=
  callback_eqb fn (event_cb r).

(** At most one tuple per callback in a listener list. *)
Definition one_per_callback (l : list registration) : Prop :=
  forall fn, List.length (filter (registered_as fn) l) <= 1.

(** The listeners a trace shows as invoked, with the message each got. *)
Fixpoint invocations (t : list event) : list (registration * Py.value) :=
  match t with
  | [] => []
  | Invoked listener msg :: rest => (listener, msg) :: invocations rest
  | _ :: rest => invocations rest
  end.

(** The exceptions a trace shows as passed to the handler. *)
Fixpoint handled (t : list event) : list exn :=
  match t with
  | [] => []
  | Handled e :: rest => e :: handled rest
  | _ :: rest => handled rest
  end.

(** The sockets a trace shows [close()] called on. *)
Fixpoint closed_sockets (t : list event) : list nat :=
  match t with
  | [] => []
  | WsClosed id :: rest => id :: closed_sockets rest
  | _ :: rest => closed_sockets rest
  end.

(** The exception an interaction with user code ended in, if any. *)
Definition failure_of (ev : event) : option exn :=
  match ev with
  | Called _ _ _ (RaisedSync e) => Some e
  | Awaited _ (Some e) => Some e
  | _ => None
  end.

(** Every failure in the trace is followed at once by the call of the
    handler with that exception. *)
Fixpoint failures_handled (t : list event) : Prop :=
  match t with
  | [] => True
  | ev :: rest =>
      match failure_of ev with
      | Some e => exists rest', rest = Handled e :: rest'
      | None => True
      end
      /\ failures_handled rest
  end.

(** The field of the message is there and its value is true in a test. *)
Definition field_present (d : list (string * Py.value)) (f : string) : bool :=
  match Py.dict_get f d with
  | Some v => Py.truthy v
  | None => false
  end.

(** The object a factory builds from a field of the message. *)
Definition object_of (factory_fn : string) (d : list (string * Py.value))
    (f : string) : domain_object :=
  {| built_by := factory_fn;
     raw := match Py.dict_get f d with Some v => v | None => Py.VNone end |}.

(** The socket's [close()] returns, and its peer name is absent or has at
    least a host and a port. *)
Definition closable (ws : websocket) : Prop :=
  ws_close ws = None
  /\ match peername ws with
     | None => True
     | Some info => 2 <= List.length info
     end.

(** The installed handler returns on every exception. *)
Definition quiet (st : client) : Prop :=
  forall e, exception_handler st e = None.

(** Every listener list of the registry holds at most one tuple per
    callback. *)
Definition registry_ok (st : client) : Prop :=
  forall T l, Py.dict_get T (event_listeners st) = Some l -> one_per_callback l.

(** [x in l] for a stored tuple and a listener list. *)
Definition in_list (x : registration) (l : list registration) : bool :=
  existsb (fun y => registration_eqb y x) l.

(** A frame the loop of [__run] logs and skips: neither a text frame nor
    the end of the stream. *)
Definition skipped (frame : option WSMessage) : bool :=
  match frame with
  | None => false
  | Some msg =>
      match type msg with
      | CLOSED | CLOSING | TEXT => false
      | _ => true
      end
  end.

(** The entry the loop logs for a skipped frame. *)
Definition unknown_type_warning (frame : option WSMessage) : event :=
  Logged "warning" "Unknown JSON message type".

(** Further payloads and a decoder for them. *)
Module MoreSamples.

Definition list_typed_text : string :=
  ("{" ++ Sample.quote ++ "type" ++ Sample.quote ++ ": []}")%string.

Definition loads (s : string) : result Py.value :=
  if String.eqb s list_typed_text
  then Ok (Py.VDict [("type", Py.VList [])])
  else Sample.loads s.

Definition environment : Environment :=
  {| json_loads := loads; user_call := Sample.calls;
     await_coro := Sample.awaits; iscoroutine := Sample.coroutines |}.

(** Functions of a caller that never touch the client: 2 raises, 3 is
    [async] and fails once it runs (coroutine 7), the others return. *)
Definition still_calls (id : nat) (positional : list argument)
    (keywords : list (string * Py.value)) (st : client) : client * call_result :=
  match id with
  | 2 => (st, RaisedSync (OtherException "boom"))
  | 3 => (st, Awaitable 7)
  | _ => (st, Returned)
  end.

Definition still_environment : Environment :=
  {| json_loads := loads; user_call := still_calls;
     await_coro := Sample.awaits; iscoroutine := Sample.coroutines |}.

Definition stasis_text : string :=
  ("{" ++ Sample.member_text "type" "StasisStart" ++ "}")%string.

(** A caller whose function 6 returns a [Future] (awaitable 9) and whose
    function 7 ends the interpreter with [sys.exit()]; the others are those
    of [Sample.calls]. *)
Definition exiting_calls (id : nat) (positional : list argument)
    (keywords : list (string * Py.value)) (st : client) : client * call_result :=
  match id with
  | 6 => (st, Awaitable 9)
  | 7 => (st, RaisedSync (BaseOnly "SystemExit"))
  | _ => Sample.calls id positional keywords st
  end.

Definition exiting_loads (s : string) : result Py.value :=
  if String.eqb s stasis_text
  then Ok (Py.VDict [("type", Py.VStr "StasisStart")])
  else loads s.

Definition exiting_environment : Environment :=
  {| json_loads := exiting_loads; user_call := exiting_calls;
     await_coro := Sample.awaits; iscoroutine := Sample.coroutines |}.

(** A socket without peer name, as after the transport is gone. *)
Definition anonymous_socket (id : nat) : websocket :=
  {| ws_id := id; peername := None; ws_close := None |}.

(** A socket whose peer name is an empty sequence. *)
Definition unnamed_socket (id : nat) : websocket :=
  {| ws_id := id; peername := Some []; ws_close := None |}.

End MoreSamples.

(** ** The wrappers per kind of object *)

(** How a call
    [self.on_object_event(event_type, fn, F, 'F', *args, **kwargs)]
    binds the parameters [as_task=False, *args, **kwargs] of
    [on_object_event]: the first extra positional argument lands in
    [as_task], the others in [*args]. *)
Definition bind_on_object_event (extra : list Py.value)
    (kw : list (string * Py.value))
    : result (Py.value * list Py.value * list (string * Py.value)) :=
  if Py.dict_mem "event_type" kw || Py.dict_mem "event_cb" kw
     || Py.dict_mem "factory_fn" kw || Py.dict_mem "model_id" kw
     || Py.dict_mem "self" kw
  then Raise (TypeError "on_object_event() got multiple values for an argument")
  else
    match extra with
    | [] =>
        match Py.dict_get "as_task" kw with
        | Some x => Ok (x, [], dict_remove "as_task" kw)
        | None => Ok (Py.VBool false, [], kw)
        end
    | x :: rest =>
        if Py.dict_mem "as_task" kw
        then Raise (TypeError
                      "on_object_event() got multiple values for argument 'as_task'")
        else Ok (x, rest, kw)
    end.

(** The body shared by [on_bridge_event], [on_playback_event],
    [on_live_recording_event], [on_stored_recording_event],
    [on_endpoint_event], [on_device_state_event] and [on_sound_event]:
    [return self.on_object_event(event_type, fn, F, 'F', *args, **kwargs)]. *)
Definition on_kind_event (kind : string) (event_type : string) (fn : nat)
    (args0 : list Py.value) (kwargs0 : list (string * Py.value))
    : M EventUnsubscriber :=
  bound <- lift (bind_on_object_event args0 kwargs0) ;;
  match bound with
  | (at_, a, kw) => on_object_event event_type fn kind kind at_ a kw
  end.

Definition on_bridge_event := on_kind_event "Bridge".
Definition on_playback_event := on_kind_event "Playback".
Definition on_live_recording_event := on_kind_event "LiveRecording".
Definition on_stored_recording_event := on_kind_event "StoredRecording".
Definition on_endpoint_event := on_kind_event "Endpoint".
Definition on_device_state_event := on_kind_event "DeviceState".
Definition on_sound_event := on_kind_event "Sound".

(** The user function a stored callable ends up calling, and the
    positional arguments it passes for a message and stored [args]. *)
Definition callee_of (cb : callback) : nat :=
  match cb with
  | UserCb id => id
  | ExtractObjects _ fn _ _ => fn
  end.

Definition positional_of (cb : callback) (msg : Py.value)
    (args0 : list Py.value) : list argument :=
  match cb with
  | UserCb _ => ArgValue msg :: map ArgValue args0
  | ExtractObjects _ _ factory_fn obj_fields =>
      match extract_objects factory_fn obj_fields msg with
      | Ok x => ArgExtracted x :: ArgValue msg :: map ArgValue args0
      | Raise _ => []
      end
  end.

(** The calls of user functions a trace shows, with their arguments. *)
Fixpoint calls_made (t : list event)
    : list (nat * list argument * list (string * Py.value)) :=
  match t with
  | [] => []
  | Called id positional keywords _ :: rest =>
      (id, positional, keywords) :: calls_made rest
  | _ :: rest => calls_made rest
  end.

(** The call a stored tuple stands for, on a message. *)
Definition call_for (msg : Py.value) (listener : registration)
    : nat * list argument * list (string * Py.value) :=
  (callee_of (event_cb listener),
   positional_of (event_cb listener) msg (args listener),
   kwargs listener).

(** The entry for the call a stored tuple stands for, with what it gave. *)
Definition called_with (listener : registration) (msg : Py.value)
    (r : call_result) : event :=
  Called (callee_of (event_cb listener))
         (positional_of (event_cb listener) msg (args listener))
         (kwargs listener) r.

(** The traces of a turn of the loop in which the listener is served: it
    is invoked, its function is called, what the call returns is awaited
    or handed to [create_task] as the tuple says, and an exception of the
    call, of [create_task] or of the awaited object is passed to the
    handler at once. *)
Inductive served {env : Environment} (listener : registration)
    (msg : Py.value) : list event -> Prop :=
| served_returned :
    served listener msg
      [Invoked listener msg; called_with listener msg Returned]
| served_raised (e : exn) :
    served listener msg
      [Invoked listener msg; called_with listener msg (RaisedSync e);
       Handled e]
| served_scheduled (coro : nat) :
    Py.truthy (as_task listener) = true ->
    iscoroutine coro = true ->
    served listener msg
      [Invoked listener msg; called_with listener msg (Awaitable coro);
       Scheduled coro]
| served_refused (coro : nat) :
    Py.truthy (as_task listener) = true ->
    iscoroutine coro = false ->
    served listener msg
      [Invoked listener msg; called_with listener msg (Awaitable coro);
       Handled (TypeError "a coroutine was expected")]
| served_awaited (coro : nat) :
    Py.truthy (as_task listener) = false ->
    served listener msg
      [Invoked listener msg; called_with listener msg (Awaitable coro);
       Awaited coro None]
| served_failed (coro : nat) (e : exn) :
    Py.truthy (as_task listener) = false ->
    served listener msg
      [Invoked listener msg; called_with listener msg (Awaitable coro);
       Awaited coro (Some e); Handled e].

(** What the [except Exception] clause makes of an exception [e] that
    leaves the [try] block in state [st], after the trace [seen]. *)
Definition caught (seen : list event) (e : exn) (st : client)
    : client * list event * result unit :=
  if is_Exception e
  then (st, seen ++ [Handled e],
        match exception_handler st e with
        | None => Ok tt
        | Some e' => Raise e'
        end)
  else (st, seen, Raise e).

(** The same surroundings, with other outcomes for what is awaited. *)
Definition with_await (env : Environment)
    (outcomes : nat -> client -> client * option exn) : Environment :=
  {| json_loads := json_loads; user_call := user_call;
     await_coro := outcomes; iscoroutine := iscoroutine |}.

(** The keywords the registering calls bind to their own parameters. *)
Definition reserved (kw : list (string * Py.value)) : bool :=
  Py.dict_mem "self" kw || Py.dict_mem "event_type" kw
  || Py.dict_mem "event_cb" kw || Py.dict_mem "event_obj" kw
  || Py.dict_mem "as_task" kw || Py.dict_mem "factory_fn" kw
  || Py.dict_mem "model_id" kw.

(** ** The reconnect loop: [Client.run] *)

(** [s.split('&')[0]]: the part of [s] before the first ampersand. *)
Fixpoint first_component (s : string) : string :=
  match s with
  | EmptyString => EmptyString
  | String c rest =>
      if Ascii.eqb c "&"%char then EmptyString
      else String c (first_component rest)
  end.

Definition set_app (a : option string) (c : client) : client :=
  {| base_url := base_url c; app := a; event_models := event_models c;
     event_listeners := event_listeners c; websockets := websockets c;
     exception_handler := exception_handler c; closures := closures c;
     http_request := http_request c; swagger_close := swagger_close c |}.

(** [s.add(ws)] on the set of tracked sockets. *)
Definition set_add (ws : websocket) (s : list websocket) : list websocket :=
  if existsb (fun w => Nat.eqb (ws_id w) (ws_id ws)) s then s else s ++ [ws].

(** What one call of [swagger.events.eventWebsocket] gives: an exception,
    with whether it is an instance of [OSError], [ClientConnectionError] or
    [WSServerHandshakeError], or a socket, with the frames its [receive()]
    will return. *)
Inductive attempt : Type :=
| Fails (e : exn) (transport : bool)
| Opens (ws : websocket) (frames : list (option WSMessage)).

(** What [run] does that an observer can see: the events of the client,
    the calls that open a stream, and [asyncio.sleep]. *)
Inductive run_event : Type :=
| Did (ev : event)
| Opening (apps : string) (subscribe_all : bool)
| Slept (seconds : nat).

(** Where [run] stands after the attempts it was given: suspended in the
    call that opens a stream, or in [receive()] on an open one.  It never
    returns. *)
Inductive waiting : Type :=
| ForConnection
| ForFrame.

Definition exn_text (e : exn) : string :=
  match e with
  | ValueError t | TypeError t | KeyError t | AttributeError t
  | JSONDecodeError t | OtherException t | BaseOnly t => t
  end.

Section Run.
Context {env : Environment}.

(** The [while True] loop of [run], for [apps] a string; [_test_msgs] is
    left at its default, the empty list. *)
Fixpoint reconnect (apps : string) (subscribe_all : bool)
    (attempts : list attempt) (st : client)
    : client * list run_event * result waiting :=
  match attempts with
  | [] => (st, [Opening apps subscribe_all], Ok ForConnection)
  | Fails e transport :: rest =>
      if transport then
        match reconnect apps subscribe_all rest st with
        | (st', t, r) =>
            (st',
             Opening apps subscribe_all
             :: Did (Logged "error" (exn_text e)) :: Slept 1 :: t,
             r)
        end
      else (st, [Opening apps subscribe_all], Raise e)
  | Opens ws frames :: rest =>
      match rbind (get_peer_info ws) unpack_pair with
      | Raise e => (st, [Opening apps subscribe_all], Raise e)
      | Ok _ =>
          let connected :=
            [Opening apps subscribe_all;
             Did (Logged "info" "Successfully connected")] in
          match __run frames (set_websockets (set_add ws (websockets st)) st) with
          | (st1, t1, Ok Left) =>
              match reconnect apps subscribe_all rest st1 with
              | (st2, t2, r) => (st2, connected ++ map Did t1 ++ t2, r)
              end
          | (st1, t1, Ok Receiving) =>
              (st1, connected ++ map Did t1, Ok ForFrame)
          | (st1, t1, Raise e) => (st1, connected ++ map Did t1, Raise e)
          end
      end
  end.

(** [run]: [self.app = apps.split('&')[0]], then the loop.  Only a string
    has [split], so the [isinstance(apps, list)] test of the loop never
    holds. *)
Definition run (apps : Py.value) (subscribe_all : bool)
    (attempts : list attempt) (st : client)
    : client * list run_event * result waiting :=
  match apps with
  | Py.VStr s =>
      reconnect s subscribe_all attempts (set_app (Some (first_component s)) st)
  | _ => (st, [], Raise (AttributeError "object has no attribute 'split'"))
  end.
End Run.

(** The [Slept] entries of a trace. *)
Fixpoint sleeps (t : list run_event) : list nat :=
  match t with
  | [] => []
  | Slept n :: rest => n :: sleeps rest
  | _ :: rest => sleeps rest
  end.

(** ** Initialisation: [Client.init] *)

(** An entry of [swagger.api_docs['apis']]: its name and the models of its
    declaration. *)
Record api_doc : Type := {
  api_name : string;
  api_models : list (string * swagger_model)
}.

(** [events[0]['models']] for the entries named ['events'], or [{}]. *)
Definition models_of (apis : list api_doc) : list (string * swagger_model) :=
  match filter (fun api => String.eqb (api_name api) "events") apis with
  | events :: _ => api_models events
  | [] => []
  end.

(** The fields [init] sets on the client. *)
Definition init (apis : list api_doc) (c : client) : client :=
  {| base_url := base_url c; app := app c;
     event_models := models_of apis;
     event_listeners := [];
     websockets := [];
     exception_handler := fun _ => None;
     closures := closures c;
     http_request := http_request c; swagger_close := swagger_close c |}.

(** * Properties *)

(** ** Python equality is an equivalence on these values *)

Lemma forallb_agree {A} (f g : A -> bool) (l : list A) :
  (forall x, In x l -> f x = g x) -> forallb f l = forallb g l.
Proof.
  induction l as [|x l IH]; intros Hfg; simpl; [reflexivity|].
  rewrite (Hfg x (or_introl Logic.eq_refl)), IH; [reflexivity|].
  intros y Hy. apply Hfg. now right.
Qed.

Lemma existsb_agree {A} (f g : A -> bool) (l : list A) :
  (forall x, In x l -> f x = g x) -> existsb f l = existsb g l.
Proof.
  induction l as [|x l IH]; intros Hfg; simpl; [reflexivity|].
  rewrite (Hfg x (or_introl Logic.eq_refl)), IH; [reflexivity|].
  intros y Hy. apply Hfg. now right.
Qed.

Lemma dict_incl_spec {A B} (f : A -> B -> bool) d1 d2 :
  Py.dict_incl f d1 d2 = true <->
  (forall kv1, In kv1 d1 ->
     exists kv2, In kv2 d2 /\ fst kv1 = fst kv2 /\ f (snd kv1) (snd kv2) = true).
Proof.
  unfold Py.dict_incl. rewrite forallb_forall. split; intros Hall kv1 Hin.
  - apply Hall in Hin. apply existsb_exists in Hin as [kv2 [Hin2 Hkv]].
    apply andb_true_iff in Hkv as [Hk Hv]. apply String.eqb_eq in Hk. eauto.
  - destruct (Hall kv1 Hin) as [kv2 [Hin2 [Hk Hv]]].
    apply existsb_exists. exists kv2. split; [assumption|].
    rewrite Hk, String.eqb_refl. exact Hv.
Qed.

Lemma dict_covers_spec {A B} (f : A -> B -> bool) d1 d2 :
  Py.dict_covers f d1 d2 = true <->
  (forall kv2, In kv2 d2 ->
     exists kv1, In kv1 d1 /\ fst kv1 = fst kv2 /\ f (snd kv1) (snd kv2) = true).
Proof.
  unfold Py.dict_covers. rewrite forallb_forall. split; intros Hall kv2 Hin.
  - apply Hall in Hin. apply existsb_exists in Hin as [kv1 [Hin1 Hkv]].
    apply andb_true_iff in Hkv as [Hk Hv]. apply String.eqb_eq in Hk. eauto.
  - destruct (Hall kv2 Hin) as [kv1 [Hin1 [Hk Hv]]].
    apply existsb_exists. exists kv1. split; [assumption|].
    rewrite Hk, String.eqb_refl. exact Hv.
Qed.

Lemma seq_eqb_refl {A} (f : A -> A -> bool) (l : list A) :
  Forall (fun x => f x x = true) l -> Py.seq_eqb f l l = true.
Proof.
  induction 1 as [|x l Hx _ IH]; simpl; [reflexivity|].
  now rewrite Hx, IH.
Qed.

Lemma seq_eqb_sym {A} (f : A -> A -> bool) (l1 : list A) :
  Forall (fun x => forall y, f x y = f y x) l1 ->
  forall l2, Py.seq_eqb f l1 l2 = Py.seq_eqb f l2 l1.
Proof.
  induction 1 as [|x l1 Hx _ IH]; intros [|y l2]; simpl; try reflexivity.
  now rewrite Hx, IH.
Qed.

Lemma seq_eqb_trans {A} (f : A -> A -> bool) (l1 : list A) :
  Forall (fun x => forall y z, f x y = true -> f y z = true -> f x z = true) l1 ->
  forall l2 l3, Py.seq_eqb f l1 l2 = true -> Py.seq_eqb f l2 l3 = true ->
                Py.seq_eqb f l1 l3 = true.
Proof.
  induction 1 as [|x l1 Hx _ IH]; intros [|y l2] [|z l3]; simpl;
    try discriminate; try reflexivity.
  intros H12 H23.
  apply andb_true_iff in H12 as [Hxy H12]. apply andb_true_iff in H23 as [Hyz H23].
  apply andb_true_iff. split; [eapply Hx | eapply IH]; eassumption.
Qed.

Lemma py_eq_refl (v : Py.value) : Py.eq v v = true.
Proof.
  induction v as [| b | z | s | l IH | l IH | d IH | i] using Py.value_ind; simpl.
  - reflexivity.
  - apply Bool.eqb_reflx.
  - apply Z.eqb_refl.
  - apply String.eqb_refl.
  - now apply seq_eqb_refl.
  - now apply seq_eqb_refl.
  - rewrite Forall_forall in IH. apply andb_true_iff. split.
    + apply dict_incl_spec. intros kv Hin. exists kv. auto.
    + apply dict_covers_spec. intros kv Hin. exists kv. auto.
  - apply Nat.eqb_refl.
Qed.

Lemma py_eq_sym (a : Py.value) : forall b, Py.eq a b = Py.eq b a.
Proof.
  induction a as [| x | x | x | l IH | l IH | d IH | i] using Py.value_ind;
    intros [| y | y | y | l' | l' | d' | j];
    simpl; try reflexivity.
  - destruct x, y; reflexivity.
  - apply Z.eqb_sym.
  - apply Z.eqb_sym.
  - apply Z.eqb_sym.
  - apply String.eqb_sym.
  - now apply seq_eqb_sym.
  - now apply seq_eqb_sym.
  - rewrite Forall_forall in IH.
    assert (HA : Py.dict_incl Py.eq d d' = Py.dict_covers Py.eq d' d).
    { unfold Py.dict_incl, Py.dict_covers. apply forallb_agree. intros kv1 Hin.
      apply existsb_agree. intros kv2 _.
      now rewrite String.eqb_sym, (IH kv1 Hin). }
    assert (HB : Py.dict_covers Py.eq d d' = Py.dict_incl Py.eq d' d).
    { unfold Py.dict_incl, Py.dict_covers. apply forallb_agree. intros kv2 _.
      apply existsb_agree. intros kv1 Hin.
      now rewrite String.eqb_sym, (IH kv1 Hin). }
    rewrite HA, HB. apply andb_comm.
  - apply Nat.eqb_sym.
Qed.

Ltac numeric_case :=
  let H1 := fresh in
  let H2 := fresh in
  intros H1 H2;
  repeat match goal with
    | H : Bool.eqb _ _ = true |- _ => apply Bool.eqb_prop in H
    | H : Z.eqb _ _ = true |- _ => apply Z.eqb_eq in H
    end;
  first [ apply Z.eqb_eq | apply Bool.eqb_true_iff | idtac ];
  repeat match goal with b : bool |- _ => destruct b end;
  simpl in *; solve [ congruence | lia ].

Lemma py_eq_trans (a : Py.value) :
  forall b c, Py.eq a b = true -> Py.eq b c = true -> Py.eq a c = true.
Proof.
  induction a as [| x | x | x | l IH | l IH | d IH | i] using Py.value_ind;
    intros [| y | y | y | l' | l' | d' | j] [| z | z | z | l'' | l'' | d'' | k];
    simpl; try discriminate; try solve [numeric_case]; try (intros; reflexivity).
  - intros H1 H2. apply String.eqb_eq in H1, H2. apply String.eqb_eq. congruence.
  - now apply seq_eqb_trans.
  - now apply seq_eqb_trans.
  - rewrite Forall_forall in IH. intros H1 H2.
    apply andb_true_iff in H1 as [I12 C12]. apply andb_true_iff in H2 as [I23 C23].
    rewrite dict_incl_spec in I12, I23. rewrite dict_covers_spec in C12, C23.
    apply andb_true_iff. split.
    + apply dict_incl_spec. intros kv1 Hin1.
      destruct (I12 kv1 Hin1) as [kv2 [Hin2 [Hk12 Hv12]]].
      destruct (I23 kv2 Hin2) as [kv3 [Hin3 [Hk23 Hv23]]].
      exists kv3. repeat split; [assumption | congruence | eauto].
    + apply dict_covers_spec. intros kv3 Hin3.
      destruct (C23 kv3 Hin3) as [kv2 [Hin2 [Hk23 Hv23]]].
      destruct (C12 kv2 Hin2) as [kv1 [Hin1 [Hk12 Hv12]]].
      exists kv1. repeat split; [assumption | congruence | eauto].
  - intros H1 H2. apply Nat.eqb_eq in H1, H2. apply Nat.eqb_eq. congruence.
Qed.

Lemma py_eq_congr (u v : Py.value) :
  Py.eq u v = true -> forall x, Py.eq x u = Py.eq x v.
Proof.
  intros Huv x.
  destruct (Py.eq x u) eqn:Hxu, (Py.eq x v) eqn:Hxv; try reflexivity.
  - rewrite (py_eq_trans x u v Hxu Huv) in Hxv. discriminate.
  - rewrite py_eq_sym in Huv. rewrite (py_eq_trans x v u Hxv Huv) in Hxu. discriminate.
Qed.

(** ** Equality of stored tuples, and [list.remove] *)

Lemma callback_eqb_refl (c : callback) : callback_eqb c c = true.
Proof. destruct c; simpl; apply Nat.eqb_refl. Qed.

Lemma callback_eqb_sym (a b : callback) : callback_eqb a b = callback_eqb b a.
Proof. destruct a, b; simpl; try reflexivity; apply Nat.eqb_sym. Qed.

Lemma callback_eqb_trans (a b c : callback) :
  callback_eqb a b = true -> callback_eqb b c = true -> callback_eqb a c = true.
Proof.
  destruct a, b, c; simpl; try discriminate;
    intros H1 H2; apply Nat.eqb_eq in H1, H2; apply Nat.eqb_eq; congruence.
Qed.

Lemma registration_eqb_refl (r : registration) : registration_eqb r r = true.
Proof.
  unfold registration_eqb.
  now rewrite callback_eqb_refl, !py_eq_refl.
Qed.

Lemma registration_eqb_callback (a b : registration) :
  registration_eqb a b = true -> callback_eqb (event_cb a) (event_cb b) = true.
Proof.
  unfold registration_eqb. intros H.
  repeat (apply andb_true_iff in H as [H _]). exact H.
Qed.

(** Two equal tuples contain the same values. *)
Lemma in_item_eqb (x : Py.value) (a b : registration) :
  registration_eqb a b = true -> in_item x a = in_item x b.
Proof.
  unfold registration_eqb, in_item, Py.contains. intros H.
  apply andb_true_iff in H as [H H5]. apply andb_true_iff in H as [H H4].
  apply andb_true_iff in H as [H H3]. apply andb_true_iff in H as [_ H2].
  cbn [existsb].
  now rewrite (py_eq_congr _ _ H2), (py_eq_congr _ _ H3),
              (py_eq_congr _ _ H4), (py_eq_congr _ _ H5).
Qed.

(** Removing an element that sits behind a prefix holding nothing equal to
    it drops exactly that element. *)
Lemma list_remove_behind (x y : registration) (l1 l2 : list registration) :
  (forall z, In z l1 -> registration_eqb z x = false) ->
  registration_eqb y x = true ->
  list_remove x (l1 ++ y :: l2) = Ok (l1 ++ l2).
Proof.
  intros Hpre Hy. induction l1 as [|z l1 IH]; simpl.
  - now rewrite Hy.
  - rewrite (Hpre z (or_introl Logic.eq_refl)), IH; [reflexivity|].
    intros w Hw. apply Hpre. now right.
Qed.

(** [l.remove(x)] raises only when nothing in [l] is equal to [x]. *)
Lemma list_remove_present (x : registration) (l : list registration) :
  existsb (fun y => registration_eqb y x) l = true ->
  exists l', list_remove x l = Ok l'.
Proof.
  induction l as [|y l IH]; simpl; [discriminate|].
  destruct (registration_eqb y x); simpl; intros H; [eauto|].
  destruct (IH H) as [l' ->]. simpl. eauto.
Qed.

(** Removing, one after the other, the elements a predicate selects leaves
    those it rejects, in their order; the predicate must not tell equal
    tuples apart. *)
Lemma remove_each_filter (keep : registration -> bool) :
  (forall a b, registration_eqb a b = true -> keep a = keep b) ->
  forall l2 l1,
    (forall z, In z l1 -> keep z = true) ->
    remove_each (filter (fun r => negb (keep r)) l2) (l1 ++ l2)
    = Ok (l1 ++ filter keep l2).
Proof.
  intros Hresp. induction l2 as [|y l2 IH]; intros l1 Hl1; simpl.
  - reflexivity.
  - destruct (keep y) eqn:Hy; simpl.
    + replace (l1 ++ y :: l2) with ((l1 ++ [y]) ++ l2) by now rewrite <- app_assoc.
      rewrite IH.
      * now rewrite <- app_assoc.
      * intros z Hz. apply in_app_or in Hz as [Hz | [<- | []]]; auto.
    + rewrite (list_remove_behind y y l1 l2).
      * simpl. now apply IH.
      * intros z Hz. destruct (registration_eqb z y) eqn:Hzy; [|reflexivity].
        specialize (Hl1 z Hz). rewrite (Hresp z y Hzy), Hy in Hl1. discriminate.
      * apply registration_eqb_refl.
Qed.

(** ** Laws of the client monad *)

Lemma bind_ok {A B} (m : M A) (k : A -> M B) st st1 t1 a st2 t2 r :
  m st = (st1, t1, Ok a) -> k a st1 = (st2, t2, r) ->
  bind m k st = (st2, t1 ++ t2, r).
Proof. unfold bind. now intros -> ->. Qed.

Lemma bind_raise {A B} (m : M A) (k : A -> M B) st st1 t1 e :
  m st = (st1, t1, Raise e) -> bind m k st = (st1, t1, Raise e).
Proof. unfold bind. now intros ->. Qed.

Lemma bind_inv {A B} (m : M A) (k : A -> M B) st st2 t r :
  bind m k st = (st2, t, r) ->
  (exists st1 t1 a t2,
      m st = (st1, t1, Ok a) /\ k a st1 = (st2, t2, r) /\ t = t1 ++ t2)
  \/ (exists e, m st = (st2, t, Raise e) /\ r = Raise e).
Proof.
  unfold bind. destruct (m st) as [[st1 t1] [a|e]].
  - destruct (k a st1) as [[st2' t2] r'] eqn:Hk. intros [= <- <- <-].
    left. exists st1, t1, a, t2. auto.
  - intros [= <- <- <-]. right. eauto.
Qed.

Lemma bind_ret {A B} (a : A) (k : A -> M B) st : bind (ret a) k st = k a st.
Proof. unfold bind, ret. now destruct (k a st) as [[? ?] ?]. Qed.

Lemma bind_lift_ok {A B} (a : A) (k : A -> M B) st :
  bind (lift (Ok a)) k st = k a st.
Proof. apply bind_ret. Qed.

Lemma bind_lift_raise {A B} (e : exn) (k : A -> M B) st :
  bind (lift (Raise e)) k st = (st, [], Raise e).
Proof. reflexivity. Qed.

Lemma bind_get {B} (k : client -> M B) st : bind get k st = k st st.
Proof. unfold bind, get. now destruct (k st st) as [[? ?] ?]. Qed.

Lemma bind_put {B} (s : client) (k : unit -> M B) st : bind (put s) k st = k tt s.
Proof. unfold bind, put. now destruct (k tt s) as [[? ?] ?]. Qed.

Lemma bind_emit {B} (ev : event) (k : unit -> M B) st :
  bind (emit ev) k st
  = match k tt st with (st2, t2, r) => (st2, ev :: t2, r) end.
Proof. reflexivity. Qed.

Lemma bind_raise_now {A B} (e : exn) (k : A -> M B) st :
  bind (raise e) k st = (st, [], Raise e).
Proof. reflexivity. Qed.

(** ** Dicts *)

Lemma dict_get_set_same {A} (k : string) (v : A) (d : list (string * A)) :
  Py.dict_get k (Py.dict_set k v d) = Some v.
Proof.
  induction d as [|[k' v'] d IH]; simpl.
  - now rewrite String.eqb_refl.
  - destruct (String.eqb k k') eqn:Hk; simpl.
    + now rewrite String.eqb_refl.
    + now rewrite Hk.
Qed.

Lemma dict_get_set_other {A} (k k0 : string) (v : A) (d : list (string * A)) :
  String.eqb k0 k = false ->
  Py.dict_get k0 (Py.dict_set k v d) = Py.dict_get k0 d.
Proof.
  intros Hne. induction d as [|[k' v'] d IH]; simpl.
  - now rewrite Hne.
  - destruct (String.eqb k k') eqn:Hk; simpl.
    + apply String.eqb_eq in Hk. subst k'. now rewrite Hne.
    + now rewrite IH.
Qed.

Lemma dict_keys_set {A} (k : string) (v : A) (d : list (string * A)) :
  Py.dict_mem k d = true -> Py.dict_keys (Py.dict_set k v d) = Py.dict_keys d.
Proof.
  unfold Py.dict_mem, Py.dict_keys.
  induction d as [|[k' v'] d IH]; simpl; [discriminate|].
  destruct (String.eqb k k') eqn:Hk; simpl; intros H.
  - apply String.eqb_eq in Hk. now subst.
  - now rewrite IH.
Qed.

(** ** [on_event]: one tuple per callback, the newest last (C7) *)

Section Registry.
Variable fn : callback.

Lemma scan_nothing_registered (fuel : nat) :
  forall i l,
    (forall j r, i <= j -> nth_error l j = Some r -> registered_as fn r = false) ->
    on_event_scan fuel fn i l = Ok l.
Proof.
  induction fuel as [|fuel IH]; intros i l Hclean; simpl; [reflexivity|].
  destruct (nth_error l i) as [cb|] eqn:Hi; [|reflexivity].
  unfold registered_as in Hclean.
  rewrite (Hclean i cb (le_n i) Hi).
  apply IH. intros j r Hj. apply Hclean. lia.
Qed.

Lemma filter_nil_nth (l : list registration) :
  filter (registered_as fn) l = [] ->
  forall j r, nth_error l j = Some r -> registered_as fn r = false.
Proof.
  intros Hnil j r Hj. apply nth_error_In in Hj.
  destruct (registered_as fn r) eqn:Hr; [|reflexivity].
  assert (Hin : In r (filter (registered_as fn) l)) by (apply filter_In; auto).
  rewrite Hnil in Hin. destruct Hin.
Qed.

(** The one tuple stored for [fn] is found, removed, and the scan goes on
    one position too far, over tuples of other callbacks. *)
Lemma scan_one_registered (r : registration) (l1 l2 : list registration) :
  registered_as fn r = true ->
  filter (registered_as fn) l1 = [] ->
  filter (registered_as fn) l2 = [] ->
  forall fuel i,
    i <= List.length l1 -> List.length l1 - i < fuel ->
    on_event_scan fuel fn i (l1 ++ r :: l2) = Ok (l1 ++ l2).
Proof.
  intros Hr H1 H2. induction fuel as [|fuel IH]; intros i Hi Hfuel; [lia|].
  simpl. destruct (Nat.eq_dec i (List.length l1)) as [-> | Hne].
  - rewrite nth_error_app2, Nat.sub_diag by lia. simpl.
    unfold registered_as in Hr. rewrite Hr.
    rewrite (list_remove_behind r r l1 l2).
    + simpl. apply scan_nothing_registered. intros j x _ Hj.
      apply (filter_nil_nth (l1 ++ l2)) with (j := j); [|exact Hj].
      now rewrite filter_app, H1, H2.
    + intros z Hz. destruct (registration_eqb z r) eqn:Hzr; [|reflexivity].
      apply registration_eqb_callback in Hzr. rewrite callback_eqb_sym in Hzr.
      pose proof (callback_eqb_trans _ _ _ Hr Hzr) as Hz'.
      destruct (In_nth_error _ _ Hz) as [j Hj].
      pose proof (filter_nil_nth l1 H1 j z Hj) as Hno.
      unfold registered_as in Hno. congruence.
    + apply registration_eqb_refl.
  - assert (Hlt : i < List.length l1) by lia.
    rewrite nth_error_app1 by exact Hlt.
    destruct (nth_error l1 i) as [cb|] eqn:Hcb.
    + pose proof (filter_nil_nth l1 H1 i cb Hcb) as Hno.
      unfold registered_as in Hno. rewrite Hno. apply IH; lia.
    + apply nth_error_None in Hcb. lia.
Qed.

Lemma filter_singleton_split (l : list registration) (r : registration) :
  filter (registered_as fn) l = [r] ->
  exists l1 l2,
    l = l1 ++ r :: l2 /\ registered_as fn r = true
    /\ filter (registered_as fn) l1 = [] /\ filter (registered_as fn) l2 = [].
Proof.
  induction l as [|x l IH]; simpl; [discriminate|].
  destruct (registered_as fn x) eqn:Hx.
  - intros [= -> Hrest]. exists [], l. auto.
  - intros H. destruct (IH H) as [l1 [l2 [-> [Hr [H1 H2]]]]].
    exists (x :: l1), l2. simpl. rewrite Hx. auto.
Qed.

Lemma filter_negb_id (l : list registration) :
  filter (registered_as fn) l = [] ->
  filter (fun r => negb (registered_as fn r)) l = l.
Proof.
  induction l as [|x l IH]; simpl; [reflexivity|].
  destruct (registered_as fn x); simpl; [discriminate|].
  intros H. now rewrite IH.
Qed.

(** On a list with at most one tuple per callback the loop of [on_event]
    ends without an exception and has removed the tuples stored for [fn]. *)
Lemma on_event_scan_removes (l : list registration) :
  one_per_callback l ->
  on_event_scan (List.length l) fn 0 l
  = Ok (filter (fun r => negb (registered_as fn r)) l).
Proof.
  intros Hone. specialize (Hone fn).
  destruct (filter (registered_as fn) l) as [|r [|r' rest]] eqn:Hf.
  - rewrite (filter_negb_id l Hf). apply scan_nothing_registered.
    intros j r _. now apply filter_nil_nth.
  - destruct (filter_singleton_split l r Hf) as [l1 [l2 [-> [Hr [H1 H2]]]]].
    rewrite filter_app. simpl. rewrite Hr. simpl.
    rewrite (filter_negb_id l1 H1), (filter_negb_id l2 H2).
    apply scan_one_registered; auto; rewrite ?length_app; simpl; lia.
  - simpl in Hone. lia.
Qed.
End Registry.

Lemma filter_length_le {A} (p : A -> bool) (l : list A) :
  List.length (filter p l) <= List.length l.
Proof.
  induction l as [|x l IH]; simpl; [lia|]. destruct (p x); simpl; lia.
Qed.

Lemma one_per_callback_filter (keep : registration -> bool) (l : list registration) :
  one_per_callback l -> one_per_callback (filter keep l).
Proof.
  intros Hone g. specialize (Hone g).
  assert (Hsub : filter (registered_as g) (filter keep l)
                 = filter keep (filter (registered_as g) l)).
  { induction l as [|x l IH]; simpl; [reflexivity|].
    assert (Hl : List.length (filter (registered_as g) l) <= 1).
    { simpl in Hone. destruct (registered_as g x); simpl in Hone; lia. }
    destruct (keep x) eqn:Hk, (registered_as g x) eqn:Hg; simpl;
      rewrite ?Hk, ?Hg, ?(IH Hl); reflexivity. }
  rewrite Hsub. pose proof (filter_length_le keep (filter (registered_as g) l)). lia.
Qed.

(** C7.  Registering a callback with [on_event] on a listener list that
    holds at most one tuple per callback never raises; afterwards the list
    for the event type is the old one without the tuple stored for that
    callback, followed by the new tuple: the new tuple is the only one for
    its callback, it is last, and the list again holds at most one tuple
    per callback. *)
Theorem on_event_keeps_one_per_callback
    (event_type : string) (fn : callback) (eo at_ : Py.value)
    (a : list Py.value) (kw : list (string * Py.value)) (st : client) :
  one_per_callback (setdefault_listeners event_type (event_listeners st)) ->
  exists st' u,
    on_event event_type fn eo at_ a kw st = (st', [Logged "debug" "event_cb"], Ok u)
    /\ callback_obj u = {| event_cb := fn; event_obj := eo; args := a;
                           kwargs := kw; as_task := at_ |}
    /\ setdefault_listeners event_type (event_listeners st')
       = filter (fun r => negb (registered_as fn r))
                (setdefault_listeners event_type (event_listeners st))
         ++ [callback_obj u]
    /\ filter (registered_as fn)
              (setdefault_listeners event_type (event_listeners st'))
       = [callback_obj u]
    /\ last (setdefault_listeners event_type (event_listeners st')) (callback_obj u)
       = callback_obj u
    /\ one_per_callback (setdefault_listeners event_type (event_listeners st')).
Proof.
  intros Hone.
  set (old := setdefault_listeners event_type (event_listeners st)) in *.
  set (obj := {| event_cb := fn; event_obj := eo; args := a; kwargs := kw;
                 as_task := at_ |}).
  set (kept := filter (fun r => negb (registered_as fn r)) old).
  exists (set_event_listeners
            (Py.dict_set event_type (kept ++ [obj]) (event_listeners st)) st),
         {| unsub_event_type := event_type; callback_obj := obj |}.
  assert (Hnew : setdefault_listeners event_type
                   (event_listeners
                      (set_event_listeners
                         (Py.dict_set event_type (kept ++ [obj]) (event_listeners st)) st))
                 = kept ++ [obj]).
  { unfold setdefault_listeners. simpl. now rewrite dict_get_set_same. }
  assert (Hnone : filter (registered_as fn) kept = []).
  { unfold kept. clear. induction old as [|x l IH]; simpl; [reflexivity|].
    destruct (registered_as fn x) eqn:Hx; simpl; [exact IH|]. now rewrite Hx. }
  assert (Hself : registered_as fn obj = true) by apply callback_eqb_refl.
  split; [|split; [reflexivity|split; [exact Hnew|split; [|split]]]].
  - unfold on_event, bind, get, lift, emit, put, ret. fold old.
    rewrite (on_event_scan_removes fn old Hone). reflexivity.
  - rewrite Hnew, filter_app, Hnone. simpl. now rewrite Hself.
  - rewrite Hnew. apply last_last.
  - rewrite Hnew. intros g. rewrite filter_app, length_app. simpl.
    destruct (registered_as g obj) eqn:Hg; simpl.
    + assert (Hnog : filter (registered_as g) kept = []).
      { assert (Hall : forall r, In r kept -> registered_as g r = false).
        { intros r Hr. destruct (registered_as g r) eqn:Hgr; [|reflexivity].
          unfold registered_as in Hg, Hgr. simpl in Hg.
          rewrite callback_eqb_sym in Hg.
          pose proof (callback_eqb_trans _ _ _ Hg Hgr) as Hfr.
          assert (Hin : In r (filter (registered_as fn) kept))
            by (apply filter_In; auto).
          rewrite Hnone in Hin. destruct Hin. }
        clear - Hall. induction kept as [|x l IH]; simpl; [reflexivity|].
        rewrite (Hall x (or_introl Logic.eq_refl)). apply IH.
        intros r Hr. apply Hall. now right. }
      rewrite Hnog. simpl. lia.
    + pose proof (one_per_callback_filter (fun r => negb (registered_as fn r)) old Hone g).
      fold kept in H. lia.
Qed.

Lemma one_per_callback_sample :
  one_per_callback [Sample.plain 1; Sample.plain 2].
Proof.
  intros [id | c e f o]; simpl; [|lia].
  destruct id as [|[|[|id]]]; simpl; lia.
Qed.

Lemma on_event_keeps_one_per_callback_witness :
  let st := set_event_listeners
              [("StasisStart", [Sample.plain 1; Sample.plain 2])] Sample.fresh in
  exists st' u,
    on_event "StasisStart" (UserCb 1) Py.VNone (Py.VBool false) [] [] st
    = (st', [Logged "debug" "event_cb"], Ok u)
    /\ setdefault_listeners "StasisStart" (event_listeners st')
       = [Sample.plain 2; Sample.plain 1].
Proof.
  intros st.
  destruct (on_event_keeps_one_per_callback "StasisStart" (UserCb 1) Py.VNone
              (Py.VBool false) [] [] st one_per_callback_sample)
    as [st' [u [Hrun [Hobj [Hnew _]]]]].
  exists st', u. split; [exact Hrun|].
  rewrite Hnew, Hobj. reflexivity.
Defined.

(** ** The dispatcher *)

Section DispatchProperties.
Context {env : Environment}.

(** On a message that is a dict, the comprehension of [extract_objects]
    does not raise. *)
Lemma build_objects_dict (factory_fn : string) (fields : list string)
    (d : list (string * Py.value)) :
  forall acc, exists m, build_objects factory_fn fields (Py.VDict d) acc = Ok m.
Proof.
  induction fields as [|f fields IH]; intros acc; simpl; [eauto|].
  destruct (Py.dict_get f d) as [x|] eqn:Hf; simpl.
  - destruct (Py.truthy x); simpl; apply IH.
  - apply IH.
Qed.

Lemma extract_objects_dict (factory_fn : string) (fields : list string)
    (d : list (string * Py.value)) :
  exists x, extract_objects factory_fn fields (Py.VDict d) = Ok x.
Proof.
  unfold extract_objects.
  destruct (build_objects_dict factory_fn fields d []) as [m ->]. simpl.
  destruct (Nat.eqb (List.length fields) 1); [destruct m as [|[? ?] ?]|]; eauto.
Qed.

(** Calling a stored callable with a dict message: one call of the user's
    function, with the positional arguments computed for it. *)
Lemma call_callback_explicit (cb : callback) (d : list (string * Py.value))
    (a : list Py.value) (kw : list (string * Py.value)) (st : client) :
  call_callback cb (Py.VDict d) a kw st
  = match user_call (callee_of cb) (positional_of cb (Py.VDict d) a) kw st with
    | (st', r) =>
        (st', [Called (callee_of cb) (positional_of cb (Py.VDict d) a) kw r], Ok r)
    end.
Proof.
  destruct cb as [id | c fn factory_fn fields]; simpl.
  - reflexivity.
  - destruct (extract_objects_dict factory_fn fields d) as [x Hx].
    rewrite Hx, bind_lift_ok. reflexivity.
Qed.

Lemma try_handle (m : M unit) (st st1 : client) (seen : list event) (e : exn) :
  m st = (st1, seen, Raise e) ->
  try_except m is_Exception handle st = caught seen e st1.
Proof.
  intros Hm. unfold try_except, caught. rewrite Hm.
  destruct (is_Exception e); [|reflexivity].
  unfold handle. rewrite bind_get, bind_emit.
  destruct (exception_handler st1 e); reflexivity.
Qed.

(** What one turn of the loop does, by what the call gives back. *)
Lemma run_listener_dict (listener : registration)
    (d : list (string * Py.value)) (st : client) :
  let msg := Py.VDict d in
  let id := callee_of (event_cb listener) in
  let pos := positional_of (event_cb listener) msg (args listener) in
  let st1 := fst (user_call id pos (kwargs listener) st) in
  let r := snd (user_call id pos (kwargs listener) st) in
  let called := [Invoked listener msg; Called id pos (kwargs listener) r] in
  run_listener listener msg st =
  match r with
  | Returned => (st1, called, Ok tt)
  | RaisedSync e => caught called e st1
  | Awaitable coro =>
      if Py.truthy (as_task listener)
      then
        if iscoroutine coro
        then (st1, called ++ [Scheduled coro], Ok tt)
        else caught called (TypeError "a coroutine was expected") st1
      else
        match await_coro coro st1 with
        | (st2, None) => (st2, called ++ [Awaited coro None], Ok tt)
        | (st2, Some e) => caught (called ++ [Awaited coro (Some e)]) e st2
        end
  end.
Proof.
  cbv zeta. unfold run_listener.
  set (id := callee_of (event_cb listener)).
  set (pos := positional_of (event_cb listener) (Py.VDict d) (args listener)).
  pose proof (call_callback_explicit (event_cb listener) d (args listener)
                (kwargs listener) st) as Hcall.
  fold id pos in Hcall.
  destruct (user_call id pos (kwargs listener) st) as [st1 r]. simpl fst. simpl snd.
  assert (Hblock : forall k : call_result -> M unit,
             bind (emit (Invoked listener (Py.VDict d)))
                  (fun _ => bind (call_callback (event_cb listener) (Py.VDict d)
                                    (args listener) (kwargs listener)) k) st
             = match k r st1 with
               | (st2, t2, o) =>
                   (st2,
                    Invoked listener (Py.VDict d)
                    :: Called id pos (kwargs listener) r :: t2, o)
               end).
  { intros k. rewrite bind_emit. unfold bind. rewrite Hcall.
    now destruct (k r st1) as [[st2 t2] o]. }
  destruct r as [|e|coro].
  - unfold try_except. rewrite Hblock. reflexivity.
  - apply try_handle. rewrite Hblock. reflexivity.
  - destruct (Py.truthy (as_task listener)).
    + destruct (iscoroutine coro) eqn:Hco.
      * unfold try_except. rewrite Hblock. unfold create_task. rewrite Hco.
        reflexivity.
      * apply try_handle. rewrite Hblock. unfold create_task. rewrite Hco.
        reflexivity.
    + destruct (await_coro coro st1) as [st2 [e|]] eqn:Haw.
      * apply try_handle. rewrite Hblock. unfold await. rewrite Haw. reflexivity.
      * unfold try_except. rewrite Hblock. unfold await. rewrite Haw. reflexivity.
Qed.
End DispatchProperties.

Lemma invocations_app (t1 t2 : list event) :
  invocations (t1 ++ t2) = invocations t1 ++ invocations t2.
Proof.
  induction t1 as [|ev t1 IH]; simpl; [reflexivity|].
  destruct ev; simpl; now rewrite IH.
Qed.

Lemma getitem_dict (msg : Py.value) (k : string) (v : Py.value) :
  getitem msg k = Ok v -> exists d, msg = Py.VDict d /\ Py.dict_get k d = Some v.
Proof.
  destruct msg; simpl; try discriminate.
  destruct (Py.dict_get k d) eqn:Hk; [|discriminate].
  intros [= ->]. eauto.
Qed.

Section SnapshotProperties.
Context {env : Environment}.

Lemma run_listener_invocations (listener : registration)
    (d : list (string * Py.value)) (st st' : client) t r :
  run_listener listener (Py.VDict d) st = (st', t, r) ->
  invocations t = [(listener, Py.VDict d)].
Proof.
  rewrite run_listener_dict. cbv zeta.
  destruct (user_call _ _ (kwargs listener) st) as [st1 res].
  simpl fst. simpl snd. unfold caught.
  destruct res as [|e|coro].
  - now intros [= <- <- <-].
  - destruct (is_Exception e); now intros [= <- <- <-].
  - destruct (Py.truthy (as_task listener)).
    + destruct (iscoroutine coro); now intros [= <- <- <-].
    + destruct (await_coro coro st1) as [st2 [e|]]; [|now intros [= <- <- <-]].
      destruct (is_Exception e); now intros [= <- <- <-].
Qed.

(** The loop invokes the listeners of the list it was given, in order,
    each with the message, and stops early only when it raises. *)
Lemma dispatch_invocations (d : list (string * Py.value)) :
  forall listeners st st' t r,
    dispatch listeners (Py.VDict d) st = (st', t, r) ->
    exists done rest,
      listeners = done ++ rest
      /\ invocations t = map (fun l => (l, Py.VDict d)) done
      /\ (r = Ok tt -> rest = []).
Proof.
  induction listeners as [|l ls IH]; intros st st' t r; simpl.
  - intros [= <- <- <-]. exists [], []. auto.
  - intros Hrun. apply bind_inv in Hrun
      as [[st1 [t1 [[] [t2 [H1 [H2 ->]]]]]] | [e [H1 ->]]].
    + destruct (IH _ _ _ _ H2) as [done [rest [-> [Hinv Hrest]]]].
      exists (l :: done), rest. repeat split; [|exact Hrest].
      rewrite invocations_app, (run_listener_invocations _ _ _ _ _ _ H1), Hinv.
      reflexivity.
    + exists [l], ls. repeat split; [|discriminate].
      now rewrite (run_listener_invocations _ _ _ _ _ _ H1).
Qed.

(** The collection pass calls no user code and logs nothing. *)
Lemma collect_trace (msg : Py.value) :
  forall keys st st' t r, collect msg keys st = (st', t, r) -> t = [].
Proof.
  induction keys as [|i keys IH]; intros st st' t r; simpl.
  - now intros [= <- <- <-].
  - unfold bind at 1, get. simpl.
    destruct (Py.dict_get i (event_listeners st)) as [items|];
      [|now intros [= <- <- <-]].
    unfold bind at 1, lift.
    destruct (matching_items msg items) as [found|e];
      [|now intros [= <- <- <-]].
    unfold ret at 1. unfold bind at 1.
    destruct (remove_each found items) as [items'|e];
      [|now intros [= <- <- <-]].
    unfold ret at 1. unfold bind at 1, put.
    destruct (collect msg keys _) as [[st2 t2] r2] eqn:Hrest.
    intros [= <- <- <-]. apply IH in Hrest. now subst.
Qed.

Lemma resolve_str (T : string) (d : list (string * list registration)) :
  resolve (Py.VStr T) d
  = Ok (setdefault_listeners T d ++ setdefault_listeners "*" d).
Proof.
  unfold resolve, get_listeners, setdefault_listeners. simpl.
  destruct (Py.dict_get T d), (Py.dict_get "*" d); reflexivity.
Qed.

End SnapshotProperties.


Lemma calls_made_app (t1 t2 : list event) :
  calls_made (t1 ++ t2) = calls_made t1 ++ calls_made t2.
Proof.
  induction t1 as [|ev t1 IH]; simpl; [reflexivity|].
  destruct ev; simpl; now rewrite IH.
Qed.


Section IsolationProperties.
Context {env : Environment}.

Hypothesis calls_raise_exceptions :
  forall id pos kw s e,
    snd (user_call id pos kw s) = RaisedSync e -> is_Exception e = true.
Hypothesis awaits_raise_exceptions :
  forall coro s e, snd (await_coro coro s) = Some e -> is_Exception e = true.
Hypothesis calls_keep_handler :
  forall id pos kw s, quiet s -> quiet (fst (user_call id pos kw s)).
Hypothesis awaits_keep_handler :
  forall coro s, quiet s -> quiet (fst (await_coro coro s)).

(** One turn of the loop calls the user's function for the listener and
    never raises: what the listener raises goes to the handler. *)
Lemma run_listener_isolated (listener : registration)
    (d : list (string * Py.value)) (st : client) :
  quiet st ->
  exists st1 t1,
    run_listener listener (Py.VDict d) st = (st1, t1, Ok tt)
    /\ served listener (Py.VDict d) t1
    /\ invocations t1 = [(listener, Py.VDict d)]
    /\ calls_made t1 = [call_for (Py.VDict d) listener]
    /\ (forall t2, failures_handled t2 -> failures_handled (t1 ++ t2))
    /\ quiet st1.
Proof.
  intros Hq. rewrite run_listener_dict. cbv zeta. unfold call_for.
  set (id := callee_of (event_cb listener)).
  set (pos := positional_of (event_cb listener) (Py.VDict d) (args listener)).
  pose proof (calls_raise_exceptions id pos (kwargs listener) st) as Hexn.
  pose proof (calls_keep_handler id pos (kwargs listener) st Hq) as Hq1.
  destruct (user_call id pos (kwargs listener) st) as [st1 res].
  simpl in Hexn, Hq1. simpl fst. simpl snd. unfold caught.
  destruct res as [|e|coro].
  - eexists _, _. split; [reflexivity|].
    split; [apply served_returned|]. repeat split; simpl; auto.
  - rewrite (Hexn e Logic.eq_refl), (Hq1 e).
    eexists _, _. split; [reflexivity|].
    split; [apply served_raised|]. repeat split; simpl; eauto.
  - destruct (Py.truthy (as_task listener)) eqn:Htask.
    + destruct (iscoroutine coro) eqn:Hco.
      * eexists _, _. split; [reflexivity|].
        split; [now apply served_scheduled|]. repeat split; simpl; auto.
      * simpl is_Exception. cbv iota. rewrite (Hq1 _).
        eexists _, _. split; [reflexivity|].
        split; [now apply served_refused|]. repeat split; simpl; auto.
    + pose proof (awaits_raise_exceptions coro st1) as Hexn2.
      pose proof (awaits_keep_handler coro st1 Hq1) as Hq2.
      destruct (await_coro coro st1) as [st2 [e|]]; simpl in Hexn2, Hq2.
      * rewrite (Hexn2 e Logic.eq_refl), (Hq2 e).
        eexists _, _. split; [reflexivity|].
        split; [now apply served_failed|]. repeat split; simpl; eauto.
      * eexists _, _. split; [reflexivity|].
        split; [now apply served_awaited|]. repeat split; simpl; auto.
Qed.

End IsolationProperties.


(** ** Listeners registered with [as_task] (C4) *)


Section DetachedProperties.
Context {env : Environment}.

End DetachedProperties.


(** ** The collapse rule of [extract_objects] (C6) *)

(** The claim C6 fails on a field that is present and not null but false in
    a test, such as an empty object: with one [Channel] field in the schema
    the callback gets [None], not an object built from the value, and with
    two the mapping leaves the field out. *)
Lemma empty_object_field_is_left_out :
  let one := Py.VDict [("type", Py.VStr "ChannelTalkingStarted");
                       ("channel", Py.VDict [])] in
  let two := Py.VDict [("type", Py.VStr "BridgeBlindTransfer");
                       ("channel", Py.VDict []);
                       ("replace_channel", Py.VDict [("id", Py.VStr "2")])] in
  getitem one "channel" = Ok (Py.VDict [])
  /\ extract_objects "Channel" ["channel"] one = Ok ExNone
  /\ getitem two "channel" = Ok (Py.VDict [])
  /\ extract_objects "Channel" ["channel"; "replace_channel"] two
     = Ok (ExMapping
             [("replace_channel",
               {| built_by := "Channel";
                  raw := Py.VDict [("id", Py.VStr "2")] |})]).
Proof. repeat split. Qed.

Lemma dict_set_fresh {A} (k : string) (v : A) (d : list (string * A)) :
  ~ In k (Py.dict_keys d) -> Py.dict_set k v d = d ++ [(k, v)].
Proof.
  unfold Py.dict_keys. induction d as [|[k' v'] d IH]; simpl; intros Hk.
  - reflexivity.
  - destruct (String.eqb k k') eqn:E.
    + apply String.eqb_eq in E. subst. tauto.
    + rewrite IH; tauto.
Qed.

(** With distinct field names the comprehension lists, in the order of the
    schema, the fields of the message that pass the test. *)
Lemma build_objects_present (factory_fn : string) (d : list (string * Py.value)) :
  forall fields acc,
    NoDup fields ->
    (forall f, In f fields -> ~ In f (Py.dict_keys acc)) ->
    build_objects factory_fn fields (Py.VDict d) acc
    = Ok (acc ++ map (fun f => (f, object_of factory_fn d f))
                     (filter (field_present d) fields)).
Proof.
  induction fields as [|f fields IH]; intros acc Hnd Hfresh; simpl.
  - now rewrite app_nil_r.
  - inversion Hnd as [|? ? Hf Hnd']; subst.
    unfold field_present at 1, object_of at 1.
    destruct (Py.dict_get f d) as [v|] eqn:Hv; simpl.
    + destruct (Py.truthy v) eqn:Ht; simpl.
      * rewrite dict_set_fresh by (apply Hfresh; now left).
        rewrite IH; [rewrite <- app_assoc; simpl; now rewrite Hv | exact Hnd' |].
        intros g Hg. unfold Py.dict_keys. rewrite map_app, in_app_iff. simpl.
        intros [Hin | [<- | []]]; [|contradiction].
        apply (Hfresh g); [now right | exact Hin].
      * apply IH; [exact Hnd'|]. intros g Hg. apply Hfresh. now right.
    + apply IH; [exact Hnd'|]. intros g Hg. apply Hfresh. now right.
Qed.

(** C6, amended.  For a message that is a dict and a schema with distinct
    field names, the extractor decides by the schema alone: with one field
    of the target kind it yields the object built from that field's value,
    or [None] when the field is absent or its value is false in a test
    ([None], [False], [0], an empty string, list or dict), never a mapping;
    with any other number of fields it yields the mapping over the fields
    that are present with a value true in a test, in schema order, each
    bound to the object built from its value. *)
Theorem extract_objects_collapses_by_schema
    (factory_fn : string) (fields : list string) (d : list (string * Py.value)) :
  NoDup fields ->
  extract_objects factory_fn fields (Py.VDict d)
  = Ok (match fields with
        | [f] => if field_present d f
                 then ExObject (object_of factory_fn d f)
                 else ExNone
        | _ => ExMapping (map (fun f => (f, object_of factory_fn d f))
                              (filter (field_present d) fields))
        end).
Proof.
  intros Hnd. unfold extract_objects.
  rewrite (build_objects_present factory_fn d fields [] Hnd) by (intros f _ []).
  simpl. destruct fields as [|f [|g rest]]; simpl; try reflexivity.
  now destruct (field_present d f).
Qed.

Lemma extract_objects_collapses_by_schema_witness :
  let d := [("type", Py.VStr "BridgeBlindTransfer");
            ("replace_channel", Py.VDict [("id", Py.VStr "2")])] in
  NoDup ["channel"; "replace_channel"]
  /\ extract_objects "Channel" ["channel"; "replace_channel"] (Py.VDict d)
     = Ok (ExMapping
             (map (fun f => (f, object_of "Channel" d f))
                  (filter (field_present d) ["channel"; "replace_channel"]))).
Proof.
  intros d.
  assert (Hnd : NoDup ["channel"; "replace_channel"]).
  { repeat constructor; simpl; intuition discriminate. }
  split; [exact Hnd|].
  exact (extract_objects_collapses_by_schema "Channel"
           ["channel"; "replace_channel"] d Hnd).
Defined.

(** ** The collection pass after [ChannelDestroyed] (C1, C10) *)

Lemma set_event_listeners_same (st : client) :
  set_event_listeners (event_listeners st) st = st.
Proof. now destruct st. Qed.

Lemma dict_set_same {A} (k : string) (v : A) (d : list (string * A)) :
  Py.dict_get k d = Some v -> Py.dict_set k v d = d.
Proof.
  induction d as [|[k' v'] d IH]; simpl; [discriminate|].
  destruct (String.eqb k k') eqn:E.
  - apply String.eqb_eq in E. now intros [= ->]; subst.
  - intros H. now rewrite IH.
Qed.

Lemma dict_get_key {A} (k : string) (d : list (string * A)) :
  In k (Py.dict_keys d) -> exists v, Py.dict_get k d = Some v.
Proof.
  unfold Py.dict_keys. induction d as [|[k' v'] d IH]; simpl; [tauto|].
  destruct (String.eqb k k') eqn:E; [eauto|].
  intros [-> | Hin]; [now rewrite String.eqb_refl in E | auto].
Qed.

Lemma dict_get_mem {A} (k : string) (d : list (string * A)) (v : A) :
  Py.dict_get k d = Some v -> Py.dict_mem k d = true.
Proof. unfold Py.dict_mem. now intros ->. Qed.

Lemma matching_items_filter (msg x : Py.value) (items : list registration) :
  channel_id msg = Ok x ->
  matching_items msg items = Ok (filter (in_item x) items).
Proof.
  intros Hx. induction items as [|item items IH]; simpl; [reflexivity|].
  rewrite Hx, IH. simpl. reflexivity.
Qed.

Lemma matching_items_raises (msg : Py.value) (e : exn)
    (item : registration) (items : list registration) :
  channel_id msg = Raise e -> matching_items msg (item :: items) = Raise e.
Proof. intros Hx. simpl. now rewrite Hx. Qed.

(** The two inner loops of the pass, on one list: the tuples that contain
    [x] go, the others stay in their order. *)
Lemma remove_matching_items (x : Py.value) (items : list registration) :
  remove_each (filter (in_item x) items) items
  = Ok (filter (fun r => negb (in_item x r)) items).
Proof.
  pose proof (remove_each_filter (fun r => negb (in_item x r))) as H.
  assert (Hresp : forall a b, registration_eqb a b = true ->
                              negb (in_item x a) = negb (in_item x b)).
  { intros a b Hab. now rewrite (in_item_eqb x a b Hab). }
  specialize (H Hresp items [] (fun z (F : In z []) => match F with end)).
  simpl in H. rewrite <- H. f_equal.
  apply filter_ext. intros r. now rewrite negb_involutive.
Qed.

Lemma filter_idempotent {A} (p : A -> bool) (l : list A) :
  filter p (filter p l) = filter p l.
Proof.
  induction l as [|a l IH]; simpl; [reflexivity|].
  destruct (p a) eqn:E; simpl; [rewrite E|]; now rewrite ?IH.
Qed.

Section CollectProperties.
Context {env : Environment}.

(** When the message names a channel id, the pass never raises and
    filters every list it visits. *)
Lemma collect_filters (msg x : Py.value) :
  channel_id msg = Ok x ->
  forall keys st,
    (forall k, In k keys -> Py.dict_mem k (event_listeners st) = true) ->
    exists reg,
      collect msg keys st = (set_event_listeners reg st, [], Ok tt)
      /\ Py.dict_keys reg = Py.dict_keys (event_listeners st)
      /\ forall T,
           Py.dict_get T reg
           = if existsb (String.eqb T) keys
             then option_map (filter (fun r => negb (in_item x r)))
                             (Py.dict_get T (event_listeners st))
             else Py.dict_get T (event_listeners st).
Proof.
  intros Hx. induction keys as [|i keys IH]; intros st Hkeys; simpl.
  - exists (event_listeners st). rewrite set_event_listeners_same. auto.
  - assert (Hi : Py.dict_mem i (event_listeners st) = true)
      by (apply Hkeys; now left).
    unfold Py.dict_mem in Hi.
    destruct (Py.dict_get i (event_listeners st)) as [items|] eqn:Hget;
      [clear Hi | discriminate].
    set (items' := filter (fun r => negb (in_item x r)) items).
    set (st2 := set_event_listeners
                  (Py.dict_set i items' (event_listeners st)) st).
    assert (Hk2 : Py.dict_keys (event_listeners st2)
                  = Py.dict_keys (event_listeners st)).
    { apply dict_keys_set. unfold Py.dict_mem. now rewrite Hget. }
    destruct (IH st2) as [reg [Hrun [Hkeys' Hlook]]].
    { intros k Hk. simpl.
      destruct (String.eqb k i) eqn:E.
      - apply String.eqb_eq in E. subst k.
        unfold Py.dict_mem. now rewrite dict_get_set_same.
      - unfold Py.dict_mem. rewrite dict_get_set_other by exact E.
        apply Hkeys. now right. }
    exists reg. split; [|split].
    + rewrite bind_get, Hget, (matching_items_filter msg x items Hx).
      rewrite bind_lift_ok, remove_matching_items, bind_lift_ok, bind_put.
      fold items'. fold st2. exact Hrun.
    + now rewrite Hkeys', Hk2.
    + intros T. rewrite Hlook. simpl event_listeners.
      destruct (String.eqb T i) eqn:E; simpl.
      * apply String.eqb_eq in E. subst T.
        rewrite dict_get_set_same, Hget. simpl.
        destruct (existsb (String.eqb i) keys); [|reflexivity].
        unfold items'. now rewrite filter_idempotent.
      * now rewrite dict_get_set_other by exact E.
Qed.

(** When [msg.get('channel').get('id')] raises, the pass raises at the
    first list that is not empty, and leaves the registry as it was. *)
Lemma collect_raises (msg : Py.value) (e : exn) :
  channel_id msg = Raise e ->
  forall keys st,
    (forall k, In k keys -> Py.dict_mem k (event_listeners st) = true) ->
    collect msg keys st
    = (st, [],
       if forallb (fun k => match Py.dict_get k (event_listeners st) with
                            | Some (_ :: _) => false
                            | _ => true
                            end) keys
       then Ok tt else Raise e).
Proof.
  intros Hx. induction keys as [|i keys IH]; intros st Hkeys; simpl.
  - reflexivity.
  - assert (Hi : Py.dict_mem i (event_listeners st) = true)
      by (apply Hkeys; now left).
    unfold Py.dict_mem in Hi.
    destruct (Py.dict_get i (event_listeners st)) as [items|] eqn:Hget;
      [clear Hi | discriminate].
    rewrite bind_get, Hget.
    destruct items as [|item items].
    + simpl matching_items. rewrite bind_lift_ok. simpl remove_each.
      rewrite bind_lift_ok, bind_put.
      rewrite (dict_set_same i [] (event_listeners st) Hget),
              set_event_listeners_same.
      apply IH. intros k Hk. apply Hkeys. now right.
    + rewrite (matching_items_raises msg e item items Hx).
      apply bind_lift_raise.
Qed.
End CollectProperties.

Lemma dict_get_not_key {A} (k : string) (d : list (string * A)) :
  existsb (String.eqb k) (Py.dict_keys d) = false -> Py.dict_get k d = None.
Proof.
  unfold Py.dict_keys. induction d as [|[k' v'] d IH]; simpl; [reflexivity|].
  destruct (String.eqb k k'); simpl; [discriminate | exact IH].
Qed.

Lemma dict_key_mem {A} (d : list (string * A)) :
  forall k, In k (Py.dict_keys d) -> Py.dict_mem k d = true.
Proof.
  intros k Hk. destruct (dict_get_key k d Hk) as [v Hv].
  exact (dict_get_mem k d v Hv).
Qed.

(** A string is never equal to a tuple or to a dict: a string id is found
    in a stored tuple only as its [event_obj] (or as its [as_task]). *)
Lemma in_item_str (s : string) (r : registration) :
  in_item (Py.VStr s) r
  = Py.eq (Py.VStr s) (event_obj r) || Py.eq (Py.VStr s) (as_task r).
Proof.
  unfold in_item, Py.contains. simpl.
  now rewrite orb_false_r.
Qed.

Section DestroyedProperties.
Context {env : Environment}.

(** [process_ws] on a [ChannelDestroyed] message whose listeners all ran:
    the collection pass follows. *)
Lemma process_ws_destroyed (msg : Py.value) (st st1 : client) (t : list event) :
  getitem msg "type" = Ok (Py.VStr "ChannelDestroyed") ->
  dispatch (setdefault_listeners "ChannelDestroyed" (event_listeners st)
            ++ setdefault_listeners "*" (event_listeners st)) msg st
  = (st1, t, Ok tt) ->
  process_ws msg st
  = match collect msg (Py.dict_keys (event_listeners st1)) st1 with
    | (st2, t2, r) => (st2, t ++ t2, r)
    end.
Proof.
  intros Hty Hloop. unfold process_ws.
  rewrite bind_get, Hty, bind_lift_ok, resolve_str, bind_lift_ok.
  unfold bind at 1. rewrite Hloop.
  rewrite bind_lift_ok. cbn [Py.eq]. rewrite String.eqb_refl, bind_get.
  reflexivity.
Qed.

(** C1, amended.  After the listeners of a [ChannelDestroyed] message
    whose channel has id [x] have run, the collection pass removes, from
    the list of every event type, the tuples one of whose components
    ([event_obj], the whole [args] tuple, the whole [kwargs] dict, or
    [as_task]) is equal to [x], and keeps every other tuple, in order; it
    does not look inside [args] or [kwargs]. *)
Theorem channel_destroyed_removes_tuples_containing_the_id
    (msg x : Py.value) (st st1 : client) (t : list event) :
  getitem msg "type" = Ok (Py.VStr "ChannelDestroyed") ->
  channel_id msg = Ok x ->
  dispatch (setdefault_listeners "ChannelDestroyed" (event_listeners st)
            ++ setdefault_listeners "*" (event_listeners st)) msg st
  = (st1, t, Ok tt) ->
  exists reg,
    process_ws msg st = (set_event_listeners reg st1, t, Ok tt)
    /\ Py.dict_keys reg = Py.dict_keys (event_listeners st1)
    /\ forall T,
         Py.dict_get T reg
         = option_map (filter (fun r => negb (in_item x r)))
                      (Py.dict_get T (event_listeners st1)).
Proof.
  intros Hty Hx Hloop.
  destruct (collect_filters msg x Hx (Py.dict_keys (event_listeners st1)) st1
              (dict_key_mem (event_listeners st1)))
    as [reg [Hrun [Hkeys Hlook]]].
  exists reg. split; [|split; [exact Hkeys|]].
  - rewrite (process_ws_destroyed msg st st1 t Hty Hloop), Hrun.
    now rewrite app_nil_r.
  - intros T. rewrite Hlook.
    destruct (existsb (String.eqb T) (Py.dict_keys (event_listeners st1))) eqn:E;
      [reflexivity|].
    now rewrite (dict_get_not_key T _ E).
Qed.

End DestroyedProperties.

(** The claim C1 fails: a listener registered with the keyword
    [channel_id="42"] stays after [ChannelDestroyed] for channel ["42"],
    and is invoked again by the next [StasisStart] message. *)
Lemma keyword_listener_survives_channel_destroyed :
  let st := set_event_listeners [("StasisStart", [Sample.by_keyword 1])]
              Sample.fresh in
  let again := Py.VDict [("type", Py.VStr "StasisStart")] in
  In (Py.VStr "42") (Py.dict_values (kwargs (Sample.by_keyword 1)))
  /\ process_ws (env := Sample.environment) (Sample.channel_destroyed "42") st
     = (st, [], Ok tt)
  /\ invocations
       (snd (fst (process_ws (env := Sample.environment) again st)))
     = [(Sample.by_keyword 1, again)].
Proof. repeat split. now left. Qed.

Lemma channel_destroyed_removes_tuples_containing_the_id_witness :
  let st := set_event_listeners
              [("StasisStart",
                [Sample.by_keyword 1; Sample.by_event_obj 2; Sample.plain 3])]
              Sample.fresh in
  exists reg,
    process_ws (env := Sample.environment) (Sample.channel_destroyed "42") st
    = (set_event_listeners reg st, [], Ok tt)
    /\ Py.dict_keys reg = Py.dict_keys (event_listeners st)
    /\ forall T,
         Py.dict_get T reg
         = option_map (filter (fun r => negb (in_item (Py.VStr "42") r)))
                      (Py.dict_get T (event_listeners st)).
Proof.
  intros st.
  apply (channel_destroyed_removes_tuples_containing_the_id
           (env := Sample.environment)
           (Sample.channel_destroyed "42") (Py.VStr "42") st st []);
    reflexivity.
Defined.



(** ** Malformed frames (C2) *)

Section FrameProperties.
Context {env : Environment}.

(** A frame that is neither text nor a close is logged and skipped. *)
Lemma binary_frame_is_skipped (payload : string) (more : option string)
    (rest : list (option WSMessage)) (st : client) :
  __run (Some {| type := BINARY; data := payload; extra := more |} :: rest) st
  = match __run rest st with
    | (st', t, r) => (st', Logged "warning" "Unknown JSON message type" :: t, r)
    end.
Proof. simpl. apply bind_emit. Qed.

(** C2, where the code departs from the claim.  A text frame whose
    payload the JSON decoder rejects is neither logged nor skipped: the
    decoder's exception leaves the loop, and the frames that follow are
    not read. *)
Theorem undecodable_frame_ends_the_loop (payload : string) (e : exn)
    (more : option string) (rest : list (option WSMessage)) (st : client) :
  json_loads payload = Raise e ->
  __run (Some {| type := TEXT; data := payload; extra := more |} :: rest) st
  = (st, [], Raise e).
Proof. intros Hload. simpl. now rewrite Hload. Qed.

(** X23.  A text frame that decodes to something other than an object with
    a [type] key is not logged and skipped either: building the text of
    the error entry raises [TypeError], since the frame is a tuple of three
    items for the one conversion of the template.  Nothing is logged, the
    exception leaves the loop and the frames that follow are not read. *)
Theorem invalid_event_ends_the_loop (payload : string) (v : Py.value)
    (more : option string) (rest : list (option WSMessage)) (st : client) :
  json_loads payload = Ok v ->
  is_event v = false ->
  __run (Some {| type := TEXT; data := payload; extra := more |} :: rest) st
  = (st, [],
     Raise (TypeError "not all arguments converted during string formatting")).
Proof.
  intros Hload Hev. simpl. rewrite Hload, bind_lift_ok, Hev. reflexivity.
Qed.
End FrameProperties.

Lemma undecodable_frame_ends_the_loop_witness :
  let valid := Some {| type := TEXT; data := Sample.untyped_text;
                       extra := None |} in
  __run (env := Sample.environment)
    [Some {| type := TEXT; data := "not json"; extra := None |}; valid]
    Sample.fresh
  = (Sample.fresh, [], Raise (JSONDecodeError "Expecting value")).
Proof.
  intros valid.
  apply (undecodable_frame_ends_the_loop (env := Sample.environment)).
  reflexivity.
Defined.

Lemma invalid_event_ends_the_loop_witness :
  let valid := Some {| type := TEXT; data := Sample.destroyed_text;
                       extra := None |} in
  __run (env := Sample.environment)
    [Some {| type := TEXT; data := Sample.untyped_text; extra := None |}; valid]
    Sample.fresh
  = (Sample.fresh, [],
     Raise (TypeError "not all arguments converted during string formatting")).
Proof.
  intros valid.
  apply (invalid_event_ends_the_loop (env := Sample.environment)
           Sample.untyped_text (Py.VDict [("channel", Py.VStr "42")]));
    reflexivity.
Defined.

(** ** Shutdown (C3) *)

Lemma try_except_ok {A} (m : M A) (caught : exn -> bool) (h : exn -> M A)
    st st1 t1 a :
  m st = (st1, t1, Ok a) -> try_except m caught h st = (st1, t1, Ok a).
Proof. unfold try_except. now intros ->. Qed.

Lemma try_except_caught {A} (m : M A) (caught : exn -> bool) (h : exn -> M A)
    st st1 t1 e :
  m st = (st1, t1, Raise e) -> caught e = true ->
  try_except m caught h st
  = match h e st1 with (st2, t2, r) => (st2, t1 ++ t2, r) end.
Proof. unfold try_except. now intros -> ->. Qed.

Lemma closed_sockets_app (t1 t2 : list event) :
  closed_sockets (t1 ++ t2) = closed_sockets t1 ++ closed_sockets t2.
Proof.
  induction t1 as [|ev t1 IH]; simpl; [reflexivity|].
  destruct ev; simpl; now rewrite IH.
Qed.

(** One turn of the loop of [close] on a socket that can be closed: the
    socket leaves the tracked set, is closed, and the loop goes on. *)
Lemma close_each_step (ws : websocket) (rest : list websocket) (st : client) :
  websockets st = ws :: rest ->
  closable ws ->
  close_each (ws :: rest) st
  = match close_each rest (set_websockets rest st) with
    | (st2, t2, r) =>
        (st2,
         match peername ws with
         | None => []
         | Some _ => [Logged "info" "Successfully disconnected"]
         end ++ WsClosed (ws_id ws) :: t2,
         r)
    end.
Proof.
  intros Hws [Hclose Hpeer]. simpl close_each. unfold get_peer_info.
  destruct (peername ws) as [[|host [|port more]]|]; simpl in Hpeer; try lia;
    cbv [try_except bind lift rbind unpack_pair firstn websockets_remove
         close_websocket get put emit ret raise is_TypeError];
    rewrite Hws, Hclose; cbn [set_remove]; rewrite Nat.eqb_refl;
    cbv [try_except bind lift rbind ret raise];
    now destruct (close_each rest (set_websockets rest st)) as [[? ?] ?].
Qed.

(** When every tracked socket can be closed, the loop of [close] closes
    each of them, in order, and empties the tracked set. *)
Lemma close_each_completes :
  forall sockets st,
    websockets st = sockets ->
    Forall closable sockets ->
    exists t,
      close_each sockets st = (set_websockets [] st, t, Ok tt)
      /\ closed_sockets t = map ws_id sockets.
Proof.
  induction sockets as [|ws rest IH]; intros st Hws Hall.
  - exists []. simpl. split; [|reflexivity].
    destruct st; simpl in *; now subst.
  - inversion Hall as [|? ? Hone Hrest]; subst.
    destruct (IH (set_websockets rest st) Logic.eq_refl Hrest)
      as [t [Hrun Hclosed]].
    change (set_websockets [] (set_websockets rest st))
      with (set_websockets [] st) in Hrun.
    rewrite (close_each_step ws rest st Hws Hone), Hrun.
    eexists. split; [reflexivity|].
    rewrite closed_sockets_app. simpl. rewrite Hclosed.
    now destruct (peername ws).
Qed.

(** X9.  An [Exception] of the unsubscribe request is ignored, and when
    every tracked socket can be closed, [Client.close] closes them all, in
    order, empties the tracked set and closes the Swagger client. *)
Lemma close_completes (st : client) :
  Forall closable (websockets st) ->
  swagger_close st = None ->
  (forall e, http_request st "delete" (full_url st) = Some e ->
             is_Exception e = true) ->
  exists t,
    close st = (set_websockets [] st, t, Ok tt)
    /\ closed_sockets t = map ws_id (websockets st)
    /\ In SwaggerClosed t.
Proof.
  intros Hall Hswagger Hreq.
  destruct (close_each_completes (websockets st) st Logic.eq_refl Hall)
    as [t [Hrun Hclosed]].
  unfold close. rewrite bind_get.
  assert (Htry : try_except (request "delete" (full_url st)) is_Exception
                   (fun _ => ret tt) st
                 = (st, [Requested "delete" (full_url st)], Ok tt)).
  { unfold try_except, request. rewrite bind_get, bind_emit.
    destruct (http_request st "delete" (full_url st)) as [e|] eqn:He.
    - unfold raise. now rewrite (Hreq e Logic.eq_refl).
    - reflexivity. }
  unfold bind at 1. rewrite Htry, bind_get.
  unfold bind at 1. rewrite Hrun.
  unfold close_swagger. rewrite bind_get, bind_emit.
  change (swagger_close (set_websockets [] st)) with (swagger_close st).
  rewrite Hswagger. unfold ret.
  eexists. split; [reflexivity|]. split.
  - simpl. now rewrite closed_sockets_app, Hclosed, app_nil_r.
  - apply in_or_app. right. apply in_or_app. right. now left.
Qed.

(** C3, where the code departs from the claim.  Two sockets are tracked and
    [close()] of the first raises: the exception leaves [Client.close], the
    second socket is neither closed nor removed from the tracked set, and
    the Swagger client is not closed. *)
Theorem close_stops_at_a_failing_socket :
  let boom := OtherException "boom" in
  let st := set_websockets [Sample.socket 1 (Some boom); Sample.socket 2 None]
              Sample.fresh in
  close st
  = (set_websockets [Sample.socket 2 None] Sample.fresh,
     [Requested "delete" (full_url st);
      Logged "info" "Successfully disconnected";
      WsClosed 1],
     Raise boom).
Proof. reflexivity. Qed.

(** ** Registration of object listeners (C9) *)

(** The loop of [on_event] removes tuples it has just read from the list,
    so [list.remove] finds them and never raises. *)
Lemma on_event_scan_returns (fn : callback) (fuel : nat) :
  forall i l, exists l', on_event_scan fuel fn i l = Ok l'.
Proof.
  induction fuel as [|fuel IH]; intros i l; simpl; [eauto|].
  destruct (nth_error l i) as [cb|] eqn:Hi; [|eauto].
  destruct (callback_eqb fn (event_cb cb)); [|apply IH].
  destruct (list_remove_present cb l) as [l' Hl'].
  - apply existsb_exists. exists cb. split.
    + eapply nth_error_In. exact Hi.
    + apply registration_eqb_refl.
  - rewrite Hl'. simpl. apply IH.
Qed.

Lemma on_event_returns (event_type : string) (fn : callback)
    (eo at_ : Py.value) (a : list Py.value) (kw : list (string * Py.value))
    (st : client) :
  exists st' u,
    on_event event_type fn eo at_ a kw st
    = (st', [Logged "debug" "event_cb"], Ok u)
    /\ In (callback_obj u) (setdefault_listeners event_type (event_listeners st')).
Proof.
  unfold on_event. rewrite bind_get.
  destruct (on_event_scan_returns fn
              (List.length (setdefault_listeners event_type (event_listeners st)))
              0 (setdefault_listeners event_type (event_listeners st)))
    as [l' Hl'].
  rewrite Hl', bind_lift_ok. eexists _, _. split; [reflexivity|].
  unfold setdefault_listeners at 1. simpl.
  rewrite dict_get_set_same. apply in_or_app. right. now left.
Qed.

(** X13.  [on_object_event] raises [ValueError] when the event type has no
    model or the model has no field of the wanted type, whatever the other
    arguments, and leaves the client as it was: nothing is registered and
    no closure is created. *)
Lemma on_object_event_configuration_error (event_type : string) (fn : nat)
    (factory_fn model_id : string) (at_ : Py.value) (a : list Py.value)
    (kw : list (string * Py.value)) (st : client) :
  match Py.dict_get event_type (event_models st) with
  | None => True
  | Some event_model => fields_of_type model_id event_model = []
  end ->
  exists text,
    on_object_event event_type fn factory_fn model_id at_ a kw st
    = (st, [Logged "debug" "On object event"], Raise (ValueError text)).
Proof.
  intros Hbad. unfold on_object_event. rewrite bind_emit, bind_get.
  destruct (Py.dict_get event_type (event_models st)) as [m|].
  - rewrite Hbad. eexists. reflexivity.
  - eexists. reflexivity.
Qed.

(** With a model that has a field of the wanted type, [on_object_event]
    does not raise [ValueError]: it registers when the extra arguments can
    be bound to the parameters of [on_event], and raises [TypeError], with
    the registry untouched, when they cannot. *)
Lemma on_object_event_known_type (event_type : string) (fn : nat)
    (factory_fn model_id : string) (at_ : Py.value) (a : list Py.value)
    (kw : list (string * Py.value)) (st : client)
    (event_model : swagger_model) :
  Py.dict_get event_type (event_models st) = Some event_model ->
  fields_of_type model_id event_model <> [] ->
  match bind_on_event a at_ kw with
  | Ok _ =>
      exists st' u,
        on_object_event event_type fn factory_fn model_id at_ a kw st
        = (st', [Logged "debug" "On object event"; Logged "debug" "event_cb"], Ok u)
        /\ In (callback_obj u)
              (setdefault_listeners event_type (event_listeners st'))
  | Raise e =>
      on_object_event event_type fn factory_fn model_id at_ a kw st
      = (set_closures (S (closures st)) st,
         [Logged "debug" "On object event"], Raise e)
  end.
Proof.
  intros Hm Hf. unfold on_object_event.
  rewrite bind_emit, bind_get, Hm.
  destruct (fields_of_type model_id event_model) as [|f fs] eqn:Hfs; [congruence|].
  rewrite bind_put.
  destruct (bind_on_event a at_ kw) as [[[[eo at'] a'] kw']|e].
  - rewrite bind_lift_ok.
    destruct (on_event_returns event_type
                (ExtractObjects (closures st) fn factory_fn (f :: fs))
                eo at' a' kw' (set_closures (S (closures st)) st))
      as [st' [u [Hrun Hin]]].
    rewrite Hrun. eauto.
  - reflexivity.
Qed.

(** C9, where the code departs from the claim.  The event type is known
    and has a field of the wanted type, yet [on_object_event] raises: with
    two extra positional arguments the call of [on_event] gives [as_task]
    twice, which is a [TypeError]. *)
Theorem on_object_event_rejects_two_extra_arguments :
  Py.dict_mem "ChannelTalkingStarted" (event_models Sample.fresh) = true
  /\ option_map (fields_of_type "Channel")
       (Py.dict_get "ChannelTalkingStarted" (event_models Sample.fresh))
     = Some ["channel"]
  /\ on_object_event "ChannelTalkingStarted" 1 "Channel" "Channel"
       (Py.VBool false) [Py.VStr "a"; Py.VStr "b"] [] Sample.fresh
     = (set_closures 1 Sample.fresh,
        [Logged "debug" "On object event"],
        Raise (TypeError "on_event() got multiple values for argument 'as_task'")).
Proof. repeat split. Qed.


(** * Further properties of the client *)

(** ** The registry under its own operations *)

Lemma one_per_callback_nil : one_per_callback [].
Proof. intros fn. simpl. lia. Qed.

Lemma setdefault_one_per_callback (T : string) (st : client) :
  registry_ok st ->
  one_per_callback (setdefault_listeners T (event_listeners st)).
Proof.
  intros Hok. unfold setdefault_listeners.
  destruct (Py.dict_get T (event_listeners st)) as [l|] eqn:Hl.
  - exact (Hok T l Hl).
  - exact one_per_callback_nil.
Qed.

(** Replacing the tuple of a callback by a new one at the end keeps the
    list at one tuple per callback. *)
Lemma one_per_callback_replace (fn : callback) (obj : registration)
    (l : list registration) :
  event_cb obj = fn ->
  one_per_callback l ->
  one_per_callback (filter (fun r => negb (registered_as fn r)) l ++ [obj]).
Proof.
  intros Hobj Hone g.
  set (kept := filter (fun r => negb (registered_as fn r)) l).
  assert (Hnone : forall r, In r kept -> registered_as fn r = false).
  { intros r Hr. apply filter_In in Hr as [_ Hr].
    now destruct (registered_as fn r). }
  rewrite filter_app, length_app. simpl.
  destruct (registered_as g obj) eqn:Hg; simpl.
  - assert (Hnog : filter (registered_as g) kept = []).
    { assert (Hall : forall r, In r kept -> registered_as g r = false).
      { intros r Hr. destruct (registered_as g r) eqn:Hgr; [|reflexivity].
        unfold registered_as in Hg, Hgr. rewrite Hobj in Hg.
        rewrite callback_eqb_sym in Hg.
        pose proof (callback_eqb_trans _ _ _ Hg Hgr) as Hfr.
        specialize (Hnone r Hr). unfold registered_as in Hnone. congruence. }
      clearbody kept. clear - Hall.
      induction kept as [|x k IH]; simpl; [reflexivity|].
      rewrite (Hall x (or_introl Logic.eq_refl)). apply IH.
      intros r Hr. apply Hall. now right. }
    rewrite Hnog. simpl. lia.
  - pose proof (one_per_callback_filter (fun r => negb (registered_as fn r)) l Hone g).
    fold kept in H. lia.
Qed.

(** What [list.remove] does when it returns: it drops the first element
    equal to [x]. *)
Lemma list_remove_ok (x : registration) :
  forall l l',
    list_remove x l = Ok l' ->
    exists l1 y l2,
      l = l1 ++ y :: l2 /\ l' = l1 ++ l2
      /\ registration_eqb y x = true
      /\ forall z, In z l1 -> registration_eqb z x = false.
Proof.
  induction l as [|y l IH]; intros l'; simpl; [discriminate|].
  destruct (registration_eqb y x) eqn:Hy.
  - intros [= <-]. exists [], y, l. repeat split; auto. intros z [].
  - destruct (list_remove x l) as [t|e] eqn:Hrem; simpl; [|discriminate].
    intros [= <-].
    destruct (IH t Logic.eq_refl) as [l1 [w [l2 [-> [-> [Hw Hpre]]]]]].
    exists (y :: l1), w, l2. repeat split; auto.
    intros z [<- | Hz]; auto.
Qed.

Lemma one_per_callback_remove (x : registration) (l l' : list registration) :
  list_remove x l = Ok l' -> one_per_callback l -> one_per_callback l'.
Proof.
  intros Hrem Hone g.
  destruct (list_remove_ok x l l' Hrem) as [l1 [y [l2 [-> [-> _]]]]].
  specialize (Hone g). rewrite filter_app in *. rewrite length_app in *.
  simpl in Hone. destruct (registered_as g y); simpl in Hone; lia.
Qed.

(** In a list with one tuple per callback, removing a tuple leaves nothing
    equal to it. *)
Lemma list_remove_leaves_none (x : registration) (l l' : list registration) :
  list_remove x l = Ok l' -> one_per_callback l -> in_list x l' = false.
Proof.
  intros Hrem Hone.
  destruct (list_remove_ok x l l' Hrem) as [l1 [y [l2 [-> [-> [Hy Hpre]]]]]].
  unfold in_list. rewrite existsb_app. apply orb_false_iff. split.
  - destruct (existsb _ l1) eqn:E; [|reflexivity].
    apply existsb_exists in E as [z [Hz Hzx]]. rewrite (Hpre z Hz) in Hzx.
    discriminate.
  - destruct (existsb _ l2) eqn:E; [|reflexivity].
    apply existsb_exists in E as [z [Hz Hzx]].
    specialize (Hone (event_cb x)). rewrite filter_app, length_app in Hone.
    simpl in Hone.
    assert (Hyx : registered_as (event_cb x) y = true).
    { unfold registered_as. rewrite callback_eqb_sym.
      now apply registration_eqb_callback. }
    assert (Hzx' : registered_as (event_cb x) z = true).
    { unfold registered_as. rewrite callback_eqb_sym.
      now apply registration_eqb_callback. }
    rewrite Hyx in Hone. simpl in Hone.
    assert (Hin : In z (filter (registered_as (event_cb x)) l2))
      by (apply filter_In; auto).
    destruct (filter (registered_as (event_cb x)) l2); [destruct Hin|].
    simpl in Hone. lia.
Qed.

(** The state [on_event] leaves, on a list with one tuple per callback. *)
Lemma on_event_result (event_type : string) (fn : callback) (eo at_ : Py.value)
    (a : list Py.value) (kw : list (string * Py.value)) (st : client) :
  one_per_callback (setdefault_listeners event_type (event_listeners st)) ->
  let obj := {| event_cb := fn; event_obj := eo; args := a; kwargs := kw;
                as_task := at_ |} in
  let kept := filter (fun r => negb (registered_as fn r))
                     (setdefault_listeners event_type (event_listeners st)) in
  on_event event_type fn eo at_ a kw st
  = (set_event_listeners
       (Py.dict_set event_type (kept ++ [obj]) (event_listeners st)) st,
     [Logged "debug" "event_cb"],
     Ok {| unsub_event_type := event_type; callback_obj := obj |}).
Proof.
  intros Hone obj kept. unfold on_event.
  rewrite bind_get, (on_event_scan_removes fn _ Hone), bind_lift_ok.
  reflexivity.
Qed.

Lemma kept_has_no_equal (fn : callback) (obj : registration)
    (l : list registration) :
  event_cb obj = fn ->
  forall z, In z (filter (fun r => negb (registered_as fn r)) l) ->
            registration_eqb z obj = false.
Proof.
  intros Hobj z Hz. apply filter_In in Hz as [_ Hz].
  destruct (registration_eqb z obj) eqn:E; [|reflexivity].
  apply registration_eqb_callback in E. rewrite Hobj, callback_eqb_sym in E.
  unfold registered_as in Hz. rewrite E in Hz. discriminate.
Qed.

(** X2.  The registry keeps "at most one tuple per callback in every
    listener list" under the client's own operations: a registration with
    [on_event], the [close] of an [EventUnsubscriber], and the collection
    pass that follows [ChannelDestroyed], whether it completes or raises. *)
Theorem registry_operations_keep_one_per_callback (st : client) :
  registry_ok st ->
  (forall event_type fn eo at_ a kw st' t r,
      on_event event_type fn eo at_ a kw st = (st', t, r) -> registry_ok st')
  /\ (forall u st' t r,
        unsubscriber_close u st = (st', t, r) -> registry_ok st')
  /\ (forall msg st' t r,
        collect msg (Py.dict_keys (event_listeners st)) st = (st', t, r) ->
        registry_ok st').
Proof.
  intros Hok. split; [|split].
  - intros event_type fn eo at_ a kw st' t r.
    rewrite (on_event_result event_type fn eo at_ a kw st
               (setdefault_one_per_callback event_type st Hok)).
    intros [= <- _ _] T l. simpl.
    destruct (String.eqb T event_type) eqn:E.
    + apply String.eqb_eq in E. subst T. rewrite dict_get_set_same.
      intros [= <-]. apply one_per_callback_replace; [reflexivity|].
      exact (setdefault_one_per_callback event_type st Hok).
    + rewrite dict_get_set_other by exact E. apply Hok.
  - intros u st' t r. unfold unsubscriber_close. rewrite bind_get.
    destruct (Py.dict_get (unsub_event_type u) (event_listeners st))
      as [l|] eqn:Hl; [|now intros [= <- _ _]].
    destruct (existsb _ l) eqn:Hin; [|now intros [= <- _ _]].
    destruct (list_remove (callback_obj u) l) as [l'|e] eqn:Hrem;
      [|now intros [= <- _ _]].
    rewrite bind_lift_ok. intros [= <- _ _] T l0. simpl.
    destruct (String.eqb T (unsub_event_type u)) eqn:E.
    + apply String.eqb_eq in E. subst T. rewrite dict_get_set_same.
      intros [= <-]. exact (one_per_callback_remove _ _ _ Hrem (Hok _ _ Hl)).
    + rewrite dict_get_set_other by exact E. apply Hok.
  - intros msg st' t r Hrun.
    destruct (channel_id msg) as [x|e] eqn:Hx.
    + destruct (collect_filters msg x Hx _ st (dict_key_mem (event_listeners st)))
        as [reg [Hrun' [_ Hlook]]].
      rewrite Hrun' in Hrun. injection Hrun as <- _ _.
      intros T l. simpl. rewrite Hlook.
      destruct (Py.dict_get T (event_listeners st)) as [l0|] eqn:Hl0.
      * destruct (existsb _ _); simpl; intros [= <-].
        -- apply one_per_callback_filter. exact (Hok T l0 Hl0).
        -- exact (Hok T l0 Hl0).
      * destruct (existsb _ _); discriminate.
    + rewrite (collect_raises msg e Hx _ st (dict_key_mem (event_listeners st)))
        in Hrun.
      injection Hrun as <- _ _. exact Hok.
Qed.

Lemma registry_ok_sample :
  registry_ok (set_event_listeners
                 [("StasisStart", [Sample.plain 1; Sample.plain 2])]
                 Sample.fresh).
Proof.
  intros T l. simpl. destruct (String.eqb T "StasisStart"); [|discriminate].
  intros [= <-]. exact one_per_callback_sample.
Qed.

Lemma registry_operations_keep_one_per_callback_witness :
  let st := set_event_listeners
              [("StasisStart", [Sample.plain 1; Sample.plain 2])]
              Sample.fresh in
  registry_ok
    (fst (fst (on_event "StasisStart" (UserCb 2) (Py.VStr "42") (Py.VBool false)
                 [] [] st))).
Proof.
  intros st.
  destruct (registry_operations_keep_one_per_callback st registry_ok_sample)
    as [Hreg _].
  destruct (on_event "StasisStart" (UserCb 2) (Py.VStr "42") (Py.VBool false)
              [] [] st) as [[st' t] r] eqn:Hrun.
  exact (Hreg _ _ _ _ _ _ st' t r Hrun).
Defined.

(** X3.  When the event type of an [EventUnsubscriber] is a key of the
    registry and its list holds one tuple per callback, [close] does not
    raise and leaves no tuple equal to the captured one in the list; a
    second [close] changes nothing and does not raise either. *)
Theorem unsubscriber_close_is_idempotent (u : EventUnsubscriber) (st : client)
    (l : list registration) :
  Py.dict_get (unsub_event_type u) (event_listeners st) = Some l ->
  one_per_callback l ->
  exists st1 l1,
    unsubscriber_close u st = (st1, [], Ok tt)
    /\ Py.dict_get (unsub_event_type u) (event_listeners st1) = Some l1
    /\ in_list (callback_obj u) l1 = false
    /\ unsubscriber_close u st1 = (st1, [], Ok tt).
Proof.
  intros Hl Hone. unfold unsubscriber_close at 1. rewrite bind_get, Hl.
  destruct (existsb (fun y => registration_eqb y (callback_obj u)) l) eqn:Hin.
  - destruct (list_remove_present _ _ Hin) as [l' Hrem].
    rewrite Hrem, bind_lift_ok. unfold put.
    eexists _, l'. split; [reflexivity|]. simpl.
    rewrite dict_get_set_same. split; [reflexivity|].
    pose proof (list_remove_leaves_none _ _ _ Hrem Hone) as Hnone.
    split; [exact Hnone|].
    unfold unsubscriber_close. rewrite bind_get. simpl.
    rewrite dict_get_set_same. unfold in_list in Hnone. now rewrite Hnone.
  - exists st, l. repeat split; auto.
    unfold unsubscriber_close. rewrite bind_get, Hl, Hin. reflexivity.
Qed.

Lemma unsubscriber_close_is_idempotent_witness :
  let st := set_event_listeners
              [("StasisStart", [Sample.plain 1; Sample.plain 2])]
              Sample.fresh in
  let u := {| unsub_event_type := "StasisStart";
              callback_obj := Sample.plain 1 |} in
  exists st1 l1,
    unsubscriber_close u st = (st1, [], Ok tt)
    /\ Py.dict_get "StasisStart" (event_listeners st1) = Some l1
    /\ in_list (Sample.plain 1) l1 = false
    /\ unsubscriber_close u st1 = (st1, [], Ok tt).
Proof.
  intros st u.
  exact (unsubscriber_close_is_idempotent u st
           [Sample.plain 1; Sample.plain 2] Logic.eq_refl one_per_callback_sample).
Defined.

(** X4.  Registering a callback and closing the handle that [on_event]
    returned leaves, for that event type, the listeners that were there
    minus the tuple the callback had before: when the callback was not yet
    registered, the list is as it was. *)
Theorem on_event_then_close_round_trip (event_type : string) (fn : callback)
    (eo at_ : Py.value) (a : list Py.value) (kw : list (string * Py.value))
    (st : client) :
  one_per_callback (setdefault_listeners event_type (event_listeners st)) ->
  exists st1 t u st2,
    on_event event_type fn eo at_ a kw st = (st1, t, Ok u)
    /\ unsubscriber_close u st1 = (st2, [], Ok tt)
    /\ setdefault_listeners event_type (event_listeners st2)
       = filter (fun r => negb (registered_as fn r))
                (setdefault_listeners event_type (event_listeners st))
    /\ (filter (registered_as fn)
               (setdefault_listeners event_type (event_listeners st)) = [] ->
        setdefault_listeners event_type (event_listeners st2)
        = setdefault_listeners event_type (event_listeners st)).
Proof.
  intros Hone.
  set (old := setdefault_listeners event_type (event_listeners st)) in *.
  set (obj := {| event_cb := fn; event_obj := eo; args := a; kwargs := kw;
                 as_task := at_ |}).
  set (kept := filter (fun r => negb (registered_as fn r)) old).
  eexists _, _, _, _. split; [exact (on_event_result _ _ _ _ _ _ _ Hone)|].
  fold old. fold obj. fold kept.
  assert (Hrem : list_remove obj (kept ++ [obj]) = Ok (kept ++ [])).
  { apply list_remove_behind.
    - apply kept_has_no_equal. reflexivity.
    - apply registration_eqb_refl. }
  assert (Hin : existsb (fun y => registration_eqb y obj) (kept ++ [obj]) = true).
  { rewrite existsb_app. simpl. rewrite registration_eqb_refl.
    now rewrite orb_true_r. }
  split; [|split].
  - unfold unsubscriber_close. rewrite bind_get. simpl.
    rewrite dict_get_set_same, Hin, Hrem, bind_lift_ok. reflexivity.
  - unfold setdefault_listeners at 1. simpl.
    rewrite dict_get_set_same. apply app_nil_r.
  - intros Hfresh. unfold setdefault_listeners at 1. simpl.
    rewrite dict_get_set_same, app_nil_r. apply filter_negb_id. exact Hfresh.
Qed.

Lemma on_event_then_close_round_trip_witness :
  let st := set_event_listeners
              [("StasisStart", [Sample.plain 1; Sample.plain 2])]
              Sample.fresh in
  exists st1 t u st2,
    on_event "StasisStart" (UserCb 7) Py.VNone (Py.VBool false) [] [] st
    = (st1, t, Ok u)
    /\ unsubscriber_close u st1 = (st2, [], Ok tt)
    /\ setdefault_listeners "StasisStart" (event_listeners st2)
       = [Sample.plain 1; Sample.plain 2].
Proof.
  intros st.
  destruct (on_event_then_close_round_trip "StasisStart" (UserCb 7) Py.VNone
              (Py.VBool false) [] [] st one_per_callback_sample)
    as [st1 [t [u [st2 [H1 [H2 [_ H4]]]]]]].
  exists st1, t, u, st2. repeat split; [exact H1 | exact H2 |].
  exact (H4 Logic.eq_refl).
Defined.

(** The pass over all the keys of the registry filters every list. *)
Lemma collect_all_filters (msg x : Py.value) (st : client) :
  channel_id msg = Ok x ->
  exists reg,
    collect msg (Py.dict_keys (event_listeners st)) st
    = (set_event_listeners reg st, [], Ok tt)
    /\ forall T,
         Py.dict_get T reg
         = option_map (filter (fun r => negb (in_item x r)))
                      (Py.dict_get T (event_listeners st)).
Proof.
  intros Hx.
  destruct (collect_filters msg x Hx _ st (dict_key_mem (event_listeners st)))
    as [reg [Hrun [_ Hlook]]].
  exists reg. split; [exact Hrun|]. intros T. rewrite Hlook.
  destruct (existsb (String.eqb T) (Py.dict_keys (event_listeners st))) eqn:E;
    [reflexivity|].
  now rewrite (dict_get_not_key T _ E).
Qed.

(** X5.  When the message names a channel id, the collection pass of
    [process_ws] does not raise, leaves no tuple that contains the id in
    any listener list, and running it again changes no list. *)
Theorem collect_leaves_no_tuple_with_the_id (msg x : Py.value) (st : client) :
  channel_id msg = Ok x ->
  exists st1 st2,
    collect msg (Py.dict_keys (event_listeners st)) st = (st1, [], Ok tt)
    /\ (forall T l r,
          Py.dict_get T (event_listeners st1) = Some l -> In r l ->
          in_item x r = false)
    /\ collect msg (Py.dict_keys (event_listeners st1)) st1 = (st2, [], Ok tt)
    /\ forall T, Py.dict_get T (event_listeners st2)
                 = Py.dict_get T (event_listeners st1).
Proof.
  intros Hx.
  destruct (collect_all_filters msg x st Hx) as [reg1 [Hrun1 Hlook1]].
  destruct (collect_all_filters msg x (set_event_listeners reg1 st) Hx)
    as [reg2 [Hrun2 Hlook2]].
  eexists _, _. split; [exact Hrun1|]. split; [|split; [exact Hrun2|]].
  - intros T l r. simpl. rewrite Hlook1.
    destruct (Py.dict_get T (event_listeners st)) as [l0|]; [|discriminate].
    simpl. intros [= <-] Hr. apply filter_In in Hr as [_ Hr].
    now destruct (in_item x r).
  - intros T. simpl. rewrite Hlook2. simpl. rewrite Hlook1.
    destruct (Py.dict_get T (event_listeners st)) as [l0|]; [|reflexivity].
    simpl. now rewrite filter_idempotent.
Qed.

Lemma collect_leaves_no_tuple_with_the_id_witness :
  let st := set_event_listeners
              [("StasisStart", [Sample.by_event_obj 1; Sample.plain 2])]
              Sample.fresh in
  exists st1 st2,
    collect (Sample.channel_destroyed "42") (Py.dict_keys (event_listeners st)) st
    = (st1, [], Ok tt)
    /\ (forall T l r,
          Py.dict_get T (event_listeners st1) = Some l -> In r l ->
          in_item (Py.VStr "42") r = false)
    /\ collect (Sample.channel_destroyed "42")
         (Py.dict_keys (event_listeners st1)) st1 = (st2, [], Ok tt)
    /\ forall T, Py.dict_get T (event_listeners st2)
                 = Py.dict_get T (event_listeners st1).
Proof.
  intros st.
  exact (collect_leaves_no_tuple_with_the_id (Sample.channel_destroyed "42")
           (Py.VStr "42") st Logic.eq_refl).
Defined.

(** ** The frame loop *)

Section FrameLoopProperties.
Context {env : Environment}.

(** X6.  A text frame that decodes to a JSON object whose [type] is a list
    or an object passes the check of [__run], and [process_ws] then raises
    [TypeError] on the lookup of the listeners, before any listener is
    invoked: the exception ends the loop and the frames that follow are not
    read. *)
Theorem unhashable_type_ends_the_loop (payload : string)
    (d : list (string * Py.value)) (ty : Py.value)
    (rest : list (option WSMessage)) (st : client) (more : option string) :
  json_loads payload = Ok (Py.VDict d) ->
  Py.dict_get "type" d = Some ty ->
  hashable ty = false ->
  process_ws (Py.VDict d) st = (st, [], Raise (TypeError "unhashable type"))
  /\ __run (Some {| type := TEXT; data := payload; extra := more |} :: rest) st
     = (st, [], Raise (TypeError "unhashable type")).
Proof.
  intros Hload Hty Hhash.
  assert (Hproc : process_ws (Py.VDict d) st
                  = (st, [], Raise (TypeError "unhashable type"))).
  { unfold process_ws. rewrite bind_get. simpl getitem. rewrite Hty, bind_lift_ok.
    unfold resolve, get_listeners. rewrite Hhash. reflexivity. }
  split; [exact Hproc|].
  simpl. rewrite Hload, bind_lift_ok.
  unfold is_event, Py.dict_mem. rewrite Hty.
  unfold bind at 1. now rewrite Hproc.
Qed.

(** X7.  Frames that are neither text nor the end of the stream (binary,
    ping, pong, close, error) are skipped with one warning each: the client
    is as it was, and the frames that follow are handled as if the skipped
    ones had not been received. *)
Theorem skipped_frames_change_nothing (frames more : list (option WSMessage))
    (st : client) :
  forallb skipped frames = true ->
  __run (frames ++ more) st
  = match __run more st with
    | (st', t, r) => (st', map unknown_type_warning frames ++ t, r)
    end.
Proof.
  induction frames as [|frame frames IH]; simpl; intros Hall.
  - now destruct (__run more st) as [[st' t] r].
  - apply andb_true_iff in Hall as [Hone Hall].
    destruct frame as [msg|]; [|discriminate]. simpl in Hone.
    destruct (type msg); try discriminate;
      rewrite bind_emit, (IH Hall);
      now destruct (__run more st) as [[st' t] r].
Qed.

(** X8.  The loop consumes its frames one after the other: when it is
    still receiving after a first batch, running it on the batch followed
    by more frames is running it on the rest from the state it reached;
    when it has left or raised, frames that follow are never read. *)
Theorem run_on_appended_frames (more : list (option WSMessage)) :
  forall frames st st1 t1 r,
    __run frames st = (st1, t1, r) ->
    __run (frames ++ more) st
    = match r with
      | Ok Receiving =>
          match __run more st1 with (st2, t2, r2) => (st2, t1 ++ t2, r2) end
      | _ => (st1, t1, r)
      end.
Proof.
  induction frames as [|frame frames IH]; intros st st1 t1 r; simpl.
  - intros [= <- <- <-]. now destruct (__run more st) as [[? ?] ?].
  - destruct frame as [msg|]; [|now intros [= <- <- <-]].
    assert (Hskip : forall ev,
               bind (emit ev) (fun _ => __run frames) st = (st1, t1, r) ->
               bind (emit ev) (fun _ => __run (frames ++ more)) st
               = match r with
                 | Ok Receiving =>
                     match __run more st1 with
                     | (st2, t2, r2) => (st2, t1 ++ t2, r2)
                     end
                 | _ => (st1, t1, r)
                 end).
    { intros ev. rewrite !bind_emit.
      destruct (__run frames st) as [[s' t'] r'] eqn:Hrest.
      intros [= <- <- <-]. rewrite (IH _ _ _ _ Hrest).
      destruct r' as [[|]|e]; try reflexivity.
      now destruct (__run more s') as [[? ?] ?]. }
    destruct (type msg); try (now intros [= <- <- <-]); try apply Hskip.
    destruct (json_loads (data msg)) as [v|e]; [|now intros [= <- <- <-]].
    rewrite !bind_lift_ok.
    destruct (is_event v); [|now intros [= <- <- <-]].
    unfold bind.
    destruct (process_ws v st) as [[s' t'] [[]|e]]; [|now intros [= <- <- <-]].
    destruct (__run frames s') as [[s'' t''] r''] eqn:Hrest.
    intros [= <- <- <-]. rewrite (IH _ _ _ _ Hrest).
    destruct r'' as [[|]|e]; try reflexivity.
    destruct (__run more s'') as [[? ?] ?]. now rewrite app_assoc.
Qed.
End FrameLoopProperties.

Lemma unhashable_type_ends_the_loop_witness :
  let st := set_event_listeners [("*", [Sample.plain 1])] Sample.fresh in
  __run (env := MoreSamples.environment)
    [Some {| type := TEXT; data := MoreSamples.list_typed_text;
             extra := None |}; None] st
  = (st, [], Raise (TypeError "unhashable type")).
Proof.
  intros st.
  apply (unhashable_type_ends_the_loop (env := MoreSamples.environment)
           MoreSamples.list_typed_text
           [("type", Py.VList [])] (Py.VList []) [None] st None);
    reflexivity.
Defined.

Lemma skipped_frames_change_nothing_witness :
  let frames := [Some {| type := BINARY; data := ""; extra := None |};
                 Some {| type := PONG; data := ""; extra := None |};
                 Some {| type := CLOSE; data := ""; extra := Some "bye" |}] in
  let warning := Logged "warning" "Unknown JSON message type" in
  __run (env := Sample.environment) (frames ++ [None]) Sample.fresh
  = (Sample.fresh, [warning; warning; warning], Ok Left).
Proof.
  intros frames warning.
  exact (skipped_frames_change_nothing (env := Sample.environment) frames
           [None] Sample.fresh Logic.eq_refl).
Defined.

Lemma run_on_appended_frames_witness :
  let msg := Py.VDict [("type", Py.VStr "StasisStart")] in
  let st := set_event_listeners [("StasisStart", [Sample.plain 1])]
              Sample.fresh in
  let first := [Some {| type := BINARY; data := ""; extra := None |};
                Some {| type := TEXT; data := MoreSamples.stasis_text;
                        extra := None |}] in
  let more := [Some {| type := TEXT; data := "not json"; extra := None |};
               None] in
  let seen := [Logged "warning" "Unknown JSON message type";
               Invoked (Sample.plain 1) msg;
               Called 1 [ArgValue msg] [] Returned] in
  __run (env := MoreSamples.exiting_environment) (first ++ more) st
  = (st, seen, Raise (JSONDecodeError "Expecting value")).
Proof.
  intros msg st first more seen.
  exact (run_on_appended_frames (env := MoreSamples.exiting_environment) more
           first st st seen (Ok Receiving) Logic.eq_refl).
Defined.

(** ** Shutdown *)

(** The loop of [close] over a first run of sockets that can be closed:
    they are closed in order and leave the tracked set, and the loop goes
    on with the sockets that follow. *)
Lemma close_each_prefix (tail : list websocket) :
  forall good st,
    websockets st = good ++ tail ->
    Forall closable good ->
    exists t,
      closed_sockets t = map ws_id good
      /\ ~ In SwaggerClosed t
      /\ close_each (good ++ tail) st
         = match close_each tail (set_websockets tail st) with
           | (st2, t2, r) => (st2, t ++ t2, r)
           end.
Proof.
  induction good as [|ws good IH]; intros st Hws Hall.
  - exists []. split; [reflexivity|]. split; [intros []|]. simpl in *.
    replace (set_websockets tail st) with st
      by (destruct st; simpl in *; now subst).
    now destruct (close_each tail st) as [[? ?] ?].
  - inversion Hall as [|? ? Hone Hrest]; subst.
    destruct (IH (set_websockets (good ++ tail) st) Logic.eq_refl Hrest)
      as [t [Hclosed [Hno Hrun]]].
    change (set_websockets tail (set_websockets (good ++ tail) st))
      with (set_websockets tail st) in Hrun.
    exists (match peername ws with
            | None => []
            | Some _ => [Logged "info" "Successfully disconnected"]
            end ++ WsClosed (ws_id ws) :: t).
    split; [|split].
    + rewrite closed_sockets_app. simpl. rewrite Hclosed.
      now destruct (peername ws).
    + intros Hin. apply in_app_or in Hin as [Hin | [Hin | Hin]].
      * destruct (peername ws); simpl in Hin; [|exact Hin].
        destruct Hin as [Hin | []]. discriminate.
      * discriminate.
      * exact (Hno Hin).
    + change ((ws :: good) ++ tail) with (ws :: good ++ tail).
      rewrite (close_each_step ws (good ++ tail) st Hws Hone), Hrun.
      destruct (close_each tail (set_websockets tail st)) as [[st2 t2] r].
      now rewrite <- app_assoc.
Qed.

(** After the unsubscribe request, whether it returned or raised an
    instance of [Exception], [close] runs the loop over the tracked sockets
    and closes the Swagger client only if the loop returned. *)
Lemma close_after_request (st : client) :
  (forall e, http_request st "delete" (full_url st) = Some e ->
             is_Exception e = true) ->
  close st
  = match close_each (websockets st) st with
    | (st1, t1, Ok _) =>
        match close_swagger st1 with
        | (st2, t2, r) =>
            (st2, Requested "delete" (full_url st) :: t1 ++ t2, r)
        end
    | (st1, t1, Raise e) =>
        (st1, Requested "delete" (full_url st) :: t1, Raise e)
    end.
Proof.
  intros Hreq. unfold close. rewrite bind_get.
  assert (Htry : try_except (request "delete" (full_url st)) is_Exception
                   (fun _ => ret tt) st
                 = (st, [Requested "delete" (full_url st)], Ok tt)).
  { unfold try_except, request. rewrite bind_get, bind_emit.
    destruct (http_request st "delete" (full_url st)) as [e|] eqn:He.
    - unfold raise. now rewrite (Hreq e Logic.eq_refl).
    - reflexivity. }
  unfold bind at 1. rewrite Htry, bind_get. unfold bind.
  destruct (close_each (websockets st) st) as [[st1 t1] [[]|e]]; [|reflexivity].
  now destruct (close_swagger st1) as [[st2 t2] r].
Qed.

(** X10.  [Client.close] stops at the first tracked socket whose [close()]
    raises: the sockets before it have been closed and removed, the failing
    socket has been removed from the tracked set before its [close()] was
    tried, the sockets after it stay tracked with [close()] never called on
    them, and the Swagger client is not closed. *)
Theorem close_stops_at_failing_close
    (good : list websocket) (bad : websocket) (rest : list websocket)
    (e : exn) (st : client) :
  (forall e', http_request st "delete" (full_url st) = Some e' ->
              is_Exception e' = true) ->
  websockets st = good ++ bad :: rest ->
  Forall closable good ->
  ws_close bad = Some e ->
  match peername bad with None => True | Some info => 2 <= List.length info end ->
  exists t,
    close st = (set_websockets rest st, t, Raise e)
    /\ closed_sockets t = map ws_id good ++ [ws_id bad]
    /\ ~ In SwaggerClosed t.
Proof.
  intros Hreq Hws Hgood Hbad Hpeer.
  destruct (close_each_prefix (bad :: rest) good st Hws Hgood)
    as [t [Hclosed [Hno Hrun]]].
  assert (Hstep : close_each (bad :: rest) (set_websockets (bad :: rest) st)
                  = (set_websockets rest st,
                     match peername bad with
                     | None => []
                     | Some _ => [Logged "info" "Successfully disconnected"]
                     end ++ [WsClosed (ws_id bad)],
                     Raise e)).
  { simpl close_each. unfold get_peer_info.
    destruct (peername bad) as [[|host [|port more]]|]; simpl in Hpeer; try lia;
      cbv [try_except bind lift rbind unpack_pair firstn websockets_remove
           close_websocket get put emit ret raise is_TypeError];
      cbn [websockets set_websockets set_remove]; rewrite Nat.eqb_refl, Hbad;
      cbv [try_except bind lift rbind ret raise];
      reflexivity. }
  rewrite (close_after_request st Hreq), Hws, Hrun, Hstep.
  eexists. split; [reflexivity|]. split.
  - simpl. rewrite !closed_sockets_app, Hclosed. simpl.
    now destruct (peername bad).
  - intros [Hin | Hin]; [discriminate|].
    apply in_app_or in Hin as [Hin | Hin]; [exact (Hno Hin)|].
    destruct (peername bad); simpl in Hin;
      intuition discriminate.
Qed.

(** X11.  A tracked socket whose peer name has fewer than two components
    makes [Client.close] raise [ValueError] at the unpacking of host and
    port, which [except TypeError] does not catch: that socket and the ones
    after it stay tracked and are not closed, and the Swagger client is not
    closed. *)
Theorem close_stops_at_short_peername
    (good : list websocket) (bad : websocket) (rest : list websocket)
    (info : list Py.value) (st : client) :
  (forall e', http_request st "delete" (full_url st) = Some e' ->
              is_Exception e' = true) ->
  websockets st = good ++ bad :: rest ->
  Forall closable good ->
  peername bad = Some info ->
  List.length info < 2 ->
  exists t,
    close st
    = (set_websockets (bad :: rest) st, t,
       Raise (ValueError "wrong number of values to unpack"))
    /\ closed_sockets t = map ws_id good
    /\ ~ In SwaggerClosed t.
Proof.
  intros Hreq Hws Hgood Hpeer Hlen.
  destruct (close_each_prefix (bad :: rest) good st Hws Hgood)
    as [t [Hclosed [Hno Hrun]]].
  assert (Hstep : close_each (bad :: rest) (set_websockets (bad :: rest) st)
                  = (set_websockets (bad :: rest) st, [],
                     Raise (ValueError "wrong number of values to unpack"))).
  { simpl close_each. unfold get_peer_info. rewrite Hpeer.
    destruct info as [|host [|port more]]; simpl in Hlen; try lia;
      cbv [try_except bind lift rbind unpack_pair firstn ret raise is_TypeError];
      reflexivity. }
  rewrite (close_after_request st Hreq), Hws, Hrun, Hstep.
  eexists. split; [reflexivity|]. split.
  - simpl. now rewrite app_nil_r.
  - rewrite app_nil_r. intros [Hin | Hin]; [discriminate | exact (Hno Hin)].
Qed.

(** X12.  An exception of the unsubscribe request that is not an instance
    of [Exception], such as a cancellation, is not swallowed: it leaves
    [Client.close] before any socket is closed or removed and before the
    Swagger client is closed. *)
Theorem close_aborted_by_base_exception (st : client) (e : exn) :
  http_request st "delete" (full_url st) = Some e ->
  is_Exception e = false ->
  close st = (st, [Requested "delete" (full_url st)], Raise e).
Proof.
  intros Hreq He. unfold close. rewrite bind_get.
  unfold bind at 1. unfold try_except, request.
  rewrite bind_get, bind_emit, Hreq. unfold raise. now rewrite He.
Qed.

Lemma close_completes_witness :
  let st := set_websockets
              [Sample.socket 1 None; MoreSamples.anonymous_socket 2]
              Sample.fresh in
  exists t,
    close st = (set_websockets [] st, t, Ok tt)
    /\ closed_sockets t = [1; 2]
    /\ In SwaggerClosed t.
Proof.
  intros st. apply (close_completes st).
  - repeat constructor; simpl; lia.
  - reflexivity.
  - discriminate.
Defined.

Lemma close_stops_at_failing_close_witness :
  let boom := OtherException "boom" in
  let sockets := [Sample.socket 1 None; Sample.socket 2 (Some boom);
                  Sample.socket 3 None] in
  let st := set_websockets sockets Sample.fresh in
  exists t,
    close st = (set_websockets [Sample.socket 3 None] st, t, Raise boom)
    /\ closed_sockets t = [1; 2]
    /\ ~ In SwaggerClosed t.
Proof.
  intros boom sockets st.
  apply (close_stops_at_failing_close [Sample.socket 1 None]
           (Sample.socket 2 (Some boom)) [Sample.socket 3 None] boom st).
  - discriminate.
  - reflexivity.
  - repeat constructor; simpl; lia.
  - reflexivity.
  - simpl. lia.
Defined.

Lemma close_stops_at_short_peername_witness :
  let sockets := [Sample.socket 1 None; MoreSamples.unnamed_socket 2;
                  Sample.socket 3 None] in
  let st := set_websockets sockets Sample.fresh in
  exists t,
    close st
    = (set_websockets [MoreSamples.unnamed_socket 2; Sample.socket 3 None] st, t,
       Raise (ValueError "wrong number of values to unpack"))
    /\ closed_sockets t = [1]
    /\ ~ In SwaggerClosed t.
Proof.
  intros sockets st.
  apply (close_stops_at_short_peername [Sample.socket 1 None]
           (MoreSamples.unnamed_socket 2) [Sample.socket 3 None] [] st).
  - discriminate.
  - reflexivity.
  - repeat constructor; simpl; lia.
  - reflexivity.
  - simpl. lia.
Defined.

Lemma close_aborted_by_base_exception_witness :
  let cancelled := BaseOnly "CancelledError" in
  let st := {| base_url := "http://localhost:8088/"; app := Some "hello";
               event_models := []; event_listeners := [];
               websockets := [Sample.socket 1 None];
               exception_handler := Sample.log_exception; closures := 0;
               http_request := fun _ _ => Some cancelled;
               swagger_close := None |} in
  close st = (st, [Requested "delete" (full_url st)], Raise cancelled).
Proof.
  intros cancelled st.
  apply (close_aborted_by_base_exception st cancelled); reflexivity.
Defined.

(** ** Registration *)

(** What [on_event] gives on any registry. *)
Lemma on_event_outcome (event_type : string) (fn : callback)
    (eo at_ : Py.value) (a : list Py.value) (kw : list (string * Py.value))
    (st : client) :
  let obj := {| event_cb := fn; event_obj := eo; args := a; kwargs := kw;
                as_task := at_ |} in
  exists st',
    on_event event_type fn eo at_ a kw st
    = (st', [Logged "debug" "event_cb"],
       Ok {| unsub_event_type := event_type; callback_obj := obj |})
    /\ (exists before,
          Py.dict_get event_type (event_listeners st') = Some (before ++ [obj]))
    /\ (forall T, String.eqb T event_type = false ->
                  Py.dict_get T (event_listeners st')
                  = Py.dict_get T (event_listeners st))
    /\ closures st' = closures st.
Proof.
  intros obj. unfold on_event. rewrite bind_get.
  destruct (on_event_scan_returns fn
              (List.length (setdefault_listeners event_type (event_listeners st)))
              0 (setdefault_listeners event_type (event_listeners st)))
    as [l' Hl'].
  rewrite Hl', bind_lift_ok. eexists. split; [reflexivity|]. simpl. split.
  - exists l'. apply dict_get_set_same.
  - split; [|reflexivity]. intros T HT. now apply dict_get_set_other.
Qed.

(** X1.  [on_event] never raises, whatever the registry holds: it returns
    a handle for the new tuple, which is then the last one of the list of
    its event type, and it leaves the lists of the other event types as
    they were. *)
Theorem on_event_always_registers (event_type : string) (fn : callback)
    (eo at_ : Py.value) (a : list Py.value) (kw : list (string * Py.value))
    (st : client) :
  let obj := {| event_cb := fn; event_obj := eo; args := a; kwargs := kw;
                as_task := at_ |} in
  exists st',
    on_event event_type fn eo at_ a kw st
    = (st', [Logged "debug" "event_cb"],
       Ok {| unsub_event_type := event_type; callback_obj := obj |})
    /\ (exists before,
          Py.dict_get event_type (event_listeners st') = Some (before ++ [obj]))
    /\ (forall T, String.eqb T event_type = false ->
                  Py.dict_get T (event_listeners st')
                  = Py.dict_get T (event_listeners st)).
Proof.
  intros obj.
  destruct (on_event_outcome event_type fn eo at_ a kw st)
    as [st' [Hrun [Hlast [Hother _]]]].
  exists st'. auto.
Qed.

Lemma on_object_event_configuration_error_witness :
  exists text,
    on_object_event "ChannelTalkingStarted" 1 "Bridge" "Bridge" (Py.VBool false)
      [Py.VStr "a"] [("key", Py.VInt 1)] Sample.fresh
    = (Sample.fresh, [Logged "debug" "On object event"], Raise (ValueError text)).
Proof.
  apply (on_object_event_configuration_error "ChannelTalkingStarted" 1
           "Bridge" "Bridge" (Py.VBool false) [Py.VStr "a"]
           [("key", Py.VInt 1)] Sample.fresh).
  reflexivity.
Defined.

Lemma bind_on_event_plain (extra : list Py.value) (at_ : Py.value)
    (kw : list (string * Py.value)) :
  reserved kw = false ->
  bind_on_event extra at_ kw
  = match extra with
    | [] => Ok (Py.VNone, at_, [], kw)
    | [x] => Ok (x, at_, [], kw)
    | _ => Raise (TypeError
                    "on_event() got multiple values for argument 'as_task'")
    end.
Proof.
  unfold reserved, bind_on_event. intros Hres.
  destruct (Py.dict_mem "self" kw) eqn:Hself; [discriminate|].
  destruct (Py.dict_mem "event_type" kw) eqn:Hty; [discriminate|].
  destruct (Py.dict_mem "event_cb" kw) eqn:Hcb; [discriminate|].
  destruct (Py.dict_mem "event_obj" kw) eqn:Hobj; [discriminate|].
  destruct (Py.dict_mem "as_task" kw) eqn:Htask; [discriminate|].
  simpl. destruct extra as [|x [|y more]]; try reflexivity.
  unfold Py.dict_mem in Hobj. now destruct (Py.dict_get "event_obj" kw).
Qed.

(** [on_object_event] on a known event type with a field of the wanted
    type, once the extra arguments are bound. *)
Lemma on_object_event_registers (event_type : string) (fn : nat)
    (factory_fn model_id : string) (at_ : Py.value) (a : list Py.value)
    (kw : list (string * Py.value)) (st : client)
    (event_model : swagger_model) (f : string) (fs : list string)
    (eo at' : Py.value) (a' : list Py.value) (kw' : list (string * Py.value)) :
  Py.dict_get event_type (event_models st) = Some event_model ->
  fields_of_type model_id event_model = f :: fs ->
  bind_on_event a at_ kw = Ok (eo, at', a', kw') ->
  let obj := {| event_cb := ExtractObjects (closures st) fn factory_fn (f :: fs);
                event_obj := eo; args := a'; kwargs := kw'; as_task := at' |} in
  exists st',
    on_object_event event_type fn factory_fn model_id at_ a kw st
    = (st', [Logged "debug" "On object event"; Logged "debug" "event_cb"],
       Ok {| unsub_event_type := event_type; callback_obj := obj |})
    /\ (exists before,
          Py.dict_get event_type (event_listeners st') = Some (before ++ [obj]))
    /\ closures st' = S (closures st).
Proof.
  intros Hm Hf Hbind obj. unfold on_object_event.
  rewrite bind_emit, bind_get, Hm, Hf, bind_put, Hbind, bind_lift_ok.
  destruct (on_event_outcome event_type
              (ExtractObjects (closures st) fn factory_fn (f :: fs))
              eo at' a' kw' (set_closures (S (closures st)) st))
    as [st' [Hrun [Hlast [_ Hcl]]]].
  rewrite Hrun. exists st'. split; [reflexivity|]. split; [exact Hlast|].
  exact Hcl.
Qed.

Section CallProperties.
Context {env : Environment}.

(** The trace of one turn of the loop starts with the invocation and the
    call of the user's function. *)
Lemma run_listener_head (listener : registration)
    (d : list (string * Py.value)) (st : client) :
  let msg := Py.VDict d in
  let id := callee_of (event_cb listener) in
  let pos := positional_of (event_cb listener) msg (args listener) in
  exists st' tl r,
    run_listener listener msg st
    = (st',
       Invoked listener msg
       :: Called id pos (kwargs listener)
                 (snd (user_call id pos (kwargs listener) st))
       :: tl,
       r).
Proof.
  intros msg id pos. subst msg id pos. rewrite run_listener_dict. cbv zeta.
  destruct (user_call _ _ (kwargs listener) st) as [st1 res].
  simpl fst. simpl snd. unfold caught.
  destruct res as [|e|coro]; simpl.
  - eauto.
  - destruct (is_Exception e); simpl; eauto.
  - destruct (Py.truthy (as_task listener)).
    + destruct (iscoroutine coro); simpl; eauto.
    + destruct (await_coro coro st1) as [st2 [e|]]; simpl; [|eauto].
      destruct (is_Exception e); simpl; eauto.
Qed.

End CallProperties.


Lemma bind_on_object_event_plain (extra : list Py.value)
    (kw : list (string * Py.value)) :
  reserved kw = false ->
  bind_on_object_event extra kw
  = match extra with
    | [] => Ok (Py.VBool false, [], kw)
    | x :: rest => Ok (x, rest, kw)
    end.
Proof.
  unfold reserved, bind_on_object_event. intros Hres.
  destruct (Py.dict_mem "self" kw) eqn:Hself; [discriminate|].
  destruct (Py.dict_mem "event_type" kw) eqn:Hty; [discriminate|].
  destruct (Py.dict_mem "event_cb" kw) eqn:Hcb; [discriminate|].
  destruct (Py.dict_mem "event_obj" kw) eqn:Hobj; [discriminate|].
  destruct (Py.dict_mem "as_task" kw) eqn:Htask; [discriminate|].
  destruct (Py.dict_mem "factory_fn" kw) eqn:Hfac; [discriminate|].
  destruct (Py.dict_mem "model_id" kw) eqn:Hmod; [discriminate|].
  simpl. destruct extra as [|x rest]; [|reflexivity].
  unfold Py.dict_mem in Htask. now destruct (Py.dict_get "as_task" kw).
Qed.

(** X15.  The wrappers without an [as_task] parameter ([on_bridge_event],
    [on_playback_event], [on_live_recording_event],
    [on_stored_recording_event], [on_endpoint_event],
    [on_device_state_event], [on_sound_event]) pass their extra positional
    arguments on positionally: on a known event type, the first one is
    stored as [as_task] and the second as [event_obj], none reaches [args],
    and a third makes the registration raise [TypeError] with nothing
    registered. *)
Theorem kind_wrappers_shift_extra_arguments
    (kind event_type : string) (fn : nat) (kw : list (string * Py.value))
    (st : client) (event_model : swagger_model) (f : string) (fs : list string) :
  Py.dict_get event_type (event_models st) = Some event_model ->
  fields_of_type kind event_model = f :: fs ->
  reserved kw = false ->
  let stored eo at_ :=
    {| event_cb := ExtractObjects (closures st) fn kind (f :: fs);
       event_obj := eo; args := []; kwargs := kw; as_task := at_ |} in
  let registers extra obj :=
    exists st' before,
      on_kind_event kind event_type fn extra kw st
      = (st', [Logged "debug" "On object event"; Logged "debug" "event_cb"],
         Ok {| unsub_event_type := event_type; callback_obj := obj |})
      /\ Py.dict_get event_type (event_listeners st') = Some (before ++ [obj]) in
  registers [] (stored Py.VNone (Py.VBool false))
  /\ (forall a1, registers [a1] (stored Py.VNone a1))
  /\ (forall a1 a2, registers [a1; a2] (stored a2 a1))
  /\ (forall a1 a2 a3 more,
        exists st' text,
          on_kind_event kind event_type fn (a1 :: a2 :: a3 :: more) kw st
          = (st', [Logged "debug" "On object event"], Raise (TypeError text))
          /\ event_listeners st' = event_listeners st).
Proof.
  intros Hm Hf Hres stored registers.
  assert (Hreg : forall extra at_ rest eo,
             bind_on_object_event extra kw = Ok (at_, rest, kw) ->
             bind_on_event rest at_ kw = Ok (eo, at_, [], kw) ->
             registers extra (stored eo at_)).
  { intros extra at_ rest eo Hb1 Hb2. unfold registers, on_kind_event.
    rewrite Hb1, bind_lift_ok.
    destruct (on_object_event_registers event_type fn kind kind at_ rest kw st
                event_model f fs eo at_ [] kw Hm Hf Hb2)
      as [st' [Hrun [[before Hlast] _]]].
    exists st', before. split; [exact Hrun | exact Hlast]. }
  split; [|split; [|split]].
  - apply (Hreg [] (Py.VBool false) [] Py.VNone).
    + now rewrite bind_on_object_event_plain.
    + now rewrite bind_on_event_plain.
  - intros a1. apply (Hreg [a1] a1 [] Py.VNone).
    + now rewrite bind_on_object_event_plain.
    + now rewrite bind_on_event_plain.
  - intros a1 a2. apply (Hreg [a1; a2] a1 [a2] a2).
    + now rewrite bind_on_object_event_plain.
    + now rewrite bind_on_event_plain.
  - intros a1 a2 a3 more. unfold on_kind_event.
    rewrite (bind_on_object_event_plain _ kw Hres), bind_lift_ok.
    unfold on_object_event.
    rewrite bind_emit, bind_get, Hm, Hf, bind_put,
            (bind_on_event_plain _ a1 kw Hres).
    eexists _, _. split; reflexivity.
Qed.

Lemma kind_wrappers_shift_extra_arguments_witness :
  exists st' before,
    on_bridge_event "BridgeBlindTransfer" 1 [Py.VStr "x"; Py.VStr "y"] []
      Sample.fresh
    = (st', [Logged "debug" "On object event"; Logged "debug" "event_cb"],
       Ok {| unsub_event_type := "BridgeBlindTransfer";
             callback_obj :=
               {| event_cb := ExtractObjects 0 1 "Bridge" ["bridge"];
                  event_obj := Py.VStr "y"; args := []; kwargs := [];
                  as_task := Py.VStr "x" |} |})
    /\ Py.dict_get "BridgeBlindTransfer" (event_listeners st')
       = Some (before
               ++ [{| event_cb := ExtractObjects 0 1 "Bridge" ["bridge"];
                      event_obj := Py.VStr "y"; args := []; kwargs := [];
                      as_task := Py.VStr "x" |}]).
Proof.
  destruct (kind_wrappers_shift_extra_arguments "Bridge" "BridgeBlindTransfer"
              1 [] Sample.fresh
              {| properties := [("channel", {| prop_type := "Channel" |});
                                ("replace_channel", {| prop_type := "Channel" |});
                                ("bridge", {| prop_type := "Bridge" |})] |}
              "bridge" [] Logic.eq_refl Logic.eq_refl Logic.eq_refl)
    as [_ [_ [Htwo _]]].
  exact (Htwo (Py.VStr "x") (Py.VStr "y")).
Defined.

Section EndToEnd.
Context {env : Environment}.

(** X16.  From registration to delivery: after [on_object_event] on a
    known event type that had no listener, a message of that type makes
    [process_ws] invoke the new listener first, and the user's callback is
    called with the object extracted from the message for the fields of
    the wanted type, followed by the message itself. *)
Theorem object_listener_receives_the_extracted_object
    (event_type : string) (fn : nat) (factory_fn model_id : string)
    (st : client) (event_model : swagger_model) (f : string) (fs : list string)
    (d : list (string * Py.value)) :
  Py.dict_get event_type (event_models st) = Some event_model ->
  fields_of_type model_id event_model = f :: fs ->
  setdefault_listeners event_type (event_listeners st) = [] ->
  Py.dict_get "type" d = Some (Py.VStr event_type) ->
  exists st1 u x st2 tl r,
    on_object_event event_type fn factory_fn model_id (Py.VBool false) [] [] st
    = (st1, [Logged "debug" "On object event"; Logged "debug" "event_cb"], Ok u)
    /\ extract_objects factory_fn (f :: fs) (Py.VDict d) = Ok x
    /\ process_ws (Py.VDict d) st1
       = (st2,
          Invoked (callback_obj u) (Py.VDict d)
          :: Called fn [ArgExtracted x; ArgValue (Py.VDict d)] []
                    (snd (user_call fn [ArgExtracted x; ArgValue (Py.VDict d)]
                            [] st1))
          :: tl,
          r).
Proof.
  intros Hm Hf Hempty Hty.
  set (closure := ExtractObjects (closures st) fn factory_fn (f :: fs)).
  set (obj := {| event_cb := closure; event_obj := Py.VNone; args := [];
                 kwargs := []; as_task := Py.VBool false |}).
  set (st0 := set_closures (S (closures st)) st).
  set (st1 := set_event_listeners
                (Py.dict_set event_type [obj] (event_listeners st)) st0).
  assert (Hreg : on_object_event event_type fn factory_fn model_id
                   (Py.VBool false) [] [] st
                 = (st1, [Logged "debug" "On object event";
                          Logged "debug" "event_cb"],
                    Ok {| unsub_event_type := event_type; callback_obj := obj |})).
  { unfold on_object_event.
    rewrite bind_emit, bind_get, Hm, Hf, bind_put.
    rewrite (bind_on_event_plain [] (Py.VBool false) [] Logic.eq_refl).
    rewrite bind_lift_ok. fold closure. fold st0.
    rewrite (on_event_result event_type closure Py.VNone (Py.VBool false) [] [] st0).
    - simpl event_listeners. rewrite Hempty. reflexivity.
    - simpl event_listeners. rewrite Hempty. exact one_per_callback_nil. }
  destruct (extract_objects_dict factory_fn (f :: fs) d) as [x Hx].
  destruct (run_listener_head obj d st1) as [s' [tl [r Hhead]]].
  simpl callee_of in Hhead. simpl kwargs in Hhead.
  assert (Hpos : positional_of (event_cb obj) (Py.VDict d) (args obj)
                 = [ArgExtracted x; ArgValue (Py.VDict d)]).
  { simpl. now rewrite Hx. }
  rewrite Hpos in Hhead.
  assert (Hsnap : exists wild,
             setdefault_listeners event_type (event_listeners st1)
             ++ setdefault_listeners "*" (event_listeners st1) = obj :: wild).
  { unfold setdefault_listeners at 1. simpl event_listeners.
    rewrite dict_get_set_same. eexists. reflexivity. }
  destruct Hsnap as [wild Hsnap].
  assert (Hfinal : exists st2 tl' r',
             process_ws (Py.VDict d) st1
             = (st2,
                Invoked obj (Py.VDict d)
                :: Called fn [ArgExtracted x; ArgValue (Py.VDict d)] []
                          (snd (user_call fn
                                  [ArgExtracted x; ArgValue (Py.VDict d)] [] st1))
                :: tl',
                r')).
  { unfold process_ws.
    rewrite bind_get. simpl getitem.
    rewrite Hty, bind_lift_ok, resolve_str, bind_lift_ok, Hsnap.
    simpl dispatch. unfold bind. rewrite Hhead.
    destruct r as [[]|e]; [|eexists _, _, _; reflexivity].
    destruct (dispatch wild (Py.VDict d) s') as [[s2 t2] [[]|e2]];
      [|eexists _, _, _; reflexivity].
    simpl.
    destruct (String.eqb event_type "ChannelDestroyed");
      [|eexists _, _, _; reflexivity].
    destruct (collect _ _ s2) as [[s3 t3] r3]. eexists _, _, _. reflexivity. }
  destruct Hfinal as [st2 [tl' [r' Hfinal]]].
  exists st1, {| unsub_event_type := event_type; callback_obj := obj |}, x,
         st2, tl', r'.
  split; [exact Hreg|]. split; [exact Hx | exact Hfinal].
Qed.
End EndToEnd.

Lemma object_listener_receives_the_extracted_object_witness :
  let d := [("type", Py.VStr "ChannelTalkingStarted");
            ("channel", Py.VDict [("id", Py.VStr "42")])] in
  let channel := {| built_by := "Channel";
                    raw := Py.VDict [("id", Py.VStr "42")] |} in
  exists st1 u st2 tl r,
    on_object_event "ChannelTalkingStarted" 1 "Channel" "Channel"
      (Py.VBool false) [] [] Sample.fresh
    = (st1, [Logged "debug" "On object event"; Logged "debug" "event_cb"], Ok u)
    /\ process_ws (env := Sample.environment) (Py.VDict d) st1
       = (st2,
          Invoked (callback_obj u) (Py.VDict d)
          :: Called 1 [ArgExtracted (ExObject channel); ArgValue (Py.VDict d)] []
                    Returned
          :: tl,
          r).
Proof.
  intros d channel.
  destruct (object_listener_receives_the_extracted_object
              (env := Sample.environment)
              "ChannelTalkingStarted" 1 "Channel" "Channel" Sample.fresh
              {| properties := [("channel", {| prop_type := "Channel" |})] |}
              "channel" [] d Logic.eq_refl Logic.eq_refl Logic.eq_refl
              Logic.eq_refl)
    as [st1 [u [x [st2 [tl [r [Hreg [Hx Hproc]]]]]]]].
  assert (Hch : x = ExObject channel)
    by (vm_compute in Hx; now injection Hx as <-).
  subst x. exists st1, u, st2, tl, r. split; [exact Hreg | exact Hproc].
Defined.

(** ** What dispatching leaves alone *)

Section FrameCondition.
Context {env : Environment} {A : Type} (proj : client -> A).

Hypothesis proj_listeners :
  forall l st, proj (set_event_listeners l st) = proj st.
Hypothesis calls_keep :
  forall id pos kw s, proj (fst (user_call id pos kw s)) = proj s.
Hypothesis awaits_keep :
  forall coro s, proj (fst (await_coro coro s)) = proj s.

Lemma call_callback_keeps (cb : callback) (msg : Py.value) (a : list Py.value)
    (kw : list (string * Py.value)) (st st' : client) t r :
  call_callback cb msg a kw st = (st', t, r) -> proj st' = proj st.
Proof.
  destruct cb as [id | c fn factory_fn fields]; simpl.
  - unfold call_user. pose proof (calls_keep id (ArgValue msg :: map ArgValue a) kw st) as H.
    destruct (user_call id _ kw st) as [s1 res]. now intros [= <- _ _].
  - destruct (extract_objects factory_fn fields msg) as [x|e].
    + rewrite bind_lift_ok. unfold call_user.
      pose proof (calls_keep fn (ArgExtracted x :: ArgValue msg :: map ArgValue a)
                    kw st) as H.
      destruct (user_call fn _ kw st) as [s1 res]. now intros [= <- _ _].
    + rewrite bind_lift_raise. now intros [= <- _ _].
Qed.

Lemma handle_keeps (e : exn) (st st' : client) t r :
  handle e st = (st', t, r) -> proj st' = proj st.
Proof.
  unfold handle. rewrite bind_get, bind_emit.
  destruct (exception_handler st e); now intros [= <- _ _].
Qed.

Lemma run_listener_keeps (listener : registration) (msg : Py.value)
    (st st' : client) t r :
  run_listener listener msg st = (st', t, r) -> proj st' = proj st.
Proof.
  unfold run_listener, try_except. rewrite bind_emit. unfold bind at 1.
  destruct (call_callback (event_cb listener) msg (args listener)
              (kwargs listener) st) as [[s1 t1] [res|e]] eqn:Hc;
    apply call_callback_keeps in Hc.
  - destruct res as [|e|coro].
    + now intros [= <- _ _].
    + unfold raise. destruct (is_Exception e); [|now intros [= <- _ _]].
      destruct (handle e s1) as [[s2 t2] r2] eqn:Hh.
      apply handle_keeps in Hh. intros [= <- _ _]. congruence.
    + destruct (Py.truthy (as_task listener)).
      { unfold create_task. destruct (iscoroutine coro); [now intros [= <- _ _]|].
        simpl.
        destruct (handle (TypeError "a coroutine was expected") s1)
          as [[s2 t2] r2] eqn:Hh.
        apply handle_keeps in Hh. intros [= <- _ _]. congruence. }
      unfold await. pose proof (awaits_keep coro s1) as Ha.
      destruct (await_coro coro s1) as [s2 [e|]]; simpl in Ha.
      * destruct (is_Exception e); [|intros [= <- _ _]; congruence].
        destruct (handle e s2) as [[s3 t3] r3] eqn:Hh.
        apply handle_keeps in Hh. intros [= <- _ _]. congruence.
      * intros [= <- _ _]. congruence.
  - destruct (is_Exception e); [|now intros [= <- _ _]].
    destruct (handle e s1) as [[s2 t2] r2] eqn:Hh.
    apply handle_keeps in Hh. intros [= <- _ _]. congruence.
Qed.

Lemma dispatch_keeps (msg : Py.value) :
  forall listeners st st' t r,
    dispatch listeners msg st = (st', t, r) -> proj st' = proj st.
Proof.
  induction listeners as [|l ls IH]; intros st st' t r; simpl.
  - now intros [= <- _ _].
  - intros Hrun. apply bind_inv in Hrun
      as [[s1 [t1 [[] [t2 [H1 [H2 _]]]]]] | [e [H1 _]]].
    + apply run_listener_keeps in H1. apply IH in H2. congruence.
    + now apply run_listener_keeps in H1.
Qed.

Lemma collect_keeps (msg : Py.value) :
  forall keys st st' t r,
    collect msg keys st = (st', t, r) -> proj st' = proj st.
Proof.
  induction keys as [|i keys IH]; intros st st' t r; simpl.
  - now intros [= <- _ _].
  - rewrite bind_get.
    destruct (Py.dict_get i (event_listeners st)) as [items|];
      [|now intros [= <- _ _]].
    destruct (matching_items msg items) as [found|e];
      [rewrite bind_lift_ok | now intros [= <- _ _]].
    destruct (remove_each found items) as [items'|e];
      [rewrite bind_lift_ok | now intros [= <- _ _]].
    rewrite bind_put. intros Hrest. apply IH in Hrest.
    now rewrite Hrest, proj_listeners.
Qed.

Lemma process_ws_keeps (msg : Py.value) (st st' : client) t r :
  process_ws msg st = (st', t, r) -> proj st' = proj st.
Proof.
  unfold process_ws. rewrite bind_get.
  destruct (getitem msg "type") as [ty|e];
    [rewrite bind_lift_ok | now intros [= <- _ _]].
  destruct (resolve ty (event_listeners st)) as [listeners|e];
    [rewrite bind_lift_ok | now intros [= <- _ _]].
  intros Hrun. apply bind_inv in Hrun
    as [[s1 [t1 [[] [t2 [H1 [H2 _]]]]]] | [e [H1 _]]].
  - apply dispatch_keeps in H1. rewrite bind_lift_ok in H2.
    destruct (Py.eq ty (Py.VStr "ChannelDestroyed")).
    + rewrite bind_get in H2. apply collect_keeps in H2. congruence.
    + injection H2 as <- _ _. exact H1.
  - now apply dispatch_keeps in H1.
Qed.

Lemma run_frames_keep :
  forall frames st st' t r,
    __run frames st = (st', t, r) -> proj st' = proj st.
Proof.
  induction frames as [|frame frames IH]; intros st st' t r; simpl.
  - now intros [= <- _ _].
  - destruct frame as [msg|]; [|now intros [= <- _ _]].
    assert (Hskip : forall ev,
               bind (emit ev) (fun _ => __run frames) st = (st', t, r) ->
               proj st' = proj st).
    { intros ev. rewrite bind_emit.
      destruct (__run frames st) as [[s1 t1] r1] eqn:Hrest.
      intros [= <- _ _]. exact (IH _ _ _ _ Hrest). }
    destruct (type msg); try (now intros [= <- _ _]); try apply Hskip.
    destruct (json_loads (data msg)) as [v|e];
      [rewrite bind_lift_ok | now intros [= <- _ _]].
    destruct (is_event v); [|now intros [= <- _ _]].
    intros Hrun. apply bind_inv in Hrun
      as [[s1 [t1 [[] [t2 [H1 [H2 _]]]]]] | [e [H1 _]]].
    + apply process_ws_keeps in H1. apply IH in H2. congruence.
    + now apply process_ws_keeps in H1.
Qed.

(** X17.  Reading and dispatching frames changes nothing of the client but
    the listener registry, unless the caller's own functions do: any part
    of the client that the user's callbacks and coroutines leave alone and
    that does not depend on the registry (the tracked sockets, the
    application name, the event models) is the same after [__run] as
    before, however the loop ends. *)
Theorem run_loop_changes_only_the_registry :
  forall frames st st' t r,
    __run frames st = (st', t, r) -> proj st' = proj st.
Proof. exact run_frames_keep. Qed.
End FrameCondition.

Lemma run_loop_changes_only_the_registry_witness :
  let st := set_websockets [Sample.socket 1 None]
              (set_event_listeners
                 [("*", [Sample.plain 5; Sample.by_event_obj 2])] Sample.fresh) in
  let frames := [Some {| type := TEXT; data := Sample.destroyed_text;
                         extra := None |}] in
  websockets (fst (fst (__run (env := Sample.environment) frames st)))
  = websockets st.
Proof.
  intros st frames.
  destruct (__run (env := Sample.environment) frames st) as [[st' t] r] eqn:Hrun.
  apply (run_loop_changes_only_the_registry (env := Sample.environment)
           websockets) with (frames := frames) (t := t) (r := r);
    [reflexivity | | | exact Hrun].
  - intros id pos kw s. simpl. unfold Sample.calls.
    destruct id as [|[|[|[|[|[|id]]]]]]; reflexivity.
  - intros coro s. simpl. unfold Sample.awaits.
    do 8 (destruct coro as [|coro]; [reflexivity|]). reflexivity.
Defined.

(** ** The reconnect loop *)

Section RunProperties.
Context {env : Environment}.

(** X18.  [run] answers every transport failure of the call that opens
    the stream in the same way, any number of times in a row: it logs the
    error, sleeps one second and tries again, and the client is as it was
    when the next attempt is made. *)
Theorem transport_failures_are_retried (s : string) (subscribe_all : bool)
    (errors : list exn) (rest : list attempt) (st : client) :
  run (Py.VStr s) subscribe_all
      (map (fun e => Fails e true) errors ++ rest) st
  = match run (Py.VStr s) subscribe_all rest st with
    | (st', t, r) =>
        (st',
         flat_map (fun e => [Opening s subscribe_all;
                             Did (Logged "error" (exn_text e));
                             Slept 1]) errors ++ t,
         r)
    end.
Proof.
  unfold run. generalize (set_app (Some (first_component s)) st). intros st0.
  induction errors as [|e errors IH]; simpl.
  - now destruct (reconnect s subscribe_all rest st0) as [[? ?] ?].
  - rewrite IH.
    now destruct (reconnect s subscribe_all rest st0) as [[? ?] ?].
Qed.

Hypothesis calls_keep_sockets :
  forall id pos kw c, websockets (fst (user_call id pos kw c)) = websockets c.
Hypothesis awaits_keep_sockets :
  forall coro c, websockets (fst (await_coro coro c)) = websockets c.

Lemma set_add_incl (ws : websocket) (l : list websocket) :
  incl l (set_add ws l)
  /\ exists w, In w (set_add ws l) /\ ws_id w = ws_id ws.
Proof.
  unfold set_add.
  destruct (existsb (fun w => Nat.eqb (ws_id w) (ws_id ws)) l) eqn:E.
  - split; [apply incl_refl|].
    apply existsb_exists in E as [w [Hw Hid]].
    apply Nat.eqb_eq in Hid. eauto.
  - split; [apply incl_appl, incl_refl|].
    exists ws. split; [|reflexivity]. apply in_or_app. right. now left.
Qed.

Lemma reconnect_keeps_tracked (s : string) (subscribe_all : bool) :
  forall attempts st st' t r,
    reconnect s subscribe_all attempts st = (st', t, r) ->
    incl (websockets st) (websockets st').
Proof.
  induction attempts as [|[e transport | ws frames] rest IH];
    intros st st' t r; simpl.
  - intros [= <- _ _]. apply incl_refl.
  - destruct transport; [|intros [= <- _ _]; apply incl_refl].
    destruct (reconnect s subscribe_all rest st) as [[s1 t1] r1] eqn:Hrest.
    intros [= <- _ _]. exact (IH _ _ _ _ Hrest).
  - destruct (rbind (get_peer_info ws) unpack_pair) as [p|e];
      [|intros [= <- _ _]; apply incl_refl].
    destruct (__run frames _) as [[s1 t1] r1] eqn:Hrun.
    pose proof (run_frames_keep websockets (fun _ _ => Logic.eq_refl)
                  calls_keep_sockets awaits_keep_sockets _ _ _ _ _ Hrun) as Hkeep.
    simpl in Hkeep.
    assert (Hincl : incl (websockets st) (websockets s1)).
    { rewrite Hkeep. apply set_add_incl. }
    destruct r1 as [[|]|e].
    + destruct (reconnect s subscribe_all rest s1) as [[s2 t2] r2] eqn:Hrest.
      intros [= <- _ _].
      exact (incl_tran Hincl (IH _ _ _ _ Hrest)).
    + now intros [= <- _ _].
    + now intros [= <- _ _].
Qed.

(** X19.  [run] only ever adds to the set of tracked sockets: when the
    caller's functions leave the set alone, a socket that [run] has
    connected stays tracked through everything that follows, the end of
    its own connection and the later reconnections included, and so do the
    sockets that were tracked before. *)
Theorem connected_sockets_stay_tracked (s : string) (subscribe_all : bool)
    (ws : websocket) (frames : list (option WSMessage)) (rest : list attempt)
    (st st' : client) (t : list run_event) (r : result waiting)
    (peer : Py.value * Py.value) :
  rbind (get_peer_info ws) unpack_pair = Ok peer ->
  run (Py.VStr s) subscribe_all (Opens ws frames :: rest) st = (st', t, r) ->
  incl (websockets st) (websockets st')
  /\ exists w, In w (websockets st') /\ ws_id w = ws_id ws.
Proof.
  unfold run. intros Hpeer.
  change (websockets st)
    with (websockets (set_app (Some (first_component s)) st)).
  generalize (set_app (Some (first_component s)) st). intros st0.
  simpl. rewrite Hpeer.
  destruct (__run frames _) as [[s1 t1] r1] eqn:Hrun.
  pose proof (run_frames_keep websockets (fun _ _ => Logic.eq_refl)
                calls_keep_sockets awaits_keep_sockets _ _ _ _ _ Hrun) as Hkeep.
  simpl in Hkeep.
  destruct (set_add_incl ws (websockets st0)) as [Hincl [w [Hw Hid]]].
  rewrite <- Hkeep in Hincl, Hw.
  assert (Hend : forall s2, incl (websockets s1) (websockets s2) ->
                 incl (websockets st0) (websockets s2)
                 /\ exists w, In w (websockets s2) /\ ws_id w = ws_id ws).
  { intros s2 H12. split; [exact (incl_tran Hincl H12)|].
    exists w. split; [exact (H12 w Hw) | exact Hid]. }
  destruct r1 as [[|]|e].
  - destruct (reconnect s subscribe_all rest s1) as [[s2 t2] r2] eqn:Hrest.
    intros [= <- _ _]. apply Hend.
    exact (reconnect_keeps_tracked _ _ _ _ _ _ _ Hrest).
  - intros [= <- _ _]. apply Hend, incl_refl.
  - intros [= <- _ _]. apply Hend, incl_refl.
Qed.
End RunProperties.

Lemma connected_sockets_stay_tracked_witness :
  let closing := Some {| type := CLOSED; data := ""; extra := None |} in
  let attempts := [Opens (Sample.socket 1 None) [closing];
                   Fails (OtherException "refused") true;
                   Opens (Sample.socket 2 None) [closing]] in
  let final := fst (fst (run (env := Sample.environment) (Py.VStr "hello&world")
                           false attempts Sample.fresh)) in
  incl (websockets Sample.fresh) (websockets final)
  /\ exists w, In w (websockets final) /\ ws_id w = 1.
Proof.
  intros closing attempts final.
  destruct (run (env := Sample.environment) (Py.VStr "hello&world") false
              attempts Sample.fresh) as [[st' t] r] eqn:Hrun.
  subst final. simpl fst.
  apply (connected_sockets_stay_tracked (env := Sample.environment))
    with (s := "hello&world") (subscribe_all := false)
         (ws := Sample.socket 1 None) (frames := [closing])
         (rest := [Fails (OtherException "refused") true;
                   Opens (Sample.socket 2 None) [closing]])
         (st := Sample.fresh) (t := t) (r := r)
         (peer := (Py.VStr "127.0.0.1", Py.VInt 8088));
    [ | | reflexivity | exact Hrun].
  - intros id pos kw c. simpl. unfold Sample.calls.
    destruct id as [|[|[|[|[|[|id]]]]]]; reflexivity.
  - intros coro c. simpl. unfold Sample.awaits.
    do 8 (destruct coro as [|coro]; [reflexivity|]). reflexivity.
Defined.

(** ** Initialisation *)

(** X20.  When the API documents hold no entry named ['events'], [init]
    leaves the client without event models, and every registration of an
    object listener on it raises [ValueError], whatever the event type and
    the kind of object, and registers nothing. *)
Theorem no_events_api_no_object_listener (apis : list api_doc) (st : client)
    (event_type : string) (fn : nat) (factory_fn model_id : string)
    (at_ : Py.value) (a : list Py.value) (kw : list (string * Py.value)) :
  existsb (fun api => String.eqb (api_name api) "events") apis = false ->
  exists text,
    on_object_event event_type fn factory_fn model_id at_ a kw (init apis st)
    = (init apis st, [Logged "debug" "On object event"], Raise (ValueError text))
    /\ event_listeners (init apis st) = [].
Proof.
  intros Hnone.
  assert (Hmodels : models_of apis = []).
  { unfold models_of.
    destruct (filter _ apis) as [|api rest] eqn:Hf; [reflexivity|].
    assert (Hin : In api (filter (fun api => String.eqb (api_name api) "events")
                            apis)) by (rewrite Hf; now left).
    apply filter_In in Hin as [Hin Hname].
    assert (Hex : existsb (fun api => String.eqb (api_name api) "events") apis
                  = true) by (apply existsb_exists; eauto).
    congruence. }
  unfold on_object_event. rewrite bind_emit, bind_get.
  change (event_models (init apis st)) with (models_of apis).
  rewrite Hmodels. simpl.
  eexists. split; reflexivity.
Qed.

Lemma no_events_api_no_object_listener_witness :
  let apis := [{| api_name := "channels";
                  api_models := [("Channel", {| properties := [] |})] |}] in
  exists text,
    on_object_event "StasisStart" 1 "Channel" "Channel" (Py.VBool false) [] []
      (init apis Sample.fresh)
    = (init apis Sample.fresh, [Logged "debug" "On object event"],
       Raise (ValueError text))
    /\ event_listeners (init apis Sample.fresh) = [].
Proof.
  intros apis.
  apply (no_events_api_no_object_listener apis Sample.fresh "StasisStart" 1
           "Channel" "Channel" (Py.VBool false) [] []).
  reflexivity.
Defined.

(** ** Which messages reach which listeners, and which collect *)

Section DeliveryProperties.
Context {env : Environment}.

(** X21.  Only [ChannelDestroyed] triggers the collection pass: for a
    message of any other type, the destruction of a bridge or the end of a
    playback included, [process_ws] leaves the registry exactly as the
    caller's functions left it, so listeners bound to such an object are
    never removed by the client. *)
Theorem only_channel_destroyed_collects (msg : Py.value) (T : string)
    (st st' : client) (t : list event) (r : result unit) :
  (forall id pos kw c,
      event_listeners (fst (user_call id pos kw c)) = event_listeners c) ->
  (forall coro c,
      event_listeners (fst (await_coro coro c)) = event_listeners c) ->
  getitem msg "type" = Ok (Py.VStr T) ->
  String.eqb T "ChannelDestroyed" = false ->
  process_ws msg st = (st', t, r) ->
  event_listeners st' = event_listeners st.
Proof.
  intros Hcalls Hawaits Hty Hother. unfold process_ws.
  rewrite bind_get, Hty, bind_lift_ok, resolve_str, bind_lift_ok.
  intros Hrun. apply bind_inv in Hrun
    as [[s1 [t1 [[] [t2 [H1 [H2 _]]]]]] | [e [H1 _]]].
  - apply (dispatch_keeps event_listeners Hcalls Hawaits) in H1.
    rewrite bind_lift_ok in H2. cbn [Py.eq] in H2. rewrite Hother in H2.
    injection H2 as <- _ _. exact H1.
  - exact (dispatch_keeps event_listeners Hcalls Hawaits _ _ _ _ _ _ H1).
Qed.

(** X22.  A message whose type is the string ["*"] is looked up under
    ["*"] twice: when [process_ws] returns, every wildcard listener has
    been invoked twice with it, the whole list first and then the whole
    list again. *)
Theorem wildcard_typed_message_is_delivered_twice
    (d : list (string * Py.value)) (st st' : client) (t : list event) :
  Py.dict_get "type" d = Some (Py.VStr "*") ->
  process_ws (Py.VDict d) st = (st', t, Ok tt) ->
  invocations t
  = map (fun l => (l, Py.VDict d))
        (setdefault_listeners "*" (event_listeners st)
         ++ setdefault_listeners "*" (event_listeners st)).
Proof.
  intros Hty. unfold process_ws.
  rewrite bind_get. simpl getitem.
  rewrite Hty, bind_lift_ok, resolve_str, bind_lift_ok.
  intros Hrun. apply bind_inv in Hrun
    as [[s1 [t1 [[] [t2 [H1 [H2 ->]]]]]] | [e [_ Hr]]]; [|discriminate].
  rewrite bind_lift_ok in H2. simpl in H2. injection H2 as _ <-.
  rewrite app_nil_r.
  destruct (dispatch_invocations d _ _ _ _ _ H1) as [done [rest [Hs [Hi Hr]]]].
  rewrite (Hr Logic.eq_refl), app_nil_r in Hs. now rewrite Hi, Hs.
Qed.
End DeliveryProperties.

Lemma only_channel_destroyed_collects_witness :
  let msg := Py.VDict [("type", Py.VStr "BridgeDestroyed");
                       ("bridge", Py.VDict [("id", Py.VStr "42")])] in
  let st := set_event_listeners
              [("BridgeDestroyed", [Sample.plain 1]);
               ("StasisStart", [Sample.by_event_obj 2])] Sample.fresh in
  event_listeners
    (fst (fst (process_ws (env := MoreSamples.still_environment) msg st)))
  = event_listeners st.
Proof.
  intros msg st.
  destruct (process_ws (env := MoreSamples.still_environment) msg st)
    as [[st' t] r] eqn:Hrun.
  simpl fst.
  apply (only_channel_destroyed_collects (env := MoreSamples.still_environment)
           msg "BridgeDestroyed" st st' t r);
    [ | | reflexivity | reflexivity | exact Hrun].
  - intros id pos kw c. simpl. unfold MoreSamples.still_calls.
    destruct id as [|[|[|[|id]]]]; reflexivity.
  - intros coro c. simpl. unfold Sample.awaits.
    do 8 (destruct coro as [|coro]; [reflexivity|]). reflexivity.
Defined.

Lemma wildcard_typed_message_is_delivered_twice_witness :
  let d := [("type", Py.VStr "*")] in
  let st := set_event_listeners [("*", [Sample.plain 1; Sample.plain 2])]
              Sample.fresh in
  invocations (snd (fst (process_ws (env := Sample.environment) (Py.VDict d) st)))
  = map (fun l => (l, Py.VDict d))
        ([Sample.plain 1; Sample.plain 2] ++ [Sample.plain 1; Sample.plain 2]).
Proof.
  intros d st.
  apply (wildcard_typed_message_is_delivered_twice (env := Sample.environment)
           d st (fst (fst (process_ws (env := Sample.environment) (Py.VDict d) st))));
    reflexivity.
Defined.
